(** * ZEN-MIND booking subsystem: instant booking, join window, end-session
      and the session auto-end sweeper

    Shallow embedding of [src/server/routes/booking.js] and
    [src/server/services/sessionAutoEndService.js].

    - instants are JavaScript time values: integral milliseconds since the
      epoch, as [Z]; the time value of a date is at most 8.64e15 in
      magnitude, below 2^53, so sums and comparisons of instants are exact;
    - prices, and the quotients of time differences that [Math.ceil] and
      [Math.floor] round, are JavaScript Numbers: IEEE-754 binary64,
      through the axiom-free [SpecFloat] operations of the core library;
    - Mongoose documents are records, the three collections are lists kept
      in insertion order, and a route handler is a computation over the
      store that either completes or throws. *)

From Stdlib Require Import ZArith List String Ascii Bool Lia.
From Stdlib Require Import DecimalString.
From Stdlib Require Import Floats.SpecFloat.
Import ListNotations.

Open Scope string_scope.
Open Scope Z_scope.

(** ** JavaScript Numbers (binary64) *)

Module JsNumber.

Definition prec : Z := 53.
Definition emax : Z := 1024.

Definition Number : Type := spec_float.

(** The Number denoted by an integer literal. *)
Definition ofZ (z : Z) : Number := binary_normalize prec emax z 0 false.

Definition div (x y : Number) : Number := SFdiv prec emax x y.
Definition mul (x y : Number) : Number := SFmul prec emax x y.

(** [Math.ceil]: a finite value [(+/-m) * 2^e] with [e < 0] is rounded up
    to the next integer, which is below 2^53 in magnitude and so is a
    Number itself; every other value is returned as it is. *)
Definition Math_ceil (x : Number) : Number :=
  match x with
  | S754_finite s m e =>
      if 0 <=? e then x
      else
        let n := if s then Z.neg m else Z.pos m in
        binary_normalize prec emax (- ((- n) / 2 ^ (- e))) 0 s
  | _ => x
  end.

(** [Math.floor]: as [Math.ceil], rounding down. *)
Definition Math_floor (x : Number) : Number :=
  match x with
  | S754_finite s m e =>
      if 0 <=? e then x
      else
        let n := if s then Z.neg m else Z.pos m in
        binary_normalize prec emax (n / 2 ^ (- e)) 0 s
  | _ => x
  end.

(** [Math.max(x, y)]: NaN when one of the two is, and [+0] is larger
    than [-0]. *)
Definition Math_max (x y : Number) : Number :=
  match SFcompare x y with
  | None => S754_nan
  | Some Lt => y
  | Some Gt => x
  | Some Eq =>
      match x with
      | S754_zero true => y
      | _ => x
      end
  end.

(** [x === y] on Numbers. *)
Definition strictEq (x y : Number) : bool := SFeqb x y.

(** ToBoolean on a Number: [0], [-0] and [NaN] are falsy. *)
Definition truthy (x : Number) : bool :=
  match x with
  | S754_zero _ | S754_nan => false
  | _ => true
  end.

End JsNumber.

(** ** JavaScript strings used by the routes *)

Module JsString.

(** [String(n)] for an integral Number. *)
Definition ofZ (n : Z) : string := NilZero.string_of_int (Z.to_int n).

(** [String(x)], as a template literal applies it, for a Number that is
    an integer below 10^21 in magnitude or is not finite: the decimal
    digits of the integer, or the name of the value.  The finite Numbers
    the routes print are results of [Math.ceil]; the digits given for a
    Number with a fractional part are those of its integer part. *)
Definition ofNumber (x : JsNumber.Number) : string :=
  match x with
  | S754_zero _ => "0"
  | S754_infinity s => if s then "-Infinity" else "Infinity"
  | S754_nan => "NaN"
  | S754_finite s m e =>
      let n := if 0 <=? e then Z.pos m * 2 ^ e else Z.pos m / 2 ^ (- e) in
      ofZ (if s then - n else n)
  end.

Fixpoint repeat (c : ascii) (n : nat) : string :=
  match n with
  | O => EmptyString
  | S k => String c (repeat c k)
  end.

(** [s.padStart(n, c)] for a one-character filler. *)
Definition padStart (n : nat) (c : ascii) (s : string) : string :=
  repeat c (n - String.length s) ++ s.

(** [s.split(c)] for a one-character separator: the current piece is
    accumulated in [cur]. *)
Fixpoint split_from (c : ascii) (cur : string) (s : string) : list string :=
  match s with
  | EmptyString => [cur]
  | String a rest =>
      if Ascii.eqb a c then cur :: split_from c EmptyString rest
      else split_from c (cur ++ String a EmptyString) rest
  end.

Definition split (c : ascii) (s : string) : list string :=
  split_from c EmptyString s.

Definition digit (a : ascii) : option Z :=
  let n := Z.of_nat (nat_of_ascii a) in
  if (48 <=? n) && (n <=? 57) then Some (n - 48) else None.

Fixpoint digits (acc : Z) (s : string) : option Z :=
  match s with
  | EmptyString => Some acc
  | String a rest =>
      match digit a with
      | Some d => digits (10 * acc + d) rest
      | None => None
      end
  end.

(** [Number(s)] on the strings the sweeper meets: a run of decimal
    digits is its value and the empty string is 0; [None] stands for
    NaN.  Signs, blanks, fractions, exponents and radix prefixes, which
    [Number] also accepts, do not occur in an HH:MM string and are NaN
    here. *)
Definition toNumber (s : string) : option Z := digits 0 s.

End JsString.

(** ** JavaScript dates *)

Section JsDate.

(** Offset of the server's local time from UTC in milliseconds, taken
    as fixed (no daylight-saving change between two reads). *)
Variable tz : Z.

Definition msPerMinute : Z := 60000.
Definition msPerHour : Z := 3600000.
Definition msPerDay : Z := 86400000.

Definition localTime (t : Z) : Z := t + tz.

Definition getHours (t : Z) : Z := (localTime t / msPerHour) mod 24.
Definition getMinutes (t : Z) : Z := (localTime t / msPerMinute) mod 60.

(** [d.setHours(h, m, s, ms)]: same local day, given time of day. *)
Definition setHours (t h m s ms : Z) : Z :=
  (localTime t / msPerDay) * msPerDay
  + h * msPerHour + m * msPerMinute + s * 1000 + ms - tz.

(** [d.setMinutes(m)]: the minutes field of the local time is replaced,
    the other fields are kept. *)
Definition setMinutes (t m : Z) : Z :=
  localTime t - getMinutes t * msPerMinute + m * msPerMinute - tz.

(** [`${String(d.getHours()).padStart(2, '0')}:${String(d.getMinutes()).padStart(2, '0')}`] *)
Definition formatHM (t : Z) : string :=
  JsString.padStart 2 "0" (JsString.ofZ (getHours t)) ++ ":" ++
  JsString.padStart 2 "0" (JsString.ofZ (getMinutes t)).

End JsDate.

(** [const [hours, minutes] = s.split(':').map(Number)]; [None] when one
    of the two is NaN or missing. *)
Definition parseHM (s : string) : option (Z * Z) :=
  match map JsString.toNumber (JsString.split ":" s) with
  | Some h :: Some m :: _ => Some (h, m)
  | _ => None
  end.

(** ** Documents *)

(** ObjectIds, compared through [toString()]. *)
Definition Id : Type := string.

(** Modelled from the spec: the schema in [models/TherapistAuth.js] is
    not among the sources.  [therapist.currentSession], the availability
    ledger, has the four fields of the data model, nullable where the
    routes write [null]. *)
Record Session : Type := mkSession {
  isActive : bool;
  appointmentId : option Id;
  startedAt : option Z;
  endsAt : option Z
}.

(** The literal [{ isActive: false, appointmentId: null, startedAt: null,
    endsAt: null }] written by every clearing path. *)
Definition idleSession : Session := mkSession false None None None.

Module TherapistAuth.

Record Pricing : Type := mkPricing { perSession : JsNumber.Number }.

(** Modelled from the spec: the schema in [models/TherapistAuth.js] is
    not among the sources; these are the fields the routes read.
    [pricing] and [currentSession] may be absent, as the routes test. *)
Record doc : Type := mk {
  _id : Id;
  name : string;
  email : option string;
  profilePicture : option string;
  pricing : option Pricing;
  currentSession : option Session
}.

(** [therapist.currentSession = s] *)
Definition set_currentSession (t : doc) (s : Session) : doc :=
  mk (_id t) (name t) (email t) (profilePicture t) (pricing t) (Some s).

End TherapistAuth.

Module User.

(** Modelled from the spec: the schema in [models/User.js] is not among
    the sources; these are the fields the routes read. *)
Record doc : Type := mk {
  _id : Id;
  name : string;
  email : string;
  avatar : option string
}.

End User.

(** Modelled from the spec: the status enumeration of
    [models/Appointment.js], which is not among the sources; [cancelled]
    is written by the refund flow, outside these routes. *)
Inductive Status : Type := scheduled | completed | cancelled.

Definition Status_eqb (a b : Status) : bool :=
  match a, b with
  | scheduled, scheduled | completed, completed | cancelled, cancelled => true
  | _, _ => false
  end.

Module Appointment.

Record Payment : Type := mkPayment {
  amount : JsNumber.Number;
  currency : string;
  payment_status : string;
  transactionId : string;
  paidAt : Z;
  method : string
}.

(** Modelled from the spec: the schema in [models/Appointment.js] is not
    among the sources; these are the fields instant-book writes. *)
Record doc : Type := mk {
  _id : Id;
  userId : Id;
  therapistId : Id;
  therapistName : string;
  therapistAvatar : option string;
  date : Z;
  startTime : string;
  endTime : string;
  duration : Z;
  type : string;
  status : Status;
  payment : Payment;
  meetingLink : string
}.

(** [appointment.status = s] *)
Definition set_status (a : doc) (s : Status) : doc :=
  mk (_id a) (userId a) (therapistId a) (therapistName a)
     (therapistAvatar a) (date a) (startTime a) (endTime a) (duration a)
     (type a) s (payment a) (meetingLink a).

End Appointment.

(** ** The record store and computations over it *)

Record Store : Type := mkStore {
  therapists : list TherapistAuth.doc;
  appointments : list Appointment.doc;
  users : list User.doc
}.

(** How a block of statements ends: normally with a value, or by a thrown
    error carrying its message. *)
Inductive completion (A : Type) : Type :=
| Normal (a : A)
| Throw (e : string).

Arguments Normal {A} a.
Arguments Throw {A} e.

(** An [async] block: it reads and writes the store and keeps what it has
    written when it throws. *)
Definition Async (A : Type) : Type := Store -> completion A * Store.

Definition ret {A} (a : A) : Async A := fun st => (Normal a, st).

Definition throw {A} (e : string) : Async A := fun st => (Throw e, st).

Definition bind {A B} (c : Async A) (k : A -> Async B) : Async B :=
  fun st =>
    match c st with
    | (Normal a, st') => k a st'
    | (Throw e, st') => (Throw e, st')
    end.

Declare Scope async_scope.
Delimit Scope async_scope with async.

Notation "x <- c ;; k" := (bind c (fun x => k))
  (at level 100, c at next level, right associativity) : async_scope.
Notation "c ;; k" := (bind c (fun _ => k))
  (at level 100, right associativity) : async_scope.

Open Scope async_scope.

(** [for (const x of xs) { await body(x) }]: a throwing iteration ends
    the loop. *)
Fixpoint forOf {A} (xs : list A) (body : A -> Async unit) : Async unit :=
  match xs with
  | [] => ret tt
  | x :: rest => body x ;; forOf rest body
  end.

Module Db.

(** A saved document takes the place of the stored one with its [_id]. *)
Definition replace {D} (key : D -> Id) (d : D) (l : list D) : list D :=
  map (fun x => if String.eqb (key x) (key d) then d else x) l.

Definition therapistById (id : Id) (st : Store) : option TherapistAuth.doc :=
  find (fun t => String.eqb (TherapistAuth._id t) id) (therapists st).

Definition appointmentById (id : Id) (st : Store) : option Appointment.doc :=
  find (fun a => String.eqb (Appointment._id a) id) (appointments st).

Definition userById (id : Id) (st : Store) : option User.doc :=
  find (fun u => String.eqb (User._id u) id) (users st).

Definition withTherapist (t : TherapistAuth.doc) (st : Store) : Store :=
  mkStore (replace TherapistAuth._id t (therapists st))
          (appointments st) (users st).

Definition withAppointment (a : Appointment.doc) (st : Store) : Store :=
  mkStore (therapists st)
          (replace Appointment._id a (appointments st)) (users st).

(** [TherapistAuth.findById(id)] *)
Definition findTherapist (id : Id) : Async (option TherapistAuth.doc) :=
  fun st => (Normal (therapistById id st), st).

(** [therapist.save()] *)
Definition saveTherapist (t : TherapistAuth.doc) : Async unit :=
  fun st => (Normal tt, withTherapist t st).

(** [TherapistAuth.find(q)] *)
Definition queryTherapists (q : TherapistAuth.doc -> bool)
  : Async (list TherapistAuth.doc) :=
  fun st => (Normal (filter q (therapists st)), st).

(** [Appointment.findById(id)] *)
Definition findAppointment (id : Id) : Async (option Appointment.doc) :=
  fun st => (Normal (appointmentById id st), st).

(** [appointment.save()] *)
Definition saveAppointment (a : Appointment.doc) : Async unit :=
  fun st => (Normal tt, withAppointment a st).

(** [Appointment.create(a)] *)
Definition createAppointment (a : Appointment.doc) : Async Appointment.doc :=
  fun st =>
    (Normal a, mkStore (therapists st) (appointments st ++ [a]) (users st)).

(** [Appointment.find(q)] *)
Definition queryAppointments (q : Appointment.doc -> bool)
  : Async (list Appointment.doc) :=
  fun st => (Normal (filter q (appointments st)), st).

(** [User.findById(id)] *)
Definition findUser (id : Id) : Async (option User.doc) :=
  fun st => (Normal (userById id st), st).

End Db.

(** [appointmentId.toString()] on a nullable reference: reading a property
    of [null] throws. *)
Definition toString (x : option Id) : Async string :=
  match x with
  | Some i => ret i
  | None =>
      throw "Cannot read properties of null (reading 'toString')"
  end.

(** ** HTTP replies *)

(** The [data] member of a successful reply. *)
Inductive Payload : Type :=
| BookingData (appointment : Appointment.doc) (canJoinAt : Z)
| StatusData (isAvailable : bool) (availableAt : option Z)
             (currentSession : option Session)
| JoinData (meetingLink : string) (appointment : Appointment.doc)
           (isTherapist : bool) (otherName : string)
           (otherAvatar : option string).

(** [res.status(code).json({ success, message, availableAt, canJoinAt,
    error, data })]; a member the handler leaves out is [None]. *)
Record Response : Type := mkResponse {
  code : Z;
  success : bool;
  message : option string;
  availableAt : option Z;
  canJoinAt : option Z;
  error : option string;
  data : option Payload
}.

Definition failure (c : Z) (m : string) : Response :=
  mkResponse c false (Some m) None None None None.

(** The [catch (error)] clause of a route: status 500 with the route's
    message and [error.message]. *)
Definition serverError (m : string) (e : string) : Response :=
  mkResponse 500 false (Some m) None None (Some e) None.

(** [try { body } catch (error) { res.status(500)... }] *)
Definition route (body : Async Response) (m : string)
  : Store -> Response * Store :=
  fun st =>
    match body st with
    | (Normal r, st') => (r, st')
    | (Throw e, st') => (serverError m e, st')
    end.

(** What a request reads from outside the store: the clock (the reads of
    one request are taken at one instant [now]), the ObjectId given to a
    created document and the two [Math.random()] suffixes. *)
Record Env : Type := mkEnv {
  now : Z;
  newId : Id;
  rand1 : string;
  rand2 : string
}.

(** [req.body] of instant-book with the authenticated [req.user.id]. *)
Record BookRequest : Type := mkBookRequest {
  body_therapistId : option Id;
  body_duration : option Z;
  user_id : Id
}.

(** ** routes/booking.js *)

Section Routes.

Variable tz : Z.

(** The 10-minute buffer of end-session. *)
Definition cooldownSession (now : Z) : Session :=
  mkSession true None None (Some (now + 10 * 60000)).

(** [Math.ceil(therapist.pricing.perSession / 30 * duration)], the
    division and the product each rounded to binary64. *)
Definition sessionAmount (perSession : JsNumber.Number) (duration : Z)
  : JsNumber.Number :=
  let perMinuteRate := JsNumber.div perSession (JsNumber.ofZ 30) in
  JsNumber.Math_ceil (JsNumber.mul perMinuteRate (JsNumber.ofZ duration)).

(** instant-book from "Find user" on: the therapist passed the busy
    check.  The two notification e-mails are sent inside their own
    [try/catch] and change neither the store nor the reply. *)
Definition bookIdle (env : Env) (req : BookRequest) (duration : Z)
  (perSession : JsNumber.Number) (therapist : TherapistAuth.doc)
  : Async Response :=
  user <- Db.findUser (user_id req) ;;
  match user with
  | None => ret (failure 404 "User not found")
  | Some _ =>
      let sessionStart := now env + 5 * 60000 in
      let sessionEnd := sessionStart + duration * 60000 in
      let startTime := formatHM tz sessionStart in
      let endTime := formatHM tz sessionEnd in
      let amount := sessionAmount perSession duration in
      let fakeTransactionId :=
        "FAKE_" ++ JsString.ofZ (now env) ++ "_" ++ rand1 env in
      appointment <- Db.createAppointment
        (Appointment.mk (newId env) (user_id req)
           (TherapistAuth._id therapist) (TherapistAuth.name therapist)
           (TherapistAuth.profilePicture therapist)
           sessionStart startTime endTime duration "video" scheduled
           (Appointment.mkPayment amount "INR" "completed"
              fakeTransactionId (now env) "fake_payment")
           ("https://meet.jit.si/zenmind-" ++ JsString.ofZ (now env)
              ++ "-" ++ rand2 env)) ;;
      Db.saveTherapist
        (TherapistAuth.set_currentSession therapist
           (mkSession true (Some (Appointment._id appointment))
              (Some sessionStart) (Some sessionEnd))) ;;
      ret (mkResponse 200 true
             (Some "Session booked successfully! You can join in 5 minutes.")
             None None None (Some (BookingData appointment sessionStart)))
  end.

(** [const { therapistId, duration = 30 } = req.body] *)
Definition requestedDuration (req : BookRequest) : Z :=
  match body_duration req with Some d => d | None => 30 end.

Definition instantBookBody (env : Env) (req : BookRequest) : Async Response :=
  let duration := requestedDuration req in
  match body_therapistId req with
  | None => ret (failure 400 "Therapist ID and duration are required")
  | Some therapistId =>
      if String.eqb therapistId "" || (duration =? 0) then
        ret (failure 400 "Therapist ID and duration are required")
      else if negb (existsb (Z.eqb duration) [30; 60]) then
        ret (failure 400 "Duration must be 30 or 60 minutes")
      else
        found <- Db.findTherapist therapistId ;;
        match found with
        | None => ret (failure 404 "Therapist not found")
        | Some therapist =>
            match TherapistAuth.pricing therapist with
            | None => ret (failure 400 "Therapist pricing is not configured")
            | Some pricing =>
                let perSession := TherapistAuth.perSession pricing in
                if negb (JsNumber.truthy perSession) then
                  ret (failure 400 "Therapist pricing is not configured")
                else
                  (* Check if therapist is currently busy *)
                  match TherapistAuth.currentSession therapist with
                  | Some cs =>
                      if isActive cs then
                        match endsAt cs with
                        | None =>
                            let therapist :=
                              TherapistAuth.set_currentSession therapist
                                idleSession in
                            Db.saveTherapist therapist ;;
                            bookIdle env req duration perSession therapist
                        | Some sessionEndsAt =>
                            if now env <? sessionEndsAt then
                              ret (mkResponse 400 false
                                     (Some "Therapist is currently busy. Please try again later.")
                                     (Some sessionEndsAt) None None None)
                            else
                              let therapist :=
                                TherapistAuth.set_currentSession therapist
                                  idleSession in
                              Db.saveTherapist therapist ;;
                              bookIdle env req duration perSession therapist
                        end
                      else bookIdle env req duration perSession therapist
                  | None => bookIdle env req duration perSession therapist
                  end
            end
        end
  end.

(** POST /api/booking/instant-book *)
Definition instantBook (env : Env) (req : BookRequest)
  : Store -> Response * Store :=
  route (instantBookBody env req) "Error creating booking".

Definition therapistStatusBody (now : Z) (therapistId : Id)
  : Async Response :=
  found <- Db.findTherapist therapistId ;;
  match found with
  | None => ret (failure 404 "Therapist not found")
  | Some therapist =>
      let reply (isAvailable : bool) (availableAt : option Z)
                (therapist : TherapistAuth.doc) : Response :=
        mkResponse 200 true None None None None
          (Some (StatusData isAvailable availableAt
                   (TherapistAuth.currentSession therapist))) in
      match TherapistAuth.currentSession therapist with
      | Some cs =>
          if isActive cs then
            match endsAt cs with
            | None =>
                let therapist :=
                  TherapistAuth.set_currentSession therapist idleSession in
                Db.saveTherapist therapist ;;
                ret (reply true None therapist)
            | Some sessionEndsAt =>
                if now <? sessionEndsAt then
                  ret (reply false (Some sessionEndsAt) therapist)
                else
                  let therapist :=
                    TherapistAuth.set_currentSession therapist idleSession in
                  Db.saveTherapist therapist ;;
                  ret (reply true None therapist)
            end
          else ret (reply true None therapist)
      | None => ret (reply true None therapist)
      end
  end.

(** GET /api/booking/therapist-status/:therapistId *)
Definition therapistStatus (now : Z) (therapistId : Id)
  : Store -> Response * Store :=
  route (therapistStatusBody now therapistId) "Error checking therapist status".

(** The handler of join-session.  [waitTime] is computed on Numbers: the
    difference of the two time values, then its quotient by 60000, are
    each rounded to binary64 before [Math.ceil]. *)
Definition joinSessionBody (now : Z) (caller : Id) (id : Id)
  : Async Response :=
  found <- Db.findAppointment id ;;
  match found with
  | None => ret (failure 404 "Appointment not found")
  | Some appointment =>
      (* .populate('therapistId').populate('userId') *)
      therapist <- Db.findTherapist (Appointment.therapistId appointment) ;;
      user <- Db.findUser (Appointment.userId appointment) ;;
      match user with
      | None => throw "Cannot read properties of null (reading '_id')"
      | Some user =>
          let isUser := String.eqb (User._id user) caller in
          match therapist with
          | None => throw "Cannot read properties of null (reading '_id')"
          | Some therapist =>
              let isTherapist :=
                String.eqb (TherapistAuth._id therapist) caller in
              if negb isUser && negb isTherapist then
                ret (failure 403 "You are not authorized to join this session")
              else
                let sessionStart := Appointment.date appointment in
                let fiveMinBefore := sessionStart - 5 * 60000 in
                let sessionEnd :=
                  sessionStart + Appointment.duration appointment * 60000 in
                if now <? fiveMinBefore then
                  let waitTime :=
                    JsNumber.Math_ceil
                      (JsNumber.div (JsNumber.ofZ (fiveMinBefore - now))
                         (JsNumber.ofZ 60000)) in
                  ret (mkResponse 400 false
                         (Some ("Session can be joined in "
                                  ++ JsString.ofNumber waitTime
                                  ++ " minute(s)"))
                         None (Some fiveMinBefore) None None)
                else if sessionEnd <? now then
                  ret (failure 400 "This session has ended")
                else
                  ret (mkResponse 200 true None None None None
                         (Some
                            (if isTherapist then
                               JoinData (Appointment.meetingLink appointment)
                                 appointment isTherapist "Anonymous Teen"
                                 (Some
                                    (match User.avatar user with
                                     | Some a =>
                                         if String.eqb a "" then
                                           "https://api.dicebear.com/7.x/avataaars/svg?seed=teen"
                                         else a
                                     | None =>
                                         "https://api.dicebear.com/7.x/avataaars/svg?seed=teen"
                                     end))
                             else
                               JoinData (Appointment.meetingLink appointment)
                                 appointment isTherapist
                                 (Appointment.therapistName appointment)
                                 (Appointment.therapistAvatar appointment))))
          end
      end
  end.

(** POST /api/booking/join-session/:appointmentId *)
Definition joinSession (now : Z) (caller : Id) (id : Id)
  : Store -> Response * Store :=
  route (joinSessionBody now caller id) "Error joining session".

Definition endSessionBody (now : Z) (caller : Id) (id : Id)
  : Async Response :=
  found <- Db.findAppointment id ;;
  match found with
  | None => ret (failure 404 "Appointment not found")
  | Some appointment =>
      (* .populate('therapistId') *)
      populated <- Db.findTherapist (Appointment.therapistId appointment) ;;
      (* Update appointment status *)
      let appointment := Appointment.set_status appointment completed in
      Db.saveAppointment appointment ;;
      match populated with
      | None =>
          throw "Cannot read properties of null (reading 'currentSession')"
      | Some therapist =>
          references <-
            match TherapistAuth.currentSession therapist with
            | None => ret false
            | Some cs =>
                s <- toString (appointmentId cs) ;;
                ret (String.eqb s (Appointment._id appointment))
            end ;;
          (if references : bool then
             Db.saveTherapist
               (TherapistAuth.set_currentSession therapist
                  (cooldownSession now))
           else ret tt) ;;
          ret (mkResponse 200 true (Some "Session ended successfully")
                 None None None None)
      end
  end.

(** POST /api/booking/end-session/:appointmentId *)
Definition endSession (now : Z) (caller : Id) (id : Id)
  : Store -> Response * Store :=
  route (endSessionBody now caller id) "Error ending session".

End Routes.

(** ** services/sessionAutoEndService.js *)

Section AutoEnd.

Variable tz : Z.

(** [sessionDate.setHours(hours, minutes, 0, 0)] followed by
    [+ session.duration * 60000]; [None] is the invalid date a NaN field
    produces. *)
Definition sessionEndTime (session : Appointment.doc) : option Z :=
  match parseHM (Appointment.startTime session) with
  | Some (hours, minutes) =>
      Some (setHours tz (Appointment.date session) hours minutes 0 0
            + Appointment.duration session * 60000)
  | None => None
  end.

(** [now > sessionEndTime]; a comparison with an invalid date is false. *)
Definition hasEnded (now : Z) (session : Appointment.doc) : bool :=
  match sessionEndTime session with
  | Some e => e <? now
  | None => false
  end.

(** Body of the first loop, for one document of [expiredSessions]. *)
Definition autoEnd (now : Z) (session : Appointment.doc) : Async unit :=
  if hasEnded now session then
    let session := Appointment.set_status session completed in
    Db.saveAppointment session ;;
    (* Clear therapist's current session *)
    found <- Db.findTherapist (Appointment.therapistId session) ;;
    match found with
    | Some therapist =>
        match TherapistAuth.currentSession therapist with
        | Some cs =>
            if isActive cs then
              s <- toString (appointmentId cs) ;;
              if String.eqb s (Appointment._id session) then
                Db.saveTherapist
                  (TherapistAuth.set_currentSession therapist idleSession)
              else ret tt
            else ret tt
        | None => ret tt
        end
    | None => ret tt
    end
  else ret tt.

(** [Appointment.find({ status: 'scheduled', date: { $lte: now } })] *)
Definition isExpiredCandidate (now : Z) (a : Appointment.doc) : bool :=
  Status_eqb (Appointment.status a) scheduled && (Appointment.date a <=? now).

(** [TherapistAuth.find({ 'currentSession.isActive': true })] *)
Definition hasActiveSession (t : TherapistAuth.doc) : bool :=
  match TherapistAuth.currentSession t with
  | Some cs => isActive cs
  | None => false
  end.

(** Body of the second loop; [new Date(null)] is the epoch. *)
Definition clearExpired (now : Z) (therapist : TherapistAuth.doc)
  : Async unit :=
  match TherapistAuth.currentSession therapist with
  | Some cs =>
      let sessionEndsAt := match endsAt cs with Some e => e | None => 0 end in
      let sessionEndsAt :=
        setMinutes tz sessionEndsAt (getMinutes tz sessionEndsAt + 10) in
      if sessionEndsAt <? now then
        Db.saveTherapist
          (TherapistAuth.set_currentSession therapist idleSession)
      else ret tt
  | None => throw "Cannot read properties of null (reading 'endsAt')"
  end.

(** The first loop with its query. *)
Definition appointmentPass (now : Z) : Async unit :=
  expiredSessions <- Db.queryAppointments (isExpiredCandidate now) ;;
  forOf expiredSessions (autoEnd now).

(** The second loop with its query. *)
Definition ledgerPass (now : Z) : Async unit :=
  therapists <- Db.queryTherapists hasActiveSession ;;
  forOf therapists (clearExpired now).

(** One run of the cron callback: both loops inside the single
    [try/catch], whose handler logs the error; the result carries the
    logged message, if any. *)
Definition sweeperTick (now : Z) : Store -> option string * Store :=
  fun st =>
    match (appointmentPass now ;; ledgerPass now) st with
    | (Normal _, st') => (None, st')
    | (Throw e, st') => (Some e, st')
    end.

End AutoEnd.

(** ** The client components *)

Module Client.

Record PaymentView : Type := mkPaymentView {
  amount : JsNumber.Number;
  payment_status : string
}.

(** [interface TherapySession] of the appointments page; the two ISO
    date strings are held as the time values [new Date(...)] reads
    from them. *)
Record TherapySession : Type := mk {
  _id : Id;
  therapistId : Id;
  userId : Id;
  date : Z;
  startTime : string;
  endTime : string;
  duration : Z;
  status : Status;
  payment : PaymentView;
  createdAt : Z
}.

(** Modelled from the spec: the session the page receives for a stored
    appointment.  The API route that serializes it and the schema option
    that stamps [createdAt] are not among the sources. *)
Definition view (a : Appointment.doc) (createdAt : Z) : TherapySession :=
  mk (Appointment._id a) (Appointment.therapistId a) (Appointment.userId a)
     (Appointment.date a) (Appointment.startTime a) (Appointment.endTime a)
     (Appointment.duration a) (Appointment.status a)
     (mkPaymentView (Appointment.amount (Appointment.payment a))
        (Appointment.payment_status (Appointment.payment a)))
     createdAt.

End Client.

Section ClientComponents.

(** Offset of the browser's local time from UTC in milliseconds. *)
Variable tz : Z.

(** [const d = new Date(date); d.setHours(h, m, 0, 0)] with [h] and [m]
    read from an HH:MM string; [None] is the invalid date that a NaN
    field produces. *)
Definition atTimeOfDay (date : Z) (hm : string) : option Z :=
  match parseHM hm with
  | Some (hours, minutes) => Some (setHours tz date hours minutes 0 0)
  | None => None
  end.

(** [canJoinSession] of the appointments page, at [currentTime]. *)
Definition canJoinSession (currentTime : Z) (session : Client.TherapySession)
  : bool :=
  let fiveMinutesAfterBooking := Client.createdAt session + 5 * 60000 in
  let sessionEndDate :=
    atTimeOfDay (Client.date session) (Client.endTime session) in
  (fiveMinutesAfterBooking <=? currentTime)
  && match sessionEndDate with
     | Some e => currentTime <=? e
     | None => false
     end
  && Status_eqb (Client.status session) scheduled.

(** [canJoinSession] of the therapist portal: the same test without the
    status. *)
Definition therapistCanJoinSession (currentTime : Z)
  (appointment : Client.TherapySession) : bool :=
  let fiveMinutesAfterBooking := Client.createdAt appointment + 5 * 60000 in
  let sessionEndDate :=
    atTimeOfDay (Client.date appointment) (Client.endTime appointment) in
  (fiveMinutesAfterBooking <=? currentTime)
  && match sessionEndDate with
     | Some e => currentTime <=? e
     | None => false
     end.

(** [isSessionExpired] of the appointments page. *)
Definition isSessionExpired (currentTime : Z)
  (session : Client.TherapySession) : bool :=
  match atTimeOfDay (Client.date session) (Client.endTime session) with
  | Some e => e <? currentTime
  | None => false
  end.

(** [handleJoinSession]: the request is sent only when [canJoinSession]
    holds on the page's [currentTime], a state refreshed once a minute;
    the server answers it at its own clock reading [serverNow].  [None]
    is the refusal shown without asking the server. *)
Definition handleJoinSession (currentTime serverNow : Z) (caller : Id)
  (session : Client.TherapySession) (st : Store)
  : option (Response * Store) :=
  if canJoinSession currentTime session then
    Some (joinSession serverNow caller (Client._id session) st)
  else None.

(** The [sessionEndTime] both pages pass to the call component:
    [sessionDate.setHours(hours, minutes, 0, 0)] plus the duration. *)
Definition callEndTime (session : Client.TherapySession) : option Z :=
  match atTimeOfDay (Client.date session) (Client.startTime session) with
  | Some start => Some (start + Client.duration session * 60000)
  | None => None
  end.

(** [Math.max(0, Math.floor((endTime.getTime() - now.getTime()) / 1000))]
    of the countdown, on Numbers: the difference of the two time values
    and its quotient by 1000 are each rounded to binary64. *)
Definition timeRemaining (sessionEndTime now : Z) : JsNumber.Number :=
  JsNumber.Math_max (JsNumber.ofZ 0)
    (JsNumber.Math_floor
       (JsNumber.div (JsNumber.ofZ (sessionEndTime - now))
          (JsNumber.ofZ 1000))).

(** [endCall]: the end-session request is sent when the component was
    given an appointment id; the server handles it at its own clock
    reading [serverNow]. *)
Definition endCall (serverNow : Z) (caller : Id) (appointmentId : option Id)
  (st : Store) : Store :=
  match appointmentId with
  | Some id =>
      if String.eqb id "" then st
      else snd (endSession serverNow caller id st)
  | None => st
  end.

(** One run of [updateTimer] at the browser's clock reading [now]: the
    remaining seconds it displays and the store after it, [endCall]
    being run when [remaining === 0]. *)
Definition updateTimer (sessionEndTime now serverNow : Z) (caller : Id)
  (appointmentId : option Id) (st : Store) : JsNumber.Number * Store :=
  let remaining := timeRemaining sessionEndTime now in
  (remaining,
   if JsNumber.strictEq remaining (JsNumber.ofZ 0)
   then endCall serverNow caller appointmentId st
   else st).

End ClientComponents.

(** ** A running example *)

Module Example.

(** Asia/Kolkata, UTC+05:30. *)
Definition tz : Z := 19800000.

(** 2023-11-14T22:13:20Z *)
Definition T0 : Z := 1700000000000.

Definition minutes (n : Z) : Z := n * 60000.

Definition therapist (id : Id) (perSession : Z) (s : option Session)
  : TherapistAuth.doc :=
  TherapistAuth.mk id "Dr. Rao" (Some "rao@example.org") None
    (Some (TherapistAuth.mkPricing (JsNumber.ofZ perSession))) s.

Definition teen : User.doc := User.mk "u1" "Asha" "asha@example.org" None.
Definition stranger : User.doc := User.mk "u9" "Mallory" "m@example.org" None.

(** One idle therapist charging 500 per session, and two users. *)
Definition idleStore : Store :=
  mkStore [therapist "t1" 500 (Some idleSession)] [] [teen; stranger].

Definition env0 : Env := mkEnv T0 "a1" "k3x9q" "p0z7m".

Definition book (duration : Z) : BookRequest :=
  mkBookRequest (Some "t1") (Some duration) "u1".

(** The store after [u1] booked 30 minutes with [t1] at [T0]. *)
Definition bookedStore : Store := snd (instantBook tz env0 (book 30) idleStore).

(** The same booking, later cancelled by the refund flow. *)
Definition cancelledStore : Store :=
  mkStore (therapists bookedStore)
          (map (fun a => Appointment.set_status a cancelled)
               (appointments bookedStore))
          (users bookedStore).

(** A therapist whose ledger is active without an end instant. *)
Definition corruptStore : Store :=
  mkStore
    [therapist "t1" 500 (Some (mkSession true (Some "a0") (Some T0) None))]
    [] [teen; stranger].

Definition overdue (id : Id) (therapistId : Id) : Appointment.doc :=
  Appointment.mk id "u1" therapistId "Dr. Rao" None
    T0 (formatHM tz T0) (formatHM tz (T0 + minutes 30)) 30 "video" scheduled
    (Appointment.mkPayment (JsNumber.ofZ 500) "INR" "completed" "FAKE_1_x" T0
       "fake_payment")
    "https://meet.jit.si/zenmind-1-x".

(** Two overdue scheduled appointments: [a1] with a therapist in cooldown
    (active ledger without appointment), [a2] still referenced by its
    therapist's ledger; and a third therapist whose cooldown is long over. *)
Definition sweepStore : Store :=
  mkStore
    [therapist "t1" 500 (Some (mkSession true None None (Some (T0 + minutes 41))));
     therapist "t2" 500
       (Some (mkSession true (Some "a2") (Some T0) (Some (T0 + minutes 30))));
     therapist "t3" 500 (Some (mkSession true None None (Some T0)))]
    [overdue "a1" "t1"; overdue "a2" "t2"]
    [teen; stranger].

(** The ledger and the appointment that booking wrote. *)
Definition bookedSession : Session :=
  mkSession true (Some "a1") (Some (T0 + minutes 5)) (Some (T0 + minutes 35)).

Definition bookedTherapist : TherapistAuth.doc :=
  therapist "t1" 500 (Some bookedSession).

Definition bookedAppointment : Appointment.doc :=
  Appointment.mk "a1" "u1" "t1" "Dr. Rao" None
    (T0 + minutes 5) "03:48" "04:18" 30 "video" scheduled
    (Appointment.mkPayment (sessionAmount (JsNumber.ofZ 500) 30) "INR"
       "completed" "FAKE_1700000000000_k3x9q" T0 "fake_payment")
    "https://meet.jit.si/zenmind-1700000000000-p0z7m".


(** A second request, one minute after the first. *)
Definition env1 : Env := mkEnv (T0 + minutes 1) "a2" "w4e8r" "b6n2v".

(** The amount on the appointment created when [u1] books [duration]
    minutes with an idle therapist whose price is [perSession]. *)
Definition chargedAmount (perSession duration : Z) : option JsNumber.Number :=
  match data (fst (instantBook tz env0 (book duration)
                     (mkStore [therapist "t1" perSession (Some idleSession)]
                        [] [teen]))) with
  | Some (BookingData a _) => Some (Appointment.amount (Appointment.payment a))
  | _ => None
  end.

End Example.

(** ** Vocabulary of the statements *)

(** The request passes the checks that precede the busy check of
    instant-book: a non-empty therapist id, a duration of 30 or 60, a
    stored therapist [t] under that id with a truthy price [p]. *)
Definition passesValidation (req : BookRequest) (st : Store)
  (t : TherapistAuth.doc) (p : JsNumber.Number) : Prop :=
  body_therapistId req = Some (TherapistAuth._id t)
  /\ TherapistAuth._id t <> ""
  /\ (requestedDuration req = 30 \/ requestedDuration req = 60)
  /\ Db.therapistById (TherapistAuth._id t) st = Some t
  /\ option_map TherapistAuth.perSession (TherapistAuth.pricing t) = Some p
  /\ JsNumber.truthy p = true.

(** The ledger of the therapist stored under [id]. *)
Definition ledger (id : Id) (st : Store) : option Session :=
  match Db.therapistById id st with
  | Some t => TherapistAuth.currentSession t
  | None => None
  end.

(** The status of the appointment stored under [id]. *)
Definition statusOf (id : Id) (st : Store) : option Status :=
  option_map Appointment.status (Db.appointmentById id st).

(** The reply of instant-book to a request against a busy therapist. *)
Definition busyReply (sessionEndsAt : Z) : Response :=
  mkResponse 400 false
    (Some "Therapist is currently busy. Please try again later.")
    (Some sessionEndsAt) None None None.

(** The operations on the shared store, and the store a sequence of them
    leaves. *)
Inductive Operation : Type :=
| InstantBook (env : Env) (req : BookRequest)
| TherapistStatus (now : Z) (therapistId : Id)
| JoinSession (now : Z) (caller : Id) (id : Id)
| EndSession (now : Z) (caller : Id) (id : Id)
| SweeperTick (now : Z).

Definition perform (tz : Z) (op : Operation) (st : Store) : Store :=
  match op with
  | InstantBook env req => snd (instantBook tz env req st)
  | TherapistStatus now therapistId => snd (therapistStatus now therapistId st)
  | JoinSession now caller id => snd (joinSession now caller id st)
  | EndSession now caller id => snd (endSession now caller id st)
  | SweeperTick now => snd (sweeperTick tz now st)
  end.

Definition run (tz : Z) (ops : list Operation) (st : Store) : Store :=
  fold_left (fun s op => perform tz op s) ops st.

(** An operation other than end-session; a booking among them creates
    its document under a fresh id, different from [id]. *)
Definition spares (id : Id) (op : Operation) : bool :=
  match op with
  | InstantBook env _ => negb (String.eqb (newId env) id)
  | EndSession _ _ _ => false
  | _ => true
  end.

(** No document stored under [id] is still scheduled. *)
Definition terminalUnder (id : Id) (st : Store) : Prop :=
  forall x, In x (appointments st) -> Appointment._id x = id ->
            Appointment.status x <> scheduled.

(** [st'] keeps what is stored under [id]: the same document is found
    there, and if none was scheduled none is. *)
Definition keeps (id : Id) (st st' : Store) : Prop :=
  Db.appointmentById id st' = Db.appointmentById id st
  /\ (terminalUnder id st -> terminalUnder id st').

(** An HH:MM string written by [formatHM] is read back by [parseHM]. *)
Definition readsBack (h m : Z) : bool :=
  match parseHM (JsString.padStart 2 "0" (JsString.ofZ h) ++ ":" ++
                 JsString.padStart 2 "0" (JsString.ofZ m)) with
  | Some (h', m') => (h' =? h) && (m' =? m)
  | None => false
  end.

Definition upto (n : nat) : list Z := map Z.of_nat (seq 0 n).

(** The instant until which the busy check of the two read paths finds
    the ledger occupied at [now]; [None] when the check lets a booking
    through. *)
Definition busyUntil (now : Z) (s : option Session) : option Z :=
  match s with
  | Some cs =>
      if isActive cs then
        match endsAt cs with
        | Some e => if now <? e then Some e else None
        | None => None
        end
      else None
  | None => None
  end.

(** The document instant-book passes to [Appointment.create]. *)
Definition createdAppointment (tz : Z) (env : Env) (req : BookRequest)
  (t : TherapistAuth.doc) (p : JsNumber.Number) : Appointment.doc :=
  Appointment.mk (newId env) (user_id req)
    (TherapistAuth._id t) (TherapistAuth.name t)
    (TherapistAuth.profilePicture t)
    (now env + 300000)
    (formatHM tz (now env + 300000))
    (formatHM tz (now env + 300000 + requestedDuration req * 60000))
    (requestedDuration req) "video" scheduled
    (Appointment.mkPayment (sessionAmount p (requestedDuration req)) "INR"
       "completed" ("FAKE_" ++ JsString.ofZ (now env) ++ "_" ++ rand1 env)
       (now env) "fake_payment")
    ("https://meet.jit.si/zenmind-" ++ JsString.ofZ (now env)
       ++ "-" ++ rand2 env).

(** The ledger instant-book writes after creating the appointment. *)
Definition occupiedSession (env : Env) (req : BookRequest) : Session :=
  mkSession true (Some (newId env)) (Some (now env + 300000))
    (Some (now env + 300000 + requestedDuration req * 60000)).

(** The reply of a successful instant-book. *)
Definition bookedReply (a : Appointment.doc) : Response :=
  mkResponse 200 true
    (Some "Session booked successfully! You can join in 5 minutes.")
    None None None (Some (BookingData a (Appointment.date a))).

(** The reply of therapist-status. *)
Definition statusReply (isAvailable : bool) (availableAt : option Z)
  (s : option Session) : Response :=
  mkResponse 200 true None None None None
    (Some (StatusData isAvailable availableAt s)).

(** An operation that creates no document under [id]. *)
Definition createsElsewhere (id : Id) (op : Operation) : bool :=
  match op with
  | InstantBook env _ => negb (String.eqb (newId env) id)
  | _ => true
  end.

(** Every active ledger of the store references an appointment. *)
Definition ledgersReferenced (st : Store) : Prop :=
  forall t cs, In t (therapists st) ->
               TherapistAuth.currentSession t = Some cs ->
               isActive cs = true -> appointmentId cs <> None.

(** Equality of two Numbers as values of the datatype. *)
Definition Number_eqb (x y : JsNumber.Number) : bool :=
  match x, y with
  | S754_zero a, S754_zero b => Bool.eqb a b
  | S754_infinity a, S754_infinity b => Bool.eqb a b
  | S754_nan, S754_nan => true
  | S754_finite s m e, S754_finite s' m' e' =>
      Bool.eqb s s' && Pos.eqb m m' && Z.eqb e e'
  | _, _ => false
  end.

(** The amount for the integral price [p] is the exact [p * d / 30] or
    one more. *)
Definition chargesWithinOne (d p : Z) : bool :=
  Number_eqb (sessionAmount (JsNumber.ofZ p) d) (JsNumber.ofZ (p * d / 30))
  || Number_eqb (sessionAmount (JsNumber.ofZ p) d)
       (JsNumber.ofZ (p * d / 30 + 1)).

(** An HH:MM string has five characters. *)
Definition fiveChars (h m : Z) : bool :=
  Nat.eqb
    (String.length
       (JsString.padStart 2 "0" (JsString.ofZ h) ++ ":" ++
        JsString.padStart 2 "0" (JsString.ofZ m)))
    5.

(** A booking made at 23:43 local time: the session starts at 23:48 and
    ends at 00:18 of the next day. *)
Module Night.

Definition env : Env := mkEnv (Example.T0 + 72000000) "a7" "q1w2e" "z9x8c".

Definition appointment : Appointment.doc :=
  createdAppointment Example.tz env (Example.book 30)
    (Example.therapist "t1" 500 (Some idleSession)) (JsNumber.ofZ 500).

Definition store : Store :=
  snd (instantBook Example.tz env (Example.book 30) Example.idleStore).

End Night.

(** A therapist whose ledger references the current booking [a1] while
    an older appointment [a0] of the same therapist is still stored. *)
Module Overlap.

Definition store : Store :=
  mkStore [Example.bookedTherapist]
          [Example.overdue "a0" "t1"; Example.bookedAppointment]
          [Example.teen; Example.stranger].

End Overlap.

(** ** Properties *)

(** *** Saved documents and lookups *)

Section Lookup.

Context {D : Type} (key : D -> Id).

Lemma find_key (id : Id) (l : list D) (x : D) :
  find (fun y => String.eqb (key y) id) l = Some x -> key x = id.
Proof.
  intros H. apply find_some in H. destruct H as [_ H].
  now apply String.eqb_eq.
Qed.

Lemma find_replace_same (d : D) (l : list D) (x : D) :
  find (fun y => String.eqb (key y) (key d)) l = Some x ->
  find (fun y => String.eqb (key y) (key d)) (Db.replace key d l) = Some d.
Proof.
  induction l as [|a l IH]; simpl; [discriminate|].
  destruct (String.eqb (key a) (key d)) eqn:E; simpl.
  - intros _. now rewrite String.eqb_refl.
  - rewrite E. exact IH.
Qed.

Lemma find_replace_other (d : D) (l : list D) (id : Id) :
  key d <> id ->
  find (fun y => String.eqb (key y) id) (Db.replace key d l)
  = find (fun y => String.eqb (key y) id) l.
Proof.
  intros Hne. induction l as [|a l IH]; simpl; [reflexivity|].
  destruct (String.eqb (key a) (key d)) eqn:E.
  - apply String.eqb_eq in E.
    assert (Hd : String.eqb (key d) id = false) by now apply String.eqb_neq.
    rewrite Hd, E, Hd. exact IH.
  - destruct (String.eqb (key a) id); [reflexivity | exact IH].
Qed.

End Lookup.

Lemma therapistById_id id st t :
  Db.therapistById id st = Some t -> TherapistAuth._id t = id.
Proof. apply find_key. Qed.

Lemma appointmentById_id id st a :
  Db.appointmentById id st = Some a -> Appointment._id a = id.
Proof. apply find_key. Qed.

Lemma therapistById_withTherapist id st t s :
  Db.therapistById id st = Some t ->
  Db.therapistById id
    (Db.withTherapist (TherapistAuth.set_currentSession t s) st)
  = Some (TherapistAuth.set_currentSession t s).
Proof.
  intros H. pose proof (therapistById_id _ _ _ H) as Hid. subst id.
  unfold Db.therapistById, Db.withTherapist; simpl.
  change (TherapistAuth._id t)
    with (TherapistAuth._id (TherapistAuth.set_currentSession t s)).
  eapply find_replace_same. exact H.
Qed.

Lemma appointmentById_withAppointment id st a s :
  Db.appointmentById id st = Some a ->
  Db.appointmentById id (Db.withAppointment (Appointment.set_status a s) st)
  = Some (Appointment.set_status a s).
Proof.
  intros H. pose proof (appointmentById_id _ _ _ H) as Hid. subst id.
  unfold Db.appointmentById, Db.withAppointment; simpl.
  change (Appointment._id a)
    with (Appointment._id (Appointment.set_status a s)).
  eapply find_replace_same. exact H.
Qed.

(** *** Numbers *)

Section NumberFacts.

Ltac pows :=
  pose proof (eq_refl : 2 ^ 52 = 4503599627370496);
  pose proof (eq_refl : 2 ^ 53 = 9007199254740992);
  pose proof (eq_refl : 2 ^ 54 = 18014398509481984).

(** A positive number has [digits2_pos] binary digits. *)
Lemma digits2_pos_bounds p :
  2 ^ (Z.pos (digits2_pos p) - 1) <= Z.pos p < 2 ^ Z.pos (digits2_pos p).
Proof.
  induction p as [p IH | p IH |]; cbn [digits2_pos].
  - rewrite Pos2Z.inj_succ.
    replace (Z.succ (Z.pos (digits2_pos p)) - 1)
      with (Z.succ (Z.pos (digits2_pos p) - 1)) by lia.
    rewrite !Z.pow_succ_r by lia. lia.
  - rewrite Pos2Z.inj_succ.
    replace (Z.succ (Z.pos (digits2_pos p)) - 1)
      with (Z.succ (Z.pos (digits2_pos p) - 1)) by lia.
    rewrite !Z.pow_succ_r by lia. lia.
  - simpl. lia.
Qed.

Lemma digits2_pos_unique p k :
  2 ^ (k - 1) <= Z.pos p < 2 ^ k -> Z.pos (digits2_pos p) = k.
Proof.
  intros [Hlo Hhi].
  pose proof (digits2_pos_bounds p) as [Blo Bhi].
  assert (Hk : 0 < k).
  { destruct (Z_lt_le_dec 0 k) as [|Hk]; [assumption|].
    assert (2 ^ k <= 2 ^ 0) by (apply Z.pow_le_mono_r; lia).
    simpl in *. lia. }
  assert (H1 : Z.pos (digits2_pos p) - 1 < k)
    by (apply (Z.pow_lt_mono_r_iff 2); lia).
  assert (H2 : k - 1 < Z.pos (digits2_pos p))
    by (apply (Z.pow_lt_mono_r_iff 2); lia).
  lia.
Qed.

Lemma iter_xO p n : Z.pos (Pos.iter xO p n) = Z.pos p * 2 ^ Z.pos n.
Proof.
  induction n as [|n IH] using Pos.peano_ind.
  - simpl. lia.
  - rewrite Pos.iter_succ, Pos2Z.inj_succ, Z.pow_succ_r by lia.
    rewrite Pos2Z.inj_xO, IH. lia.
Qed.

Lemma loc_of_record m l : loc_of_shr_record (shr_record_of_loc m l) = l.
Proof. destruct l as [|[]]; reflexivity. Qed.

(** The exponent of a normal binary64 value with [e] integer digits. *)
Lemma fexp_normal e : -1021 <= e -> fexp 53 1024 e = e - 53.
Proof. intros H. unfold fexp, emin. apply Z.max_l. lia. Qed.

(** The last step of a rounding: a mantissa of 53 bits is kept, the
    mantissa 2^53 that a carry produces is renormalised. *)
Lemma round_finish s m1 e :
  2 ^ 52 <= m1 <= 2 ^ 53 -> -1074 <= e <= 970 ->
  exists m e2,
    (let '(mrs, e'') := shr_fexp 53 1024 m1 e loc_Exact in
     match shr_m mrs with
     | 0 => S754_zero s
     | Z.pos m => if e'' <=? 1024 - 53 then S754_finite s m e''
                  else S754_infinity s
     | Z.neg _ => S754_nan
     end) = S754_finite s m e2
    /\ e <= e2 <= e + 1
    /\ Z.pos m * 2 ^ (e2 - e) = m1
    /\ (m1 < 2 ^ 53 -> e2 = e).
Proof.
  intros Hm He. pows.
  destruct m1 as [|p|p]; try (exfalso; lia).
  destruct (Z.eq_dec (Z.pos p) (2 ^ 53)) as [E | N].
  - injection E as ->.
    unfold shr_fexp. cbn [Zdigits2 digits2_pos Pos.succ].
    rewrite fexp_normal by lia.
    replace (54 + e - 53 - e) with 1 by lia.
    cbn [shr shr_record_of_loc iter_pos shr_1 shr_m].
    exists 4503599627370496%positive, (e + 1).
    assert (Hle : (e + 1 <=? 1024 - 53) = true) by (apply Z.leb_le; lia).
    rewrite Hle. split; [reflexivity|]. split; [lia|].
    split; [|lia].
    replace (e + 1 - e) with 1 by lia. reflexivity.
  - assert (Hd : Z.pos (digits2_pos p) = 53)
      by (apply digits2_pos_unique; change (53 - 1) with 52; lia).
    unfold shr_fexp. cbn [Zdigits2]. rewrite Hd.
    rewrite fexp_normal by lia.
    replace (53 + e - 53 - e) with 0 by lia.
    cbn [shr shr_record_of_loc shr_m].
    exists p, e.
    assert (Hle : (e <=? 1024 - 53) = true) by (apply Z.leb_le; lia).
    rewrite Hle. split; [reflexivity|]. split; [lia|].
    split; [|reflexivity].
    replace (e - e) with 0 by lia. change (2 ^ 0) with 1. lia.
Qed.

(** A normalised mantissa passes through the rounding unchanged. *)
Lemma round_exact s m e :
  Z.pos (digits2_pos m) = 53 -> -1074 <= e <= 970 ->
  binary_round_aux 53 1024 s (Z.pos m) e loc_Exact = S754_finite s m e.
Proof.
  intros Hd He.
  pose proof (digits2_pos_bounds m) as Hb. rewrite Hd in Hb.
  change (53 - 1) with 52 in Hb. pows.
  unfold binary_round_aux.
  unfold shr_fexp at 1. cbn [Zdigits2]. rewrite Hd.
  rewrite fexp_normal by lia.
  replace (53 + e - 53 - e) with 0 by lia.
  cbn [shr shr_record_of_loc shr_m loc_of_shr_record round_nearest_even].
  destruct (round_finish s (Z.pos m) e ltac:(lia) He)
    as (m' & e2 & -> & He2 & Hv & Hsame).
  assert (e2 = e) by (apply Hsame; lia).
  subst e2. replace (e - e) with 0 in Hv by lia.
  change (2 ^ 0) with 1 in Hv. f_equal. lia.
Qed.

(** Rounding to nearest, ties to even, of a quotient [q] of 53 or 54
    bits with the location [l] of the exact value between [q] and
    [q + 1]: in units of [2 ^ e] the result is within one of [q], below
    [q] only when [q] is itself the exact value, and [q] when that is
    even. *)
Lemma round_quotient s q e l :
  2 ^ 52 <= q < 2 ^ 54 -> -1074 <= e <= 969 ->
  exists m e2,
    binary_round_aux 53 1024 s q e l = S754_finite s m e2
    /\ e <= e2 <= e + 2
    /\ q - 1 <= Z.pos m * 2 ^ (e2 - e) <= q + 1
    /\ (Z.pos m * 2 ^ (e2 - e) < q -> l = loc_Exact)
    /\ (l = loc_Exact -> Z.even q = true -> Z.pos m * 2 ^ (e2 - e) = q).
Proof.
  intros Hq He. pows.
  destruct q as [|p|p]; try (exfalso; lia).
  destruct (Z_lt_le_dec (Z.pos p) (2 ^ 53)) as [Hs | Hl].
  - (* 53 bits: nothing is shifted out before the rounding *)
    assert (Hd : Z.pos (digits2_pos p) = 53)
      by (apply digits2_pos_unique; change (53 - 1) with 52; lia).
    unfold binary_round_aux.
    unfold shr_fexp at 1. cbn [Zdigits2]. rewrite Hd.
    rewrite fexp_normal by lia.
    replace (53 + e - 53 - e) with 0 by lia.
    cbn [shr]. rewrite loc_of_record.
    replace (shr_m (shr_record_of_loc (Z.pos p) l)) with (Z.pos p)
      by (destruct l as [|[]]; reflexivity).
    set (m1 := round_nearest_even (Z.pos p) l).
    assert (Hm1 : (m1 = Z.pos p \/ (m1 = Z.pos p + 1 /\ l <> loc_Exact))
                  /\ (l = loc_Exact -> m1 = Z.pos p)).
    { subst m1. destruct l as [|[]]; cbn [round_nearest_even].
      - split; [now left | reflexivity].
      - split; [|discriminate].
        destruct (Z.even (Z.pos p));
          [now left | right; split; [reflexivity | discriminate]].
      - split; [now left | discriminate].
      - split; [right; split; [reflexivity | discriminate] | discriminate]. }
    destruct (round_finish s m1 e ltac:(lia) ltac:(lia))
      as (m & e2 & -> & He2 & Hv & _).
    exists m, e2. split; [reflexivity|]. split; [lia|].
    rewrite Hv. split; [lia|]. split; [lia|].
    intros Hl _. now apply Hm1.
  - (* 54 bits: the last bit is shifted out and joins the location *)
    assert (Hd : Z.pos (digits2_pos p) = 54)
      by (apply digits2_pos_unique; change (54 - 1) with 53; lia).
    unfold binary_round_aux.
    unfold shr_fexp at 1. cbn [Zdigits2]. rewrite Hd.
    rewrite fexp_normal by lia.
    replace (54 + e - 53 - e) with 1 by lia.
    cbn [shr iter_pos].
    set (rec := shr_1 (shr_record_of_loc (Z.pos p) l)).
    set (m1 := round_nearest_even (shr_m rec) (loc_of_shr_record rec)).
    assert (Hm1 : 2 ^ 52 <= m1 <= 2 ^ 53
                  /\ Z.pos p - 1 <= 2 * m1 <= Z.pos p + 1
                  /\ (2 * m1 < Z.pos p -> l = loc_Exact)
                  /\ (l = loc_Exact -> Z.even (Z.pos p) = true
                      -> 2 * m1 = Z.pos p)).
    { subst m1 rec.
      destruct p as [p' | p' |]; [| |lia].
      - assert (Hp : 2 ^ 52 <= Z.pos p' < 2 ^ 53) by lia.
        assert (Hodd : Z.even (Z.pos p'~1) = false) by reflexivity.
        destruct l as [|[]];
          cbn [shr_record_of_loc shr_1 shr_m shr_r shr_s orb
               loc_of_shr_record round_nearest_even];
          try destruct (Z.even (Z.pos p'));
          (split; [lia|]; split; [lia|];
           split; [intros; try reflexivity; lia | intros; congruence]).
      - assert (Hp : 2 ^ 52 <= Z.pos p' < 2 ^ 53) by lia.
        destruct l as [|[]];
          cbn [shr_record_of_loc shr_1 shr_m shr_r shr_s orb
               loc_of_shr_record round_nearest_even];
          (split; [lia|]; split; [lia|];
           split; [intros; try reflexivity; lia
                  | intros; try lia; discriminate]). }
    destruct Hm1 as (Hr & Hn & Hlt & Hev).
    destruct (round_finish s m1 (e + 1) Hr ltac:(lia))
      as (m & e2 & -> & He2 & Hv & _).
    exists m, e2. split; [reflexivity|]. split; [lia|].
    assert (Hval : Z.pos m * 2 ^ (e2 - e) = 2 * m1).
    { replace (e2 - e) with (Z.succ (e2 - (e + 1))) by lia.
      rewrite Z.pow_succ_r by lia. lia. }
    rewrite Hval. split; [lia|]. split; [exact Hlt | exact Hev].
Qed.

(** An integer below 2^53 in magnitude is a Number: its mantissa is the
    magnitude shifted to 53 bits. *)
Lemma binary_round_integer s p :
  Z.pos p < 2 ^ 53 ->
  exists m e,
    binary_round 53 1024 s p 0 = S754_finite s m e
    /\ Z.pos (digits2_pos m) = 53
    /\ -52 <= e <= 0
    /\ Z.pos m = Z.pos p * 2 ^ (- e).
Proof.
  intros Hx. pows.
  pose proof (digits2_pos_bounds p) as Hb.
  set (d := Z.pos (digits2_pos p)) in *.
  assert (Hd : 1 <= d <= 53).
  { split; [subst d; lia|].
    destruct (Z_lt_le_dec 53 d) as [Hgt|]; [|assumption].
    assert (2 ^ 53 <= 2 ^ (d - 1)) by (apply Z.pow_le_mono_r; lia). lia. }
  unfold binary_round. fold d.
  rewrite fexp_normal by lia.
  unfold shl_align.
  replace (d + 0 - 53 - 0) with (d - 53) by lia.
  destruct (d - 53) as [|n|n] eqn:E; try (exfalso; lia).
  - exists p, 0.
    rewrite round_exact by (fold d; lia).
    split; [reflexivity|]. split; [fold d; lia|]. split; [lia|].
    change (2 ^ (- 0)) with 1. lia.
  - assert (Hn : Z.pos n = 53 - d) by lia.
    assert (Hm : Z.pos (Pos.iter xO p n) = Z.pos p * 2 ^ (53 - d))
      by (rewrite iter_xO, Hn; reflexivity).
    assert (Hdm : Z.pos (digits2_pos (Pos.iter xO p n)) = 53).
    { apply digits2_pos_unique. rewrite Hm. change (53 - 1) with 52.
      assert (H52 : 2 ^ 52 = 2 ^ (d - 1) * 2 ^ (53 - d))
        by (rewrite <- Z.pow_add_r by lia; f_equal; lia).
      assert (H53 : 2 ^ 53 = 2 ^ d * 2 ^ (53 - d))
        by (rewrite <- Z.pow_add_r by lia; f_equal; lia).
      assert (0 < 2 ^ (53 - d)) by (apply Z.pow_pos_nonneg; lia).
      rewrite H52, H53. nia. }
    exists (Pos.iter xO p n), (d - 53).
    replace (d + 0 - 53) with (d - 53) by lia.
    rewrite round_exact by (try exact Hdm; lia).
    split; [reflexivity|]. split; [exact Hdm|]. split; [lia|].
    rewrite Hm. f_equal. f_equal. lia.
Qed.

Lemma ofZ_finite (s : bool) x :
  0 < x < 2 ^ 53 ->
  exists m e,
    JsNumber.ofZ (if s then - x else x) = S754_finite s m e
    /\ Z.pos (digits2_pos m) = 53
    /\ -52 <= e <= 0
    /\ Z.pos m = x * 2 ^ (- e).
Proof.
  intros Hx.
  destruct x as [|p|p]; try (exfalso; lia).
  destruct (binary_round_integer s p ltac:(lia)) as (m & e & E & H).
  exists m, e. split; [|exact H].
  unfold JsNumber.ofZ, JsNumber.prec, JsNumber.emax.
  destruct s; exact E.
Qed.

Lemma new_location_exact n r :
  new_location n r = loc_Exact <-> r = 0.
Proof.
  unfold new_location, new_location_even, new_location_odd.
  destruct (Z.even n); destruct (Z.eqb_spec r 0) as [E | E];
    split; intros H; try reflexivity; try assumption; try discriminate;
    try contradiction.
Qed.

(** The division of two normalised Numbers: the quotient of the
    mantissas, taken to 53 or 54 bits, is rounded with the location the
    remainder gives. *)
Lemma div_finite sx mx ex sy my ey :
  Z.pos (digits2_pos mx) = 53 -> Z.pos (digits2_pos my) = 53 ->
  -1021 <= ex - ey ->
  JsNumber.div (S754_finite sx mx ex) (S754_finite sy my ey)
  = binary_round_aux 53 1024 (xorb sx sy)
      (Z.pos mx * 2 ^ 53 / Z.pos my) (ex - ey - 53)
      (new_location (Z.pos my) ((Z.pos mx * 2 ^ 53) mod Z.pos my)).
Proof.
  intros Hx Hy He.
  unfold JsNumber.div, JsNumber.prec, JsNumber.emax, SFdiv, SFdiv_core_binary.
  cbn [Zdigits2]. rewrite Hx, Hy.
  replace (53 + ex - (53 + ey)) with (ex - ey) by lia.
  rewrite fexp_normal by lia.
  rewrite Z.min_l by lia.
  replace (ex - ey - (ex - ey - 53)) with 53 by lia.
  cbv iota. rewrite Z.shiftl_mul_pow2 by lia.
  unfold Z.div, Z.modulo.
  destruct (Z.div_eucl (Z.pos mx * 2 ^ 53) (Z.pos my)) as [q r].
  reflexivity.
Qed.

(** A value within one unit of the quotient [x * K / c], in units of
    [1 / K] with [K > c], has the floor and the ceiling of [x / c]. *)
Lemma quotient_units x c K V :
  0 < x -> 0 < c < K -> Z.even K = true ->
  x * K / c - 1 <= V <= x * K / c + 1 ->
  (V < x * K / c -> (x * K) mod c = 0) ->
  ((x * K) mod c = 0 -> Z.even (x * K / c) = true -> V = x * K / c) ->
  V / K = x / c /\ (- V) / K = (- x) / c.
Proof.
  intros Hx Hc HK Hn Hlt Hex.
  pose proof (Z.div_mod x c ltac:(lia)) as Hdm.
  pose proof (Z.mod_pos_bound x c ltac:(lia)) as Hr.
  set (j := x / c) in *. set (rho := x mod c) in *.
  destruct (Z.eq_dec rho 0) as [Hz | Hnz].
  - assert (HxK : x * K = j * K * c) by nia.
    assert (Hq : x * K / c = j * K) by (rewrite HxK; apply Z.div_mul; lia).
    assert (Hm : (x * K) mod c = 0) by (rewrite HxK; apply Z.mod_mul; lia).
    assert (Hev : Z.even (x * K / c) = true)
      by (rewrite Hq, Z.even_mul, HK; apply orb_true_r).
    rewrite (Hex Hm Hev), Hq.
    split.
    + apply Z.div_mul. lia.
    + replace (- (j * K)) with ((- j) * K) by lia.
      rewrite Z.div_mul by lia.
      replace (- x) with ((- j) * c) by lia.
      rewrite Z.div_mul by lia. reflexivity.
  - assert (HxK : x * K = j * K * c + rho * K) by nia.
    assert (Hq : x * K / c = j * K + rho * K / c)
      by (rewrite HxK; apply Z.div_add_l; lia).
    assert (Hm : (x * K) mod c = (rho * K) mod c).
    { rewrite HxK, Z.add_comm. apply Z.mod_add. lia. }
    pose proof (Z.div_mod (rho * K) c ltac:(lia)) as Hdm'.
    pose proof (Z.mod_pos_bound (rho * K) c ltac:(lia)) as Hr'.
    set (t := rho * K / c) in *.
    assert (Ht1 : 1 <= t) by nia.
    assert (Ht2 : t <= K - 2) by nia.
    assert (Hlow : j * K + 1 <= V).
    { destruct (Z_lt_le_dec V (x * K / c)) as [Hless | Hge]; [|lia].
      pose proof (Hlt Hless) as H0. rewrite Hm in H0.
      assert (2 <= t) by nia. lia. }
    assert (Hhigh : V <= j * K + K - 1) by lia.
    split.
    + symmetry. apply (Z.div_unique V K j (V - j * K)); lia.
    + rewrite <- (Z.div_unique (- V) K (- j - 1) (K - (V - j * K)))
        by lia.
      apply (Z.div_unique (- x) c (- j - 1) (c - rho)); lia.
Qed.

(** The binary64 quotient of two integers below 2^53 in magnitude, the
    divisor being at least 4: a Number with a fractional part whose
    floor and ceiling are those of the exact quotient. *)
Lemma div_integers (s : bool) x c :
  0 < x < 2 ^ 53 -> 4 <= c < 2 ^ 53 ->
  exists m e,
    JsNumber.div (JsNumber.ofZ (if s then - x else x)) (JsNumber.ofZ c)
    = S754_finite s m e
    /\ e < 0
    /\ Z.pos m / 2 ^ (- e) = x / c
    /\ Z.neg m / 2 ^ (- e) = (- x) / c.
Proof.
  intros Hx Hc. pows.
  destruct (ofZ_finite s x Hx) as (mx & ex & -> & Hdx & Hex & Hmx).
  destruct (ofZ_finite false c ltac:(lia)) as (my & ey & -> & Hdy & Hey & Hmy).
  pose proof (digits2_pos_bounds mx) as Bx. rewrite Hdx in Bx.
  pose proof (digits2_pos_bounds my) as By. rewrite Hdy in By.
  change (53 - 1) with 52 in Bx, By.
  rewrite div_finite by (try assumption; lia).
  set (A := 2 ^ (- ex)) in *. set (B := 2 ^ (- ey)) in *.
  assert (HA : 0 < A) by (apply Z.pow_pos_nonneg; lia).
  assert (HB : 0 < B) by (apply Z.pow_pos_nonneg; lia).
  (* the divisor has at least three bits *)
  assert (Hey' : -50 <= ey).
  { destruct (Z_lt_le_dec ey (-50)) as [Hlt|]; [|assumption].
    assert (2 ^ 51 <= B) by (apply Z.pow_le_mono_r; lia).
    assert (2 ^ 51 = 2251799813685248) by reflexivity. nia. }
  set (e := ex - ey - 53) in *.
  set (K := 2 ^ (- e)).
  assert (HKB : K * B = 2 ^ 53 * A).
  { subst K B A e. rewrite <- !Z.pow_add_r by lia. f_equal. lia. }
  assert (HK : c < K) by nia.
  assert (HKev : Z.even K = true).
  { subst K. replace (- e) with (Z.succ (- e - 1)) by lia.
    rewrite Z.pow_succ_r by lia. rewrite Z.even_mul. reflexivity. }
  assert (Hnum : Z.pos mx * 2 ^ 53 = x * K * B) by nia.
  assert (Hq : Z.pos mx * 2 ^ 53 / Z.pos my = x * K / c).
  { rewrite Hnum, Hmy. apply Z.div_mul_cancel_r; lia. }
  assert (Hr : (Z.pos mx * 2 ^ 53) mod Z.pos my = (x * K) mod c * B).
  { rewrite Hnum, Hmy. apply Z.mul_mod_distr_r; lia. }
  rewrite Hq, Hr.
  assert (Hqb : 2 ^ 52 <= x * K / c < 2 ^ 54).
  { rewrite <- Hq. split.
    - apply Z.div_le_lower_bound; nia.
    - apply Z.div_lt_upper_bound; nia. }
  destruct (round_quotient (xorb s false) (x * K / c) e
              (new_location (Z.pos my) ((x * K) mod c * B))
              Hqb ltac:(lia))
    as (m & e2 & -> & He2 & Hn & Hlt & Hexact).
  rewrite xorb_false_r.
  exists m, e2. split; [reflexivity|]. split; [lia|].
  set (W := 2 ^ (e2 - e)) in *. set (D := 2 ^ (- e2)).
  assert (HW : 0 < W) by (apply Z.pow_pos_nonneg; lia).
  assert (HD : 0 < D) by (apply Z.pow_pos_nonneg; lia).
  assert (HKD : K = D * W).
  { subst K D W. rewrite <- Z.pow_add_r by lia. f_equal. lia. }
  destruct (quotient_units x c K (Z.pos m * W)) as (Hfloor & Hceil);
    try assumption; try lia.
  - intros Hless. apply Hlt in Hless.
    apply new_location_exact in Hless. nia.
  - intros Hzero Hev. apply Hexact; [|exact Hev].
    apply new_location_exact. rewrite Hzero. reflexivity.
  - split.
    + rewrite <- Hfloor, HKD. symmetry. apply Z.div_mul_cancel_r; lia.
    + rewrite <- Hceil, HKD.
      replace (- (Z.pos m * W)) with (Z.neg m * W) by lia.
      symmetry. apply Z.div_mul_cancel_r; lia.
Qed.

(** [Math.ceil(x / c)] on integers below 2^53 is the ceiling of the
    exact quotient. *)
Lemma Math_ceil_div x c :
  0 < x < 2 ^ 53 -> 4 <= c < 2 ^ 53 ->
  JsNumber.Math_ceil (JsNumber.div (JsNumber.ofZ x) (JsNumber.ofZ c))
  = JsNumber.ofZ (- ((- x) / c)).
Proof.
  intros Hx Hc.
  destruct (div_integers false x c Hx Hc) as (m & e & -> & He & _ & Hceil).
  cbn [JsNumber.Math_ceil].
  assert (Hneg : (0 <=? e) = false) by (apply Z.leb_gt; lia).
  rewrite Hneg. unfold JsNumber.ofZ. f_equal.
  change (- Z.pos m) with (Z.neg m). now rewrite Hceil.
Qed.

(** [Math.floor(d / c)] on integers below 2^53 in magnitude is the
    floor of the exact quotient. *)
Lemma Math_floor_div d c :
  - 2 ^ 53 < d < 2 ^ 53 -> 4 <= c < 2 ^ 53 ->
  JsNumber.Math_floor (JsNumber.div (JsNumber.ofZ d) (JsNumber.ofZ c))
  = JsNumber.ofZ (d / c).
Proof.
  intros Hd Hc. pows.
  destruct (Z.lt_trichotomy d 0) as [Hlt | [-> | Hgt]].
  - destruct (div_integers true (- d) c ltac:(lia) Hc)
      as (m & e & E & He & _ & Hfloor).
    rewrite Z.opp_involutive in E, Hfloor. rewrite E.
    cbn [JsNumber.Math_floor].
    assert (Hneg : (0 <=? e) = false) by (apply Z.leb_gt; lia).
    rewrite Hneg, Hfloor. unfold JsNumber.ofZ.
    assert (Hq : d / c < 0) by (apply Z.div_lt_upper_bound; lia).
    destruct (d / c); try lia. reflexivity.
  - destruct (ofZ_finite false c ltac:(lia)) as (my & ey & -> & _).
    reflexivity.
  - destruct (div_integers false d c ltac:(lia) Hc)
      as (m & e & E & He & Hfloor & _).
    cbv iota in E. rewrite E.
    cbn [JsNumber.Math_floor].
    assert (Hneg : (0 <=? e) = false) by (apply Z.leb_gt; lia).
    rewrite Hneg, Hfloor. reflexivity.
Qed.

(** The digits of an integral Number. *)
Lemma ofNumber_ofZ k :
  0 < k < 2 ^ 53 -> JsString.ofNumber (JsNumber.ofZ k) = JsString.ofZ k.
Proof.
  intros Hk.
  destruct (ofZ_finite false k Hk) as (m & e & E & _ & He & Hm).
  cbv iota in E. rewrite E. cbn [JsString.ofNumber].
  f_equal. rewrite Hm.
  destruct (Z.leb_spec 0 e) as [H0 | H0].
  - replace e with 0 by lia. change (2 ^ (- 0)) with 1.
    change (2 ^ 0) with 1. lia.
  - apply Z.div_mul.
    assert (0 < 2 ^ (- e)) by (apply Z.pow_pos_nonneg; lia). lia.
Qed.

(** [Math.max(0, k)] and [k === 0] on integers below 2^53 in
    magnitude. *)
Lemma Math_max_zero k :
  - 2 ^ 53 < k < 2 ^ 53 ->
  JsNumber.Math_max (JsNumber.ofZ 0) (JsNumber.ofZ k)
  = JsNumber.ofZ (Z.max 0 k).
Proof.
  intros Hk.
  destruct (Z.lt_trichotomy k 0) as [Hlt | [-> | Hgt]].
  - destruct (ofZ_finite true (- k) ltac:(lia)) as (m & e & E & _).
    cbv iota in E. rewrite Z.opp_involutive in E. rewrite E.
    rewrite Z.max_l by lia. reflexivity.
  - reflexivity.
  - destruct (ofZ_finite false k ltac:(lia)) as (m & e & E & _).
    cbv iota in E. rewrite Z.max_r by lia. rewrite E. reflexivity.
Qed.

Lemma strictEq_zero k :
  0 <= k < 2 ^ 53 ->
  JsNumber.strictEq (JsNumber.ofZ k) (JsNumber.ofZ 0) = (k =? 0).
Proof.
  intros Hk.
  destruct (Z.eq_dec k 0) as [-> | Hne]; [reflexivity|].
  destruct (ofZ_finite false k ltac:(lia)) as (m & e & E & _).
  cbv iota in E. rewrite E.
  assert (Hk0 : (k =? 0) = false) by (apply Z.eqb_neq; exact Hne).
  rewrite Hk0. reflexivity.
Qed.

End NumberFacts.

(** *** Instant booking *)

Section BookingFacts.

Variable tz : Z.

(** A request that passes validation reaches the busy check with the
    stored therapist and its price. *)
Lemma instantBook_validated env req st t p :
  passesValidation req st t p ->
  instantBook tz env req st
  = route
      (match TherapistAuth.currentSession t with
       | Some cs =>
           if isActive cs then
             match endsAt cs with
             | None =>
                 Db.saveTherapist
                   (TherapistAuth.set_currentSession t idleSession) ;;
                 bookIdle tz env req (requestedDuration req) p
                   (TherapistAuth.set_currentSession t idleSession)
             | Some sessionEndsAt =>
                 if now env <? sessionEndsAt then ret (busyReply sessionEndsAt)
                 else
                   Db.saveTherapist
                     (TherapistAuth.set_currentSession t idleSession) ;;
                   bookIdle tz env req (requestedDuration req) p
                     (TherapistAuth.set_currentSession t idleSession)
             end
           else bookIdle tz env req (requestedDuration req) p t
       | None => bookIdle tz env req (requestedDuration req) p t
       end)
      "Error creating booking" st.
Proof.
  intros (Hid & Hne & Hd & Ht & Hp & Htruthy).
  unfold instantBook, route, instantBookBody.
  rewrite Hid.
  apply String.eqb_neq in Hne. rewrite Hne.
  assert (H0 : (requestedDuration req =? 0) = false)
    by (apply Z.eqb_neq; lia).
  assert (Hin : existsb (Z.eqb (requestedDuration req)) [30; 60] = true)
    by (destruct Hd as [-> | ->]; reflexivity).
  rewrite H0, Hin. simpl.
  unfold bind at 1, Db.findTherapist. rewrite Ht.
  destruct (TherapistAuth.pricing t) as [pr|]; [|discriminate].
  simpl in Hp. injection Hp as Hp. rewrite Hp, Htruthy. reflexivity.
Qed.


End BookingFacts.

Section LedgerFacts.

Variable tz : Z.

Lemma therapistById_withAppointment id a st :
  Db.therapistById id (Db.withAppointment a st) = Db.therapistById id st.
Proof. reflexivity. Qed.

Lemma appointmentById_withTherapist id t st :
  Db.appointmentById id (Db.withTherapist t st) = Db.appointmentById id st.
Proof. reflexivity. Qed.

Lemma ledger_withTherapist st t s :
  Db.therapistById (TherapistAuth._id t) st = Some t ->
  ledger (TherapistAuth._id t)
    (Db.withTherapist (TherapistAuth.set_currentSession t s) st) = Some s.
Proof.
  intros H. unfold ledger.
  now rewrite (therapistById_withTherapist _ _ _ s H).
Qed.

(** Validation does not look at the ledger: it still passes once the
    therapist's ledger has been rewritten and saved. *)
Lemma passesValidation_withTherapist req st t p s :
  passesValidation req st t p ->
  passesValidation req
    (Db.withTherapist (TherapistAuth.set_currentSession t s) st)
    (TherapistAuth.set_currentSession t s) p.
Proof.
  intros (Hid & Hne & Hd & Ht & Hp & Htruthy).
  repeat split; try assumption.
  now apply therapistById_withTherapist.
Qed.

Lemma passesValidation_withAppointment req st t p a :
  passesValidation req st t p ->
  passesValidation req (Db.withAppointment a st) t p.
Proof.
  intros (Hid & Hne & Hd & Ht & Hp & Htruthy).
  repeat split; assumption.
Qed.

(** The busy branch of instant-book. *)
Lemma instantBook_busy env req st t p cs e :
  passesValidation req st t p ->
  TherapistAuth.currentSession t = Some cs ->
  isActive cs = true ->
  endsAt cs = Some e ->
  now env < e ->
  instantBook tz env req st = (busyReply e, st).
Proof.
  intros Hv Hcs Hact Hends Hlt.
  rewrite (instantBook_validated tz env req st t p Hv).
  rewrite Hcs, Hact, Hends.
  apply Z.ltb_lt in Hlt. rewrite Hlt. reflexivity.
Qed.

(** end-session on an appointment the ledger references. *)
Lemma endSession_referenced now caller id st a t cs :
  Db.appointmentById id st = Some a ->
  Db.therapistById (Appointment.therapistId a) st = Some t ->
  TherapistAuth.currentSession t = Some cs ->
  appointmentId cs = Some (Appointment._id a) ->
  endSession now caller id st
  = (mkResponse 200 true (Some "Session ended successfully")
       None None None None,
     Db.withTherapist
       (TherapistAuth.set_currentSession t (cooldownSession now))
       (Db.withAppointment (Appointment.set_status a completed) st)).
Proof.
  intros Ha Ht Hcs Href.
  unfold endSession, route, endSessionBody, bind,
    Db.findAppointment, Db.findTherapist, Db.saveAppointment.
  rewrite Ha. simpl. rewrite Ht, Hcs, Href. simpl.
  rewrite String.eqb_refl. reflexivity.
Qed.

(** C1. An instant-booking request against a stored therapist whose
    ledger is active with [endsAt = e] and [now < e] fails, and the store
    is the one it was: no appointment is created and the ledger is
    unchanged.  Once the request has passed the input validation that
    precedes the busy check (therapist id given, duration 30 or 60, price
    configured), the failure is the busy conflict, status 400 with
    [availableAt = e], so [availableAt >= now]. *)
Theorem instantBook_busy_conflict env req st t cs e :
  body_therapistId req = Some (TherapistAuth._id t) ->
  Db.therapistById (TherapistAuth._id t) st = Some t ->
  TherapistAuth.currentSession t = Some cs ->
  isActive cs = true ->
  endsAt cs = Some e ->
  now env < e ->
  let result := instantBook tz env req st in
  success (fst result) = false
  /\ snd result = st
  /\ appointments (snd result) = appointments st
  /\ ledger (TherapistAuth._id t) (snd result) = Some cs
  /\ (forall p,
        passesValidation req st t p ->
        fst result = busyReply e
        /\ code (fst result) = 400
        /\ availableAt (fst result) = Some e
        /\ now env <= e).
Proof.
  intros Hid Ht Hcs Hact Hends Hlt result.
  assert (Hl : ledger (TherapistAuth._id t) st = Some cs)
    by (unfold ledger; now rewrite Ht).
  assert (Hfail : success (fst result) = false /\ snd result = st).
  { assert (Hr : exists r, result = (r, st) /\ success r = false).
    { subst result. unfold instantBook, route, instantBookBody.
      rewrite Hid.
      destruct (_ || _); [eexists; now split|].
      destruct (negb _); [eexists; now split|].
      unfold bind at 1, Db.findTherapist. rewrite Ht.
      destruct (TherapistAuth.pricing t) as [pr|]; [|eexists; now split].
      destruct (negb _); [eexists; now split|].
      rewrite Hcs, Hact, Hends.
      apply Z.ltb_lt in Hlt. rewrite Hlt. eexists; now split. }
    destruct Hr as (r & -> & Hr). now split. }
  destruct Hfail as [Hf Hs].
  split; [exact Hf|]. split; [exact Hs|].
  rewrite Hs. split; [reflexivity|]. split; [exact Hl|].
  intros p Hv.
  assert (E : result = (busyReply e, st))
    by (eapply instantBook_busy; eassumption).
  rewrite E. simpl. repeat split. lia.
Qed.


(** C9. end-session at [instant] on an appointment the therapist's
    ledger references replies 200 and completes the appointment; the
    ledger is left active, without an appointment, with
    [endsAt = instant + 10 minutes >= instant], so it is not idle; and
    until [endsAt] a valid instant booking of the therapist is refused as
    busy with [availableAt = instant + 10 minutes]. *)
Theorem endSession_begins_cooldown instant caller id st a t cs :
  Db.appointmentById id st = Some a ->
  Db.therapistById (Appointment.therapistId a) st = Some t ->
  TherapistAuth.currentSession t = Some cs ->
  appointmentId cs = Some (Appointment._id a) ->
  let result := endSession instant caller id st in
  code (fst result) = 200
  /\ statusOf id (snd result) = Some completed
  /\ ledger (Appointment.therapistId a) (snd result)
     = Some (mkSession true None None (Some (instant + 600000)))
  /\ instant <= instant + 600000
  /\ ledger (Appointment.therapistId a) (snd result) <> Some idleSession
  /\ (forall env req p,
        passesValidation req st t p ->
        now env < instant + 600000 ->
        instantBook tz env req (snd result)
        = (busyReply (instant + 600000), snd result)).
Proof.
  intros Ha Ht Hcs Href result.
  assert (E : result = endSession instant caller id st) by reflexivity.
  rewrite (endSession_referenced instant caller id st a t cs Ha Ht Hcs Href) in E.
  rewrite E. simpl fst. simpl snd.
  pose proof (therapistById_id _ _ _ Ht) as Hid.
  assert (Hl : ledger (Appointment.therapistId a)
                 (Db.withTherapist
                    (TherapistAuth.set_currentSession t (cooldownSession instant))
                    (Db.withAppointment (Appointment.set_status a completed)
                       st))
               = Some (mkSession true None None (Some (instant + 600000)))).
  { rewrite <- Hid. apply ledger_withTherapist.
    rewrite therapistById_withAppointment, Hid. exact Ht. }
  split; [reflexivity|].
  split.
  { unfold statusOf. rewrite appointmentById_withTherapist.
    now rewrite (appointmentById_withAppointment _ _ _ completed Ha). }
  split; [exact Hl|].
  split; [lia|].
  split; [rewrite Hl; discriminate|].
  intros env req p Hv Hlt.
  eapply instantBook_busy with (cs := cooldownSession instant).
  - apply passesValidation_withTherapist.
    apply passesValidation_withAppointment. exact Hv.
  - reflexivity.
  - reflexivity.
  - reflexivity.
  - exact Hlt.
Qed.

End LedgerFacts.

(** *** Joining and ending a session *)

Section SessionFacts.

(** join-session only reads the store. *)
Lemma joinSession_readonly now caller id st :
  snd (joinSession now caller id st) = st.
Proof.
  unfold joinSession, route, joinSessionBody, bind,
    Db.findAppointment, Db.findTherapist, Db.findUser.
  destruct (Db.appointmentById id st) as [a|]; simpl; [|reflexivity].
  destruct (Db.userById (Appointment.userId a) st) as [u|]; simpl;
    [|reflexivity].
  destruct (Db.therapistById (Appointment.therapistId a) st) as [t|]; simpl;
    [|reflexivity].
  destruct (negb (String.eqb (User._id u) caller)
            && negb (String.eqb (TherapistAuth._id t) caller));
    simpl; [reflexivity|].
  destruct (now <? _); simpl; [reflexivity|].
  destruct (_ <? now); reflexivity.
Qed.

(** The reply of join-session to the user or the therapist of a stored
    appointment: the three cases of the timing test. *)
Lemma joinSession_authorized now caller id st a u t :
  Db.appointmentById id st = Some a ->
  Db.userById (Appointment.userId a) st = Some u ->
  Db.therapistById (Appointment.therapistId a) st = Some t ->
  caller = Appointment.userId a \/ caller = Appointment.therapistId a ->
  fst (joinSession now caller id st)
  = if now <? Appointment.date a - 300000 then
      mkResponse 400 false
        (Some ("Session can be joined in "
                 ++ JsString.ofNumber
                      (JsNumber.Math_ceil
                         (JsNumber.div
                            (JsNumber.ofZ (Appointment.date a - 300000 - now))
                            (JsNumber.ofZ 60000)))
                 ++ " minute(s)"))
        None (Some (Appointment.date a - 300000)) None None
    else if Appointment.date a + Appointment.duration a * 60000 <? now then
      mkResponse 400 false (Some "This session has ended")
        None None None None
    else
      mkResponse 200 true None None None None
        (Some
           (if String.eqb (TherapistAuth._id t) caller then
              JoinData (Appointment.meetingLink a) a
                (String.eqb (TherapistAuth._id t) caller)
                "Anonymous Teen"
                (Some
                   match User.avatar u with
                   | Some v =>
                       if String.eqb v "" then
                         "https://api.dicebear.com/7.x/avataaars/svg?seed=teen"
                       else v
                   | None =>
                       "https://api.dicebear.com/7.x/avataaars/svg?seed=teen"
                   end)
            else
              JoinData (Appointment.meetingLink a) a
                (String.eqb (TherapistAuth._id t) caller)
                (Appointment.therapistName a)
                (Appointment.therapistAvatar a))).
Proof.
  intros Ha Hu Ht Hauth.
  assert (Hallowed :
            negb (String.eqb (User._id u) caller)
            && negb (String.eqb (TherapistAuth._id t) caller) = false).
  { assert (Hui : User._id u = Appointment.userId a)
      by (eapply (find_key User._id); exact Hu).
    pose proof (therapistById_id _ _ _ Ht) as Hti.
    destruct Hauth as [-> | ->].
    - rewrite Hui, String.eqb_refl. reflexivity.
    - rewrite Hti, String.eqb_refl. apply andb_false_r. }
  unfold joinSession, route, joinSessionBody, bind,
    Db.findAppointment, Db.findTherapist, Db.findUser.
  rewrite Ha. cbn [fst snd]. rewrite Ht, Hu. cbn [fst snd].
  rewrite Hallowed.
  change (5 * 60000) with 300000.
  destruct (now <? Appointment.date a - 300000); [reflexivity|].
  destruct (Appointment.date a + Appointment.duration a * 60000 <? now);
    reflexivity.
Qed.

(** C5. For a stored appointment with [start = date] and
    [end = start + duration] (duration not negative) and a caller who is
    its user or its therapist: before [start - 5 min] the join is refused
    with status 400, the message "Session can be joined in N minute(s)"
    where [N] is the ceiling of [(start - 5 min - now) / 60 s], and
    [canJoinAt = start - 5 min]; from [start - 5 min] to [end], both
    bounds included, the join is granted with the meeting link; after
    [end] it is refused with status 400 and "This session has ended".
    The handler computes [N] on binary64 Numbers, which is exact for a
    wait below 2^53 ms; time values of dates are at most 8.64e15 in
    magnitude, so every wait counted from a clock reading after 1970 is
    below that. *)
Theorem joinSession_window now caller id st a u t :
  Db.appointmentById id st = Some a ->
  Db.userById (Appointment.userId a) st = Some u ->
  Db.therapistById (Appointment.therapistId a) st = Some t ->
  caller = Appointment.userId a \/ caller = Appointment.therapistId a ->
  0 <= Appointment.duration a ->
  let start := Appointment.date a in
  let finish := start + Appointment.duration a * 60000 in
  let reply := fst (joinSession now caller id st) in
  (now < start - 300000 ->
   start - 300000 - now < 2 ^ 53 ->
     exists N,
       60000 * (N - 1) < start - 300000 - now <= 60000 * N
       /\ reply = mkResponse 400 false
                    (Some ("Session can be joined in " ++ JsString.ofZ N
                             ++ " minute(s)"))
                    None (Some (start - 300000)) None None)
  /\ (start - 300000 <= now <= finish ->
        exists isTherapist name avatar,
          reply = mkResponse 200 true None None None None
                    (Some (JoinData (Appointment.meetingLink a) a
                             isTherapist name avatar)))
  /\ (finish < now ->
        reply = mkResponse 400 false (Some "This session has ended")
                  None None None None).
Proof.
  intros Ha Hu Ht Hauth Hdur start finish reply.
  subst reply.
  rewrite (joinSession_authorized now caller id st a u t Ha Hu Ht Hauth).
  fold start. fold finish.
  split; [|split].
  - intros Hearly Hbound.
    assert (Hlt : (now <? start - 300000) = true) by now apply Z.ltb_lt.
    rewrite Hlt.
    set (x := start - 300000 - now) in *.
    pose proof (Z.div_mod (- x) 60000 ltac:(lia)) as Hdm.
    pose proof (Z.mod_pos_bound (- x) 60000 ltac:(lia)) as Hb.
    exists (- ((- x) / 60000)).
    split; [lia|].
    rewrite Math_ceil_div by lia.
    rewrite ofNumber_ofZ by lia.
    reflexivity.
  - intros [Hlo Hhi].
    assert (H1 : (now <? start - 300000) = false) by (apply Z.ltb_ge; lia).
    assert (H2 : (finish <? now) = false) by (apply Z.ltb_ge; lia).
    rewrite H1, H2.
    destruct (String.eqb (TherapistAuth._id t) caller); eauto.
  - intros Hlate.
    assert (H1 : (now <? start - 300000) = false)
      by (apply Z.ltb_ge; subst finish; lia).
    assert (H2 : (finish <? now) = true) by (apply Z.ltb_lt; lia).
    rewrite H1, H2. reflexivity.
Qed.

End SessionFacts.

Section EndSessionFacts.

(** Whatever happens to the ledger, end-session has saved the appointment
    as completed. *)
Lemma endSession_appointments now caller id st a :
  Db.appointmentById id st = Some a ->
  appointments (snd (endSession now caller id st))
  = Db.replace Appointment._id (Appointment.set_status a completed)
      (appointments st).
Proof.
  intros Ha.
  unfold endSession, route, endSessionBody, bind,
    Db.findAppointment, Db.findTherapist, Db.saveAppointment.
  rewrite Ha. simpl.
  destruct (Db.therapistById (Appointment.therapistId a) st) as [t|];
    simpl; [|reflexivity].
  destruct (TherapistAuth.currentSession t) as [cs|]; simpl; [|reflexivity].
  destruct (appointmentId cs) as [i|]; simpl; [|reflexivity].
  destruct (String.eqb i (Appointment._id a)); reflexivity.
Qed.

Lemma endSession_status now caller id st a :
  Db.appointmentById id st = Some a ->
  statusOf id (snd (endSession now caller id st)) = Some completed.
Proof.
  intros Ha. unfold statusOf, Db.appointmentById.
  rewrite (endSession_appointments now caller id st a Ha).
  pose proof (appointmentById_id _ _ _ Ha) as Hid. subst id.
  change (Appointment._id a)
    with (Appointment._id (Appointment.set_status a completed)) at 1.
  erewrite find_replace_same; [reflexivity | exact Ha].
Qed.

(** end-session with a ledger that holds no appointment: the appointment
    is saved as completed, then reading [appointmentId.toString()]
    throws and the route replies 500. *)
Lemma endSession_null_reference now caller id st a t cs :
  Db.appointmentById id st = Some a ->
  Db.therapistById (Appointment.therapistId a) st = Some t ->
  TherapistAuth.currentSession t = Some cs ->
  appointmentId cs = None ->
  endSession now caller id st
  = (serverError "Error ending session"
       "Cannot read properties of null (reading 'toString')",
     Db.withAppointment (Appointment.set_status a completed) st).
Proof.
  intros Ha Ht Hcs Href.
  unfold endSession, route, endSessionBody, bind,
    Db.findAppointment, Db.findTherapist, Db.saveAppointment.
  rewrite Ha. simpl. rewrite Ht, Hcs, Href. reflexivity.
Qed.

(** C2 (as the code has it). end-session writes [completed] over the
    status it finds: an appointment that was [cancelled] leaves its
    terminal state and becomes [completed]. *)
Theorem endSession_completes_cancelled now caller id st a :
  Db.appointmentById id st = Some a ->
  Appointment.status a = cancelled ->
  statusOf id st = Some cancelled
  /\ statusOf id (snd (endSession now caller id st)) = Some completed.
Proof.
  intros Ha Hs. split.
  - unfold statusOf. rewrite Ha. simpl. now rewrite Hs.
  - now apply (endSession_status now caller id st a).
Qed.

(** C3 (as the code has it). On an appointment the ledger references,
    the first end-session replies 200 and begins the cooldown, which
    empties the ledger's [appointmentId]; the second end-session finds
    the status [completed] again but then throws on that empty reference
    and replies 500 "Error ending session". *)
Theorem endSession_twice now1 now2 caller1 caller2 id st a t cs :
  Db.appointmentById id st = Some a ->
  Db.therapistById (Appointment.therapistId a) st = Some t ->
  TherapistAuth.currentSession t = Some cs ->
  appointmentId cs = Some (Appointment._id a) ->
  let first := endSession now1 caller1 id st in
  let second := endSession now2 caller2 id (snd first) in
  code (fst first) = 200
  /\ statusOf id (snd first) = Some completed
  /\ statusOf id (snd second) = Some completed
  /\ fst second
     = serverError "Error ending session"
         "Cannot read properties of null (reading 'toString')"
  /\ code (fst second) = 500.
Proof.
  intros Ha Ht Hcs Href first second.
  assert (E1 : first = endSession now1 caller1 id st) by reflexivity.
  rewrite (endSession_referenced now1 caller1 id st a t cs Ha Ht Hcs Href)
    in E1.
  set (st1 := Db.withTherapist
                (TherapistAuth.set_currentSession t (cooldownSession now1))
                (Db.withAppointment (Appointment.set_status a completed) st))
    in *.
  assert (Ha1 : Db.appointmentById id st1
                = Some (Appointment.set_status a completed)).
  { unfold st1. rewrite appointmentById_withTherapist.
    now apply appointmentById_withAppointment. }
  assert (Ht1 : Db.therapistById (Appointment.therapistId a) st1
                = Some (TherapistAuth.set_currentSession t
                          (cooldownSession now1))).
  { unfold st1. apply therapistById_withTherapist.
    rewrite therapistById_withAppointment. exact Ht. }
  assert (E2 : second = endSession now2 caller2 id st1)
    by (subst second; rewrite E1; reflexivity).
  rewrite (endSession_null_reference now2 caller2 id st1
             (Appointment.set_status a completed)
             (TherapistAuth.set_currentSession t (cooldownSession now1))
             (cooldownSession now1) Ha1 Ht1 eq_refl eq_refl) in E2.
  rewrite E1, E2. simpl fst. simpl snd.
  split; [reflexivity|].
  split; [unfold statusOf; now rewrite Ha1|].
  split.
  { unfold statusOf.
    now rewrite (appointmentById_withAppointment _ _ _ completed Ha1). }
  split; reflexivity.
Qed.

(** C10. end-session never looks at the caller: two callers get the same
    reply and leave the same store.  A caller who is neither the user nor
    the therapist of the appointment is refused by join-session (403)
    but ends the session: the reply is 200 "Session ended successfully",
    the appointment is completed and the therapist's ledger, when it
    references the appointment, enters cooldown: active, without
    appointment, ending ten minutes after the call. *)
Theorem endSession_ignores_caller now id st :
  (forall c1 c2, endSession now c1 id st = endSession now c2 id st)
  /\ (forall caller a u t cs,
        Db.appointmentById id st = Some a ->
        Db.userById (Appointment.userId a) st = Some u ->
        Db.therapistById (Appointment.therapistId a) st = Some t ->
        TherapistAuth.currentSession t = Some cs ->
        appointmentId cs = Some (Appointment._id a) ->
        caller <> Appointment.userId a ->
        caller <> Appointment.therapistId a ->
        joinSession now caller id st
        = (mkResponse 403 false
             (Some "You are not authorized to join this session")
             None None None None, st)
        /\ fst (endSession now caller id st)
           = mkResponse 200 true (Some "Session ended successfully")
               None None None None
        /\ statusOf id (snd (endSession now caller id st)) = Some completed
        /\ ledger (Appointment.therapistId a)
             (snd (endSession now caller id st))
           = Some (mkSession true None None (Some (now + 600000)))).
Proof.
  split; [reflexivity|].
  intros caller a u t cs Ha Hu Ht Hcs Href Hnu Hnt.
  split.
  - unfold joinSession, route, joinSessionBody, bind,
      Db.findAppointment, Db.findTherapist, Db.findUser.
    rewrite Ha. cbn [fst snd]. rewrite Ht, Hu. cbn [fst snd].
    assert (Hui : User._id u = Appointment.userId a)
      by (eapply (find_key User._id); exact Hu).
    pose proof (therapistById_id _ _ _ Ht) as Hti.
    assert (H1 : String.eqb (User._id u) caller = false)
      by (apply String.eqb_neq; congruence).
    assert (H2 : String.eqb (TherapistAuth._id t) caller = false)
      by (apply String.eqb_neq; congruence).
    rewrite H1, H2. reflexivity.
  - split; [|split].
    + now rewrite (endSession_referenced now caller id st a t cs).
    + now apply (endSession_status now caller id st a).
    + rewrite (endSession_referenced now caller id st a t cs Ha Ht Hcs Href).
      simpl snd.
      pose proof (therapistById_id _ _ _ Ht) as Hid. rewrite <- Hid.
      apply (ledger_withTherapist _ t
               (mkSession true None None (Some (now + 600000)))).
      rewrite therapistById_withAppointment, Hid. exact Ht.
Qed.

End EndSessionFacts.

(** *** Dates *)

Section DateFacts.

Variable tz : Z.

Lemma getHours_range t : 0 <= getHours tz t < 24.
Proof. unfold getHours. apply Z.mod_pos_bound. lia. Qed.

Lemma getMinutes_range t : 0 <= getMinutes tz t < 60.
Proof. unfold getMinutes. apply Z.mod_pos_bound. lia. Qed.

Lemma upto_In n z : 0 <= z < Z.of_nat n -> In z (upto n).
Proof.
  intros H. unfold upto. apply in_map_iff.
  exists (Z.to_nat z). split; [lia|]. apply in_seq. lia.
Qed.

Lemma readsBack_all :
  forallb (fun h => forallb (readsBack h) (upto 60)) (upto 24) = true.
Proof. vm_compute. reflexivity. Qed.

Lemma parseHM_formatHM t :
  parseHM (formatHM tz t) = Some (getHours tz t, getMinutes tz t).
Proof.
  pose proof (getHours_range t) as Hh.
  pose proof (getMinutes_range t) as Hm.
  pose proof readsBack_all as Hall.
  rewrite forallb_forall in Hall.
  specialize (Hall (getHours tz t) (upto_In 24 _ Hh)).
  rewrite forallb_forall in Hall.
  specialize (Hall (getMinutes tz t) (upto_In 60 _ Hm)).
  unfold readsBack in Hall. unfold formatHM.
  destruct (parseHM _) as [[h' m']|]; [|discriminate].
  apply andb_prop in Hall. destruct Hall as [H1 H2].
  apply Z.eqb_eq in H1. apply Z.eqb_eq in H2. now subst.
Qed.

(** Setting a date to its own hours and minutes drops its seconds and
    milliseconds. *)
Lemma setHours_own_time t :
  setHours tz t (getHours tz t) (getMinutes tz t) 0 0
  = t - (t + tz) mod 60000.
Proof.
  unfold setHours, getHours, getMinutes, localTime,
    msPerDay, msPerHour, msPerMinute.
  set (L := t + tz).
  assert (Hh : L / 3600000 = L / 60000 / 60)
    by (rewrite Z.div_div by lia; reflexivity).
  assert (Hd : L / 86400000 = L / 60000 / 60 / 24)
    by (rewrite !Z.div_div by lia; reflexivity).
  rewrite Hd, Hh.
  set (M := L / 60000).
  rewrite (Z.mod_eq (M / 60) 24) by lia.
  rewrite (Z.mod_eq M 60) by lia.
  rewrite (Z.mod_eq L 60000) by lia.
  fold M. lia.
Qed.


End DateFacts.

(** *** The sweeper *)

Section SweeperFacts.

Variable tz : Z.

Lemma forOf_app {A} (pre rest : list A) (body : A -> Async unit) st :
  forOf (pre ++ rest) body st
  = match forOf pre body st with
    | (Normal _, st1) => forOf rest body st1
    | (Throw e, st1) => (Throw e, st1)
    end.
Proof.
  revert st. induction pre as [|x pre IH]; intros st; simpl.
  - reflexivity.
  - unfold bind. destruct (body x st) as [[[]|e] st1].
    + apply IH.
    + reflexivity.
Qed.

(** The loop ends at the first iteration that throws, in the store that
    iteration left. *)
Lemma forOf_throw {A} (pre post : list A) (x : A) (body : A -> Async unit)
  st st1 e st2 :
  forOf pre body st = (Normal tt, st1) ->
  body x st1 = (Throw e, st2) ->
  forOf (pre ++ x :: post) body st = (Throw e, st2).
Proof.
  intros Hpre Hx. rewrite forOf_app, Hpre. simpl.
  unfold bind. now rewrite Hx.
Qed.

(** Every document the first loop visits was found [scheduled]. *)
Lemma scanned_scheduled now a l :
  In a (filter (isExpiredCandidate now) l) ->
  Appointment.status a = scheduled.
Proof.
  intros H. apply filter_In in H. destruct H as [_ H].
  unfold isExpiredCandidate in H. apply andb_prop in H.
  destruct H as [H _]. now destruct (Appointment.status a).
Qed.

(** An appointment written by instant-book (its [startTime] is the
    formatted [date]) whose [date + duration] has passed is found ended
    by the sweeper's own computation. *)
Lemma hasEnded_formatted now a :
  Appointment.startTime a = formatHM tz (Appointment.date a) ->
  Appointment.date a + Appointment.duration a * 60000 < now ->
  hasEnded tz now a = true.
Proof.
  intros Hst Hlt. unfold hasEnded, sessionEndTime.
  rewrite Hst, parseHM_formatHM, setHours_own_time.
  apply Z.ltb_lt.
  pose proof (Z.mod_pos_bound (Appointment.date a + tz) 60000 ltac:(lia)).
  lia.
Qed.

(** The loop body on an ended appointment that an active ledger
    references. *)
Lemma autoEnd_referenced now st a t cs :
  hasEnded tz now a = true ->
  Db.therapistById (Appointment.therapistId a) st = Some t ->
  TherapistAuth.currentSession t = Some cs ->
  isActive cs = true ->
  appointmentId cs = Some (Appointment._id a) ->
  autoEnd tz now a st
  = (Normal tt,
     Db.withTherapist (TherapistAuth.set_currentSession t idleSession)
       (Db.withAppointment (Appointment.set_status a completed) st)).
Proof.
  intros He Ht Hcs Hact Href.
  unfold autoEnd. rewrite He.
  unfold bind, Db.saveAppointment, Db.findTherapist.
  rewrite therapistById_withAppointment.
  change (Appointment.therapistId (Appointment.set_status a completed))
    with (Appointment.therapistId a).
  rewrite Ht, Hcs, Hact, Href. simpl.
  rewrite String.eqb_refl. reflexivity.
Qed.

(** C8 (amended). The two loops of a tick share one [try/catch]: when
    the loop body throws on a scanned appointment, the tick ends there.
    The documents scanned after it are not visited, the ledger pass is
    not run, the store is the one the throwing iteration left (what was
    saved before stays saved), and the error is logged by the tick
    instead of escaping it. *)
Theorem sweeperTick_stops_at_first_failure now st pre a post st1 e st2 :
  filter (isExpiredCandidate now) (appointments st) = (pre ++ a :: post)%list ->
  forOf pre (autoEnd tz now) st = (Normal tt, st1) ->
  autoEnd tz now a st1 = (Throw e, st2) ->
  sweeperTick tz now st = (Some e, st2).
Proof.
  intros Hscan Hpre Hthrow.
  unfold sweeperTick, appointmentPass, bind at 1 2, Db.queryAppointments.
  rewrite Hscan.
  rewrite (forOf_throw pre post a (autoEnd tz now) st st1 e st2 Hpre Hthrow).
  reflexivity.
Qed.

End SweeperFacts.

(** *** Status transitions *)

Section StatusFacts.

Variable tz : Z.

Lemma keeps_refl id st : keeps id st st.
Proof. split; [reflexivity | trivial]. Qed.

Lemma keeps_trans id st1 st2 st3 :
  keeps id st1 st2 -> keeps id st2 st3 -> keeps id st1 st3.
Proof.
  intros [E1 T1] [E2 T2]. split; [congruence | auto].
Qed.

Lemma keeps_same_appointments id st st' :
  appointments st' = appointments st -> keeps id st st'.
Proof.
  intros E. unfold keeps, Db.appointmentById, terminalUnder.
  rewrite E. split; [reflexivity | trivial].
Qed.

Lemma In_replace {D} (key : D -> Id) (d : D) (l : list D) (y : D) :
  In y (Db.replace key d l) -> y = d \/ In y l.
Proof.
  unfold Db.replace. intros H. apply in_map_iff in H.
  destruct H as (x & Hx & Hin).
  destruct (String.eqb (key x) (key d)); subst; auto.
Qed.

(** Saving a document stored under another id. *)
Lemma keeps_withAppointment id x st :
  Appointment._id x <> id -> keeps id st (Db.withAppointment x st).
Proof.
  intros Hne. split.
  - unfold Db.appointmentById, Db.withAppointment. simpl.
    now apply find_replace_other.
  - intros Hterm y Hin Hid.
    apply In_replace in Hin. destruct Hin as [-> | Hin].
    + contradiction.
    + now apply Hterm.
Qed.

Lemma find_app_other {D} (f : D -> bool) (l : list D) (x : D) :
  f x = false -> find f (l ++ [x]) = find f l.
Proof.
  intros Hx. induction l as [|a l IH]; simpl.
  - now rewrite Hx.
  - destruct (f a); [reflexivity | exact IH].
Qed.

(** Creating a document under another id. *)
Lemma keeps_create id x st :
  Appointment._id x <> id ->
  keeps id st (mkStore (therapists st) (appointments st ++ [x]) (users st)).
Proof.
  intros Hne. split.
  - unfold Db.appointmentById. simpl. apply find_app_other.
    now apply String.eqb_neq.
  - intros Hterm y Hin Hid. simpl in Hin.
    apply in_app_or in Hin. destruct Hin as [Hin | [-> | []]].
    + now apply Hterm.
    + contradiction.
Qed.

Lemma keeps_bookIdle id env req d p t st :
  newId env <> id ->
  keeps id st (snd (bookIdle tz env req d p t st)).
Proof.
  intros Hne. unfold bookIdle, bind, Db.findUser.
  destruct (Db.userById (user_id req) st); simpl.
  - match goal with
    | |- context [(appointments st ++ [?x])%list] =>
        apply (keeps_trans id st
                 (mkStore (therapists st) (appointments st ++ [x]) (users st)));
          [apply keeps_create; exact Hne
          | apply keeps_same_appointments; reflexivity]
    end.
  - apply keeps_refl.
Qed.

Lemma keeps_instantBook id env req st :
  newId env <> id ->
  keeps id st (snd (instantBook tz env req st)).
Proof.
  intros Hne.
  assert (Hk : forall d p t s,
             keeps id s
               (snd (route (bookIdle tz env req d p t)
                       "Error creating booking" s))).
  { intros d p t s. unfold route.
    pose proof (keeps_bookIdle id env req d p t s Hne) as H.
    destruct (bookIdle tz env req d p t s) as [[r|e] s']; exact H. }
  assert (Hs : forall d p t t' s,
             keeps id s
               (snd (route (Db.saveTherapist t' ;; bookIdle tz env req d p t)
                       "Error creating booking" s))).
  { intros d p t t' s. unfold route, bind at 1, Db.saveTherapist.
    eapply keeps_trans;
      [apply (keeps_same_appointments id s (Db.withTherapist t' s));
       reflexivity|].
    apply Hk. }
  unfold instantBook, instantBookBody.
  destruct (body_therapistId req) as [tid|]; [|apply keeps_refl].
  destruct (_ || _); [apply keeps_refl|].
  destruct (negb _); [apply keeps_refl|].
  unfold route at 1, bind at 1, Db.findTherapist.
  destruct (Db.therapistById tid st) as [t|]; [|apply keeps_refl].
  destruct (TherapistAuth.pricing t) as [pr|]; [|apply keeps_refl].
  destruct (negb _); [apply keeps_refl|].
  destruct (TherapistAuth.currentSession t) as [cs|]; [|apply Hk].
  destruct (isActive cs); [|apply Hk].
  destruct (endsAt cs) as [e|]; [|apply Hs].
  destruct (now env <? e); [apply keeps_refl | apply Hs].
Qed.

Lemma therapistStatus_appointments now id st :
  appointments (snd (therapistStatus now id st)) = appointments st.
Proof.
  unfold therapistStatus, route, therapistStatusBody, bind,
    Db.findTherapist, Db.saveTherapist.
  destruct (Db.therapistById id st) as [t|]; [|reflexivity].
  destruct (TherapistAuth.currentSession t) as [cs|]; [|reflexivity].
  destruct (isActive cs); [|reflexivity].
  destruct (endsAt cs) as [e|]; [|reflexivity].
  destruct (now <? e); reflexivity.
Qed.

Lemma keeps_autoEnd id now x st :
  Appointment._id x <> id ->
  keeps id st (snd (autoEnd tz now x st)).
Proof.
  intros Hne. unfold autoEnd.
  destruct (hasEnded tz now x); [|apply keeps_refl].
  unfold bind at 1, Db.saveAppointment.
  eapply keeps_trans;
    [apply (keeps_withAppointment id (Appointment.set_status x completed));
     exact Hne|].
  apply keeps_same_appointments.
  unfold bind, Db.findTherapist, Db.saveTherapist.
  destruct (Db.therapistById _ _) as [t|]; [|reflexivity].
  destruct (TherapistAuth.currentSession t) as [cs|]; [|reflexivity].
  destruct (isActive cs); [|reflexivity].
  destruct (appointmentId cs) as [i|]; simpl; [|reflexivity].
  destruct (String.eqb i _); reflexivity.
Qed.

Lemma keeps_forOf_autoEnd id now xs st :
  (forall x, In x xs -> Appointment._id x <> id) ->
  keeps id st (snd (forOf xs (autoEnd tz now) st)).
Proof.
  revert st. induction xs as [|x xs IH]; intros st Hxs; simpl.
  - apply keeps_refl.
  - pose proof (keeps_autoEnd id now x st (Hxs x (or_introl eq_refl))) as H.
    unfold bind. destruct (autoEnd tz now x st) as [[[]|e] st1]; simpl in *.
    + eapply keeps_trans; [exact H|]. apply IH. intros y Hy. apply Hxs.
      now right.
    + exact H.
Qed.

Lemma forOf_clearExpired_appointments now ts st :
  appointments (snd (forOf ts (clearExpired tz now) st)) = appointments st.
Proof.
  revert st. induction ts as [|t ts IH]; intros st; simpl; [reflexivity|].
  unfold bind.
  assert (H : appointments (snd (clearExpired tz now t st)) = appointments st).
  { unfold clearExpired, Db.saveTherapist.
    destruct (TherapistAuth.currentSession t) as [cs|]; [|reflexivity].
    destruct (_ <? now); reflexivity. }
  destruct (clearExpired tz now t st) as [[[]|e] st1]; simpl in *.
  - now rewrite IH.
  - exact H.
Qed.

(** The tick leaves alone whatever is stored under an id that has no
    scheduled document. *)
Lemma keeps_sweeperTick id now st :
  terminalUnder id st ->
  keeps id st (snd (sweeperTick tz now st)).
Proof.
  intros Hterm.
  assert (Hscan : forall x,
             In x (filter (isExpiredCandidate now) (appointments st)) ->
             Appointment._id x <> id).
  { intros x Hin Hid.
    pose proof (scanned_scheduled now x _ Hin) as Hs.
    apply filter_In in Hin. destruct Hin as [Hin _].
    exact (Hterm x Hin Hid Hs). }
  pose proof (keeps_forOf_autoEnd id now _ st Hscan) as H.
  unfold sweeperTick, appointmentPass, ledgerPass, bind,
    Db.queryAppointments, Db.queryTherapists.
  destruct (forOf (filter (isExpiredCandidate now) (appointments st))
              (autoEnd tz now) st) as [[[]|e] st1]; simpl in *.
  - eapply keeps_trans; [exact H|].
    apply keeps_same_appointments.
    pose proof (forOf_clearExpired_appointments now
                  (filter hasActiveSession (therapists st1)) st1) as Hc.
    destruct (forOf _ (clearExpired tz now) st1) as [[[]|e] st2]; exact Hc.
  - exact H.
Qed.

(** X21. Along every sequence of operations without end-session,
    bookings creating their documents under fresh ids, a status that is
    not [scheduled] stays what it is. *)
Lemma terminal_status_kept id ops st :
  terminalUnder id st ->
  forallb (spares id) ops = true ->
  statusOf id (run tz ops st) = statusOf id st
  /\ terminalUnder id (run tz ops st).
Proof.
  revert st. induction ops as [|op ops IH]; intros st Hterm Hops; simpl.
  - now split.
  - simpl in Hops. apply andb_prop in Hops. destruct Hops as [Hop Hops].
    assert (Hk : keeps id st (perform tz op st)).
    { destruct op as [env req|now tid|now caller i|now caller i|now];
        simpl in *.
      - apply keeps_instantBook. apply String.eqb_neq.
        now destruct (String.eqb (newId env) id).
      - apply keeps_same_appointments, therapistStatus_appointments.
      - rewrite joinSession_readonly. apply keeps_refl.
      - discriminate.
      - now apply keeps_sweeperTick. }
    destruct Hk as [E T].
    destruct (IH (perform tz op st) (T Hterm) Hops) as [E' T'].
    split; [|exact T'].
    rewrite E'. unfold statusOf. now rewrite E.
Qed.

End StatusFacts.

(** *** Pricing *)

Section PricingFacts.

Variable tz : Z.

Lemma bookIdle_amount env req d p t st r st' a c :
  bookIdle tz env req d p t st = (Normal r, st') ->
  data r = Some (BookingData a c) ->
  Appointment.amount (Appointment.payment a) = sessionAmount p d.
Proof.
  unfold bookIdle, bind, Db.findUser.
  destruct (Db.userById (user_id req) st); simpl; intros H Hd.
  - injection H as <- _. simpl in Hd. injection Hd as <- _. reflexivity.
  - injection H as <- _. discriminate.
Qed.

(** The amount of every created appointment is the binary64 value of
    [Math.ceil(perSession / 30 * duration)]. *)
Lemma instantBook_amount env req st t p r st' a c :
  passesValidation req st t p ->
  instantBook tz env req st = (r, st') ->
  data r = Some (BookingData a c) ->
  Appointment.amount (Appointment.payment a)
  = sessionAmount p (requestedDuration req).
Proof.
  intros Hv. rewrite (instantBook_validated tz env req st t p Hv).
  unfold route.
  assert (Hk : forall t0 s0 r0 s1,
             (let (x, s) := bookIdle tz env req (requestedDuration req) p t0 s0 in
              match x with
              | Normal v => (v, s)
              | Throw e => (serverError "Error creating booking" e, s)
              end) = (r0, s1) ->
             data r0 = Some (BookingData a c) ->
             Appointment.amount (Appointment.payment a)
             = sessionAmount p (requestedDuration req)).
  { intros t0 s0 r0 s1.
    destruct (bookIdle tz env req (requestedDuration req) p t0 s0)
      as [[v|e] s] eqn:E; intros H Hd; injection H as <- _.
    - eapply bookIdle_amount; eassumption.
    - discriminate. }
  destruct (TherapistAuth.currentSession t) as [cs|]; [|apply Hk].
  destruct (isActive cs); [|apply Hk].
  destruct (endsAt cs) as [e|].
  - destruct (now env <? e).
    + simpl. intros H Hd. injection H as <- _. discriminate.
    + unfold bind at 1, Db.saveTherapist. apply Hk.
  - unfold bind at 1, Db.saveTherapist. apply Hk.
Qed.

End PricingFacts.

(** C7 (as the code has it). The quotient [500 / 30] is rounded up to
    binary64 and its product with the duration lands just above the
    integer, so [Math.ceil] charges one more: 501 for 30 minutes and 1001
    for 60 minutes at a price of 500.  At a price of 333 the product
    rounds to 666 exactly. *)
Theorem instantBook_amount_rounding :
  Example.chargedAmount 500 30 = Some (JsNumber.ofZ 501)
  /\ Example.chargedAmount 500 60 = Some (JsNumber.ofZ 1001)
  /\ Example.chargedAmount 333 60 = Some (JsNumber.ofZ 666)
  /\ JsNumber.ofZ 501 <> JsNumber.ofZ 500
  /\ JsNumber.ofZ 1001 <> JsNumber.ofZ 1000.
Proof.
  repeat split; try (vm_compute; reflexivity); vm_compute; discriminate.
Qed.

(** *** The statements on the running example *)

Lemma example_validated :
  passesValidation (Example.book 30) Example.bookedStore
    Example.bookedTherapist (JsNumber.ofZ 500).
Proof.
  unfold passesValidation.
  repeat split; try reflexivity; [discriminate | now left].
Qed.


(** One minute after the booking of the example, a second request for
    the same therapist is refused until [T0 + 35 min]. *)
Lemma instantBook_busy_conflict_witness :
  Example.T0 + Example.minutes 1 < Example.T0 + Example.minutes 35
  /\ instantBook Example.tz Example.env1 (Example.book 30) Example.bookedStore
     = (busyReply (Example.T0 + Example.minutes 35), Example.bookedStore).
Proof.
  assert (Hlt : now Example.env1 < Example.T0 + Example.minutes 35)
    by (vm_compute; reflexivity).
  split; [exact Hlt|].
  destruct (instantBook_busy_conflict Example.tz Example.env1
              (Example.book 30) Example.bookedStore Example.bookedTherapist
              Example.bookedSession (Example.T0 + Example.minutes 35)
              eq_refl eq_refl eq_refl eq_refl eq_refl Hlt)
    as (_ & H2 & _ & _ & H3).
  destruct (H3 (JsNumber.ofZ 500) example_validated) as (H1 & _).
  rewrite (surjective_pairing (instantBook _ _ _ _)).
  now rewrite H1, H2.
Defined.


(** Ending the booked session at [T0 + 35 min] blocks the therapist
    until [T0 + 45 min]. *)
Lemma endSession_begins_cooldown_witness :
  ledger "t1"
    (snd (endSession (Example.T0 + Example.minutes 35) "u1" "a1"
            Example.bookedStore))
  = Some (mkSession true None None (Some (Example.T0 + Example.minutes 45)))
  /\ fst (instantBook Example.tz
            (mkEnv (Example.T0 + Example.minutes 44) "a2" "x" "y")
            (Example.book 30)
            (snd (endSession (Example.T0 + Example.minutes 35) "u1" "a1"
                    Example.bookedStore)))
     = busyReply (Example.T0 + Example.minutes 45).
Proof.
  destruct (endSession_begins_cooldown Example.tz
              (Example.T0 + Example.minutes 35) "u1" "a1"
              Example.bookedStore Example.bookedAppointment
              Example.bookedTherapist Example.bookedSession
              eq_refl eq_refl eq_refl eq_refl)
    as (_ & _ & H1 & _ & _ & H2).
  split; [exact H1|].
  rewrite (H2 (mkEnv (Example.T0 + Example.minutes 44) "a2" "x" "y")
              (Example.book 30) (JsNumber.ofZ 500) example_validated
              eq_refl).
  reflexivity.
Defined.

(** The join window of the booked appointment: closed one millisecond
    before [start - 5 min = T0], open at [T0] and at the end instant
    [T0 + 35 min], closed one millisecond later. *)
Lemma joinSession_window_witness :
  fst (joinSession (Example.T0 - 1) "u1" "a1" Example.bookedStore)
  = mkResponse 400 false (Some "Session can be joined in 1 minute(s)")
      None (Some Example.T0) None None
  /\ code (fst (joinSession Example.T0 "u1" "a1" Example.bookedStore)) = 200
  /\ code (fst (joinSession (Example.T0 + Example.minutes 35) "t1" "a1"
                  Example.bookedStore)) = 200
  /\ fst (joinSession (Example.T0 + Example.minutes 35 + 1) "u1" "a1"
            Example.bookedStore)
     = mkResponse 400 false (Some "This session has ended")
         None None None None.
Proof.
  pose proof (fun now caller auth =>
                joinSession_window now caller "a1" Example.bookedStore
                  Example.bookedAppointment Example.teen
                  Example.bookedTherapist eq_refl eq_refl eq_refl auth
                  ltac:(vm_compute; discriminate)) as W.
  split.
  { destruct (W (Example.T0 - 1) "u1" (or_introl eq_refl)) as (H & _ & _).
    destruct (H ltac:(vm_compute; reflexivity) ltac:(vm_compute; reflexivity))
      as (N & HN & Hr).
    assert (HN1 : N = 1).
    { change (Appointment.date Example.bookedAppointment - 300000
              - (Example.T0 - 1)) with 1 in HN. lia. }
    rewrite Hr, HN1. reflexivity. }
  split.
  { destruct (W Example.T0 "u1" (or_introl eq_refl)) as (_ & H & _).
    destruct (H ltac:(split; vm_compute; discriminate))
      as (i & n & v & Hr).
    rewrite Hr. reflexivity. }
  split.
  { destruct (W (Example.T0 + Example.minutes 35) "t1" (or_intror eq_refl))
      as (_ & H & _).
    destruct (H ltac:(split; vm_compute; discriminate))
      as (i & n & v & Hr).
    rewrite Hr. reflexivity. }
  destruct (W (Example.T0 + Example.minutes 35 + 1) "u1" (or_introl eq_refl))
    as (_ & _ & H).
  apply H. vm_compute. reflexivity.
Defined.

(** The stranger [u9] may not join the booked session but ends it. *)
Lemma endSession_ignores_caller_witness :
  fst (joinSession Example.T0 "u9" "a1" Example.bookedStore)
  = mkResponse 403 false (Some "You are not authorized to join this session")
      None None None None
  /\ fst (endSession Example.T0 "u9" "a1" Example.bookedStore)
     = mkResponse 200 true (Some "Session ended successfully")
         None None None None
  /\ statusOf "a1" (snd (endSession Example.T0 "u9" "a1" Example.bookedStore))
     = Some completed
  /\ ledger "t1" (snd (endSession Example.T0 "u9" "a1" Example.bookedStore))
     = Some (mkSession true None None
               (Some (Example.T0 + Example.minutes 10))).
Proof.
  destruct (proj2 (endSession_ignores_caller Example.T0 "a1"
                     Example.bookedStore)
              "u9" Example.bookedAppointment Example.teen
              Example.bookedTherapist Example.bookedSession
              eq_refl eq_refl eq_refl eq_refl eq_refl
              ltac:(discriminate) ltac:(discriminate))
    as (H1 & H2 & H3 & H4).
  rewrite H1. split; [reflexivity|].
  split; [exact H2|]. split; [exact H3 | exact H4].
Defined.

(** The cancelled appointment of the example is completed by
    end-session. *)
Lemma endSession_completes_cancelled_witness :
  statusOf "a1" Example.cancelledStore = Some cancelled
  /\ statusOf "a1"
       (snd (endSession (Example.T0 + Example.minutes 35) "u1" "a1"
               Example.cancelledStore))
     = Some completed.
Proof.
  exact (endSession_completes_cancelled (Example.T0 + Example.minutes 35)
           "u1" "a1" Example.cancelledStore
           (Appointment.set_status Example.bookedAppointment cancelled)
           eq_refl eq_refl).
Defined.

(** Ending the booked session twice: 200, then 500. *)
Lemma endSession_twice_witness :
  code (fst (endSession (Example.T0 + Example.minutes 35) "u1" "a1"
               Example.bookedStore)) = 200
  /\ code (fst (endSession (Example.T0 + Example.minutes 36) "u1" "a1"
                  (snd (endSession (Example.T0 + Example.minutes 35) "u1"
                          "a1" Example.bookedStore)))) = 500.
Proof.
  destruct (endSession_twice (Example.T0 + Example.minutes 35)
              (Example.T0 + Example.minutes 36) "u1" "u1" "a1"
              Example.bookedStore Example.bookedAppointment
              Example.bookedTherapist Example.bookedSession
              eq_refl eq_refl eq_refl eq_refl)
    as (H1 & _ & _ & _ & H2).
  split; [exact H1 | exact H2].
Defined.

(** C4, counterexample. At [T0 + 40 min] the booked appointment is
    scheduled and over and the ledger references it; after the tick the
    ledger is idle, not in the cooldown that end-session sets. *)
Lemma sweeper_cooldown_counterexample :
  let now := Example.T0 + Example.minutes 40 in
  let swept := snd (sweeperTick Example.tz now Example.bookedStore) in
  let ended := snd (endSession now "u1" "a1" Example.bookedStore) in
  statusOf "a1" Example.bookedStore = Some scheduled
  /\ Appointment.date Example.bookedAppointment
     + Appointment.duration Example.bookedAppointment * 60000 < now
  /\ ledger "t1" Example.bookedStore = Some Example.bookedSession
  /\ statusOf "a1" swept = Some completed
  /\ ledger "t1" swept = Some (mkSession false None None None)
  /\ ledger "t1" swept <> Some (mkSession true None None (Some (now + 600000)))
  /\ ledger "t1" ended = Some (mkSession true None None (Some (now + 600000)))
  /\ swept <> ended.
Proof.
  repeat split; try (vm_compute; reflexivity); vm_compute; discriminate.
Qed.

(** The tick over the second example store ends at its first document. *)
Lemma sweeperTick_stops_at_first_failure_witness :
  sweeperTick Example.tz (Example.T0 + Example.minutes 40) Example.sweepStore
  = (Some "Cannot read properties of null (reading 'toString')",
     Db.withAppointment
       (Appointment.set_status (Example.overdue "a1" "t1") completed)
       Example.sweepStore).
Proof.
  apply (sweeperTick_stops_at_first_failure Example.tz
           (Example.T0 + Example.minutes 40) Example.sweepStore
           [] (Example.overdue "a1" "t1") [Example.overdue "a2" "t2"]
           Example.sweepStore).
  - vm_compute. reflexivity.
  - reflexivity.
  - vm_compute. reflexivity.
Defined.

(** C8, counterexample. Both appointments of the store are scanned and
    over, and the ledger of [t3] expired long ago; the first iteration
    throws, and after the tick [a2] is still scheduled, the ledger of [t2]
    still references it and the ledger of [t3] is still active. *)
Lemma sweeper_isolation_counterexample :
  let now := Example.T0 + Example.minutes 40 in
  let result := sweeperTick Example.tz now Example.sweepStore in
  filter (isExpiredCandidate now) (appointments Example.sweepStore)
  = [Example.overdue "a1" "t1"; Example.overdue "a2" "t2"]
  /\ hasEnded Example.tz now (Example.overdue "a2" "t2") = true
  /\ ledger "t3" Example.sweepStore
     = Some (mkSession true None None (Some Example.T0))
  /\ Example.T0 + 600000 < now
  /\ fst result
     = Some "Cannot read properties of null (reading 'toString')"
  /\ statusOf "a1" (snd result) = Some completed
  /\ statusOf "a2" (snd result) = Some scheduled
  /\ ledger "t2" (snd result) = ledger "t2" Example.sweepStore
  /\ ledger "t3" (snd result)
     = Some (mkSession true None None (Some Example.T0)).
Proof.
  repeat split; vm_compute; reflexivity.
Qed.

(** ** Further properties of the routes *)

Section BookingOutcomes.

Variable tz : Z.

(** Validation looks at the request and at the therapist's identity and
    price only. *)
Lemma passesValidation_moved req st st' t p s :
  passesValidation req st t p ->
  Db.therapistById (TherapistAuth._id t) st'
  = Some (TherapistAuth.set_currentSession t s) ->
  passesValidation req st' (TherapistAuth.set_currentSession t s) p.
Proof.
  intros (Hid & Hne & Hd & Ht & Hp & Htruthy) Ht'.
  repeat split; assumption.
Qed.

Lemma bookIdle_books env req p t s u :
  Db.userById (user_id req) s = Some u ->
  bookIdle tz env req (requestedDuration req) p t s
  = (Normal (bookedReply (createdAppointment tz env req t p)),
     Db.withTherapist
       (TherapistAuth.set_currentSession t (occupiedSession env req))
       (mkStore (therapists s)
          (appointments s ++ [createdAppointment tz env req t p])
          (users s))).
Proof.
  intros Hu. unfold bookIdle, bind, Db.findUser. rewrite Hu. reflexivity.
Qed.

(** A validated request that the busy check lets through, by a stored
    user, is booked. *)
Lemma instantBook_free env req st t p u :
  passesValidation req st t p ->
  busyUntil (now env) (TherapistAuth.currentSession t) = None ->
  Db.userById (user_id req) st = Some u ->
  exists st',
    instantBook tz env req st
    = (bookedReply (createdAppointment tz env req t p), st')
    /\ appointments st'
       = (appointments st ++ [createdAppointment tz env req t p])%list
    /\ users st' = users st
    /\ Db.therapistById (TherapistAuth._id t) st'
       = Some (TherapistAuth.set_currentSession t (occupiedSession env req)).
Proof.
  intros Hv Hfree Hu.
  pose proof Hv as (_ & _ & _ & Ht & _).
  rewrite (instantBook_validated tz env req st t p Hv).
  assert (Hplain :
    exists st',
      route (bookIdle tz env req (requestedDuration req) p t)
        "Error creating booking" st
      = (bookedReply (createdAppointment tz env req t p), st')
      /\ appointments st'
         = (appointments st ++ [createdAppointment tz env req t p])%list
      /\ users st' = users st
      /\ Db.therapistById (TherapistAuth._id t) st'
         = Some (TherapistAuth.set_currentSession t
                   (occupiedSession env req))).
  { unfold route. rewrite (bookIdle_books env req p t st u Hu).
    eexists. split; [reflexivity|]. split; [reflexivity|].
    split; [reflexivity|].
    now apply therapistById_withTherapist. }
  assert (Hhealed :
    exists st',
      route (Db.saveTherapist
               (TherapistAuth.set_currentSession t idleSession) ;;
             bookIdle tz env req (requestedDuration req) p
               (TherapistAuth.set_currentSession t idleSession))
        "Error creating booking" st
      = (bookedReply (createdAppointment tz env req t p), st')
      /\ appointments st'
         = (appointments st ++ [createdAppointment tz env req t p])%list
      /\ users st' = users st
      /\ Db.therapistById (TherapistAuth._id t) st'
         = Some (TherapistAuth.set_currentSession t
                   (occupiedSession env req))).
  { unfold route, bind at 1, Db.saveTherapist.
    rewrite (bookIdle_books env req p
               (TherapistAuth.set_currentSession t idleSession)
               (Db.withTherapist
                  (TherapistAuth.set_currentSession t idleSession) st)
               u Hu).
    eexists. split; [reflexivity|]. split; [reflexivity|].
    split; [reflexivity|].
    apply (therapistById_withTherapist (TherapistAuth._id t)
             (mkStore
                (therapists
                   (Db.withTherapist
                      (TherapistAuth.set_currentSession t idleSession) st))
                (appointments st
                   ++ [createdAppointment tz env req
                         (TherapistAuth.set_currentSession t idleSession) p])
                (users st))
             (TherapistAuth.set_currentSession t idleSession)
             (occupiedSession env req)).
    now apply therapistById_withTherapist. }
  unfold busyUntil in Hfree.
  destruct (TherapistAuth.currentSession t) as [cs|]; [|exact Hplain].
  destruct (isActive cs); [|exact Hplain].
  destruct (endsAt cs) as [e|]; [|exact Hhealed].
  destruct (now env <? e); [discriminate | exact Hhealed].
Qed.

(** X1. A request that passes validation, made by a stored user, for a
    therapist the busy check lets through (no ledger, an inactive one, an
    active one without [endsAt], or one whose [endsAt] is not after
    [now], the instant [now = endsAt] included) is booked: the reply is
    200 with [canJoinAt = now + 5 min]; exactly one appointment is
    appended, [scheduled], starting at [now + 5 min] with the requested
    duration and the HH:MM of its start as [startTime]; and the
    therapist's ledger is active, references the new appointment and
    ends at [now + 5 min + duration]. *)
Theorem instantBook_books env req st t p u :
  passesValidation req st t p ->
  busyUntil (now env) (TherapistAuth.currentSession t) = None ->
  Db.userById (user_id req) st = Some u ->
  let result := instantBook tz env req st in
  let a := createdAppointment tz env req t p in
  code (fst result) = 200
  /\ data (fst result) = Some (BookingData a (now env + 300000))
  /\ appointments (snd result) = (appointments st ++ [a])%list
  /\ Appointment._id a = newId env
  /\ Appointment.status a = scheduled
  /\ Appointment.date a = now env + 300000
  /\ Appointment.duration a = requestedDuration req
  /\ Appointment.startTime a = formatHM tz (Appointment.date a)
  /\ Appointment.userId a = user_id req
  /\ Appointment.therapistId a = TherapistAuth._id t
  /\ ledger (TherapistAuth._id t) (snd result)
     = Some (mkSession true (Some (newId env)) (Some (now env + 300000))
               (Some (now env + 300000 + requestedDuration req * 60000))).
Proof.
  intros Hv Hfree Hu result a.
  destruct (instantBook_free env req st t p u Hv Hfree Hu)
    as (st' & E & Happ & _ & Hl).
  subst result. rewrite E. simpl fst. simpl snd.
  unfold ledger. rewrite Hl.
  repeat split; try reflexivity. exact Happ.
Qed.

(** X2. instant-book creates an appointment exactly when it replies with
    success: a failed request leaves the appointments as they were, a
    successful one appends the single document of its reply, stored
    under the fresh id with status [scheduled]; users are never
    written. *)
Theorem instantBook_creates_iff_success env req st :
  let result := instantBook tz env req st in
  users (snd result) = users st
  /\ (success (fst result) = false ->
      appointments (snd result) = appointments st)
  /\ (success (fst result) = true ->
      exists a,
        data (fst result) = Some (BookingData a (now env + 300000))
        /\ appointments (snd result) = (appointments st ++ [a])%list
        /\ Appointment._id a = newId env
        /\ Appointment.status a = scheduled).
Proof.
  set (Q := fun (s : Store) (r : Response * Store) =>
    users (snd r) = users s
    /\ (success (fst r) = false -> appointments (snd r) = appointments s)
    /\ (success (fst r) = true ->
        exists a,
          data (fst r) = Some (BookingData a (now env + 300000))
          /\ appointments (snd r) = (appointments s ++ [a])%list
          /\ Appointment._id a = newId env
          /\ Appointment.status a = scheduled)).
  change (Q st (instantBook tz env req st)).
  assert (Hk : forall d p t s,
             Q s (route (bookIdle tz env req d p t)
                    "Error creating booking" s)).
  { intros d p t s. unfold Q, route, bookIdle, bind, Db.findUser.
    destruct (Db.userById (user_id req) s); simpl.
    - split; [reflexivity|]. split; [discriminate|].
      intros _. eexists. repeat split.
    - split; [reflexivity|]. split; [reflexivity | discriminate]. }
  assert (Hs : forall d p t t' s,
             Q s (route (Db.saveTherapist t' ;; bookIdle tz env req d p t)
                    "Error creating booking" s)).
  { intros d p t t' s. exact (Hk d p t (Db.withTherapist t' s)). }
  assert (Hf : forall r, success r = false ->
                         Q st (route (ret r) "Error creating booking" st)).
  { intros r Hr. unfold Q. simpl. rewrite Hr. split; [reflexivity|].
    split; [reflexivity | discriminate]. }
  unfold instantBook, instantBookBody.
  destruct (body_therapistId req) as [tid|]; [|now apply Hf].
  destruct (_ || _); [now apply Hf|].
  destruct (negb _); [now apply Hf|].
  unfold route at 1, bind at 1, Db.findTherapist.
  destruct (Db.therapistById tid st) as [t|]; [|now apply Hf].
  destruct (TherapistAuth.pricing t) as [pr|]; [|now apply Hf].
  destruct (negb _); [now apply Hf|].
  destruct (TherapistAuth.currentSession t) as [cs|]; [|apply Hk].
  destruct (isActive cs); [|apply Hk].
  destruct (endsAt cs) as [e|]; [|apply Hs].
  destruct (now env <? e); [|apply Hs].
  now apply Hf.
Qed.

End BookingOutcomes.

Section ReadPaths.

Variable tz : Z.

(** X3. instant-book checks its input in a fixed order and answers the
    first failing check without touching the store: a missing or empty
    therapist id or a zero duration; then a duration other than 30 or
    60, whoever the therapist is; then an unknown therapist (404); then a
    missing, zero or NaN [pricing.perSession], even when the therapist is
    busy. *)
Theorem instantBook_validation_order env req st :
  (body_therapistId req = None \/ body_therapistId req = Some ""
   \/ requestedDuration req = 0 ->
   instantBook tz env req st
   = (failure 400 "Therapist ID and duration are required", st))
  /\ (forall tid,
        body_therapistId req = Some tid -> tid <> "" ->
        requestedDuration req <> 0 ->
        requestedDuration req <> 30 -> requestedDuration req <> 60 ->
        instantBook tz env req st
        = (failure 400 "Duration must be 30 or 60 minutes", st))
  /\ (forall tid,
        body_therapistId req = Some tid -> tid <> "" ->
        requestedDuration req = 30 \/ requestedDuration req = 60 ->
        Db.therapistById tid st = None ->
        instantBook tz env req st = (failure 404 "Therapist not found", st))
  /\ (forall tid t,
        body_therapistId req = Some tid -> tid <> "" ->
        requestedDuration req = 30 \/ requestedDuration req = 60 ->
        Db.therapistById tid st = Some t ->
        match TherapistAuth.pricing t with
        | Some pr => JsNumber.truthy (TherapistAuth.perSession pr) = false
        | None => True
        end ->
        instantBook tz env req st
        = (failure 400 "Therapist pricing is not configured", st)).
Proof.
  unfold instantBook, route, instantBookBody.
  split; [|split; [|split]].
  - intros [H | [H | H]].
    + now rewrite H.
    + rewrite H. reflexivity.
    + destruct (body_therapistId req); [|reflexivity].
      rewrite H. simpl. now rewrite orb_true_r.
  - intros tid Hid Hne H0 H30 H60. rewrite Hid.
    apply String.eqb_neq in Hne. apply Z.eqb_neq in H0.
    apply Z.eqb_neq in H30. apply Z.eqb_neq in H60.
    rewrite Hne, H0. simpl. now rewrite H30, H60.
  - intros tid Hid Hne Hd Ht. rewrite Hid.
    apply String.eqb_neq in Hne. rewrite Hne.
    assert (H0 : (requestedDuration req =? 0) = false)
      by (apply Z.eqb_neq; lia).
    assert (Hin : existsb (Z.eqb (requestedDuration req)) [30; 60] = true)
      by (destruct Hd as [-> | ->]; reflexivity).
    rewrite H0, Hin. simpl. unfold bind, Db.findTherapist. now rewrite Ht.
  - intros tid t Hid Hne Hd Ht Hp. rewrite Hid.
    apply String.eqb_neq in Hne. rewrite Hne.
    assert (H0 : (requestedDuration req =? 0) = false)
      by (apply Z.eqb_neq; lia).
    assert (Hin : existsb (Z.eqb (requestedDuration req)) [30; 60] = true)
      by (destruct Hd as [-> | ->]; reflexivity).
    rewrite H0, Hin. simpl. unfold bind, Db.findTherapist. rewrite Ht.
    destruct (TherapistAuth.pricing t) as [pr|]; [|reflexivity].
    now rewrite Hp.
Qed.

Lemma replace_idem {D} (key : D -> Id) (d : D) (l : list D) :
  Db.replace key d (Db.replace key d l) = Db.replace key d l.
Proof.
  unfold Db.replace. rewrite map_map. apply map_ext. intros x.
  destruct (String.eqb (key x) (key d)) eqn:E.
  - now rewrite String.eqb_refl.
  - now rewrite E.
Qed.

(** What therapist-status does with a stored therapist, by the outcome
    of the busy check. *)
Lemma therapistStatus_cases now st t :
  Db.therapistById (TherapistAuth._id t) st = Some t ->
  match busyUntil now (TherapistAuth.currentSession t) with
  | Some e =>
      therapistStatus now (TherapistAuth._id t) st
      = (statusReply false (Some e) (TherapistAuth.currentSession t), st)
  | None =>
      therapistStatus now (TherapistAuth._id t) st
      = (statusReply true None (TherapistAuth.currentSession t), st)
      \/ therapistStatus now (TherapistAuth._id t) st
         = (statusReply true None (Some idleSession),
            Db.withTherapist
              (TherapistAuth.set_currentSession t idleSession) st)
  end.
Proof.
  intros Ht.
  unfold therapistStatus, route, therapistStatusBody, bind,
    Db.findTherapist, Db.saveTherapist, busyUntil.
  rewrite Ht.
  destruct (TherapistAuth.currentSession t) as [cs|]; [|now left].
  destruct (isActive cs); [|now left].
  destruct (endsAt cs) as [e|]; [|now right].
  destruct (now <? e); [reflexivity | now right].
Qed.

(** X4. The status check and the booking agree at one instant.  Either
    the status check reports the therapist unavailable until [e],
    leaving the store as it is, and a validated booking is refused as
    busy with the same [availableAt = e]; or it reports the therapist
    available and the booking is not refused as busy: it replies 200, or
    404 when the user is unknown. *)
Theorem therapistStatus_agrees_with_booking env req st t p :
  passesValidation req st t p ->
  let status := therapistStatus (now env) (TherapistAuth._id t) st in
  let booking := instantBook tz env req st in
  (exists e s,
     fst status = statusReply false (Some e) s
     /\ snd status = st
     /\ booking = (busyReply e, st))
  \/ (exists s,
        fst status = statusReply true None s
        /\ availableAt (fst booking) = None
        /\ (code (fst booking) = 200 \/ code (fst booking) = 404)).
Proof.
  intros Hv status booking.
  pose proof Hv as (_ & _ & _ & Ht & _).
  pose proof (therapistStatus_cases (now env) st t Ht) as Hs.
  destruct (busyUntil (now env) (TherapistAuth.currentSession t))
    as [e|] eqn:Hb.
  - left. exists e, (TherapistAuth.currentSession t).
    subst status. rewrite Hs. simpl. repeat split.
    subst booking. unfold busyUntil in Hb.
    destruct (TherapistAuth.currentSession t) as [cs|] eqn:Hcs;
      [|discriminate].
    destruct (isActive cs) eqn:Hact; [|discriminate].
    destruct (endsAt cs) as [e'|] eqn:He; [|discriminate].
    destruct (now env <? e') eqn:Hlt; [|discriminate].
    injection Hb as <-. apply Z.ltb_lt in Hlt.
    now apply (instantBook_busy tz env req st t p cs e').
  - right.
    assert (Hbook : availableAt (fst booking) = None
                    /\ (code (fst booking) = 200 \/ code (fst booking) = 404)).
    { subst booking.
      rewrite (instantBook_validated tz env req st t p Hv).
      assert (Hk : forall t0 s0,
                let r := route (bookIdle tz env req (requestedDuration req)
                                  p t0) "Error creating booking" s0 in
                availableAt (fst r) = None
                /\ (code (fst r) = 200 \/ code (fst r) = 404)).
      { intros t0 s0. unfold route, bookIdle, bind, Db.findUser.
        destruct (Db.userById (user_id req) s0); simpl; auto. }
      unfold busyUntil in Hb.
      destruct (TherapistAuth.currentSession t) as [cs|]; [|apply Hk].
      destruct (isActive cs); [|apply Hk].
      destruct (endsAt cs) as [e|].
      - destruct (now env <? e); [discriminate|].
        exact (Hk _ (Db.withTherapist _ st)).
      - exact (Hk _ (Db.withTherapist _ st)). }
    destruct Hs as [Hs | Hs]; subst status; rewrite Hs; simpl;
      eexists; (split; [reflexivity | exact Hbook]).
Qed.

(** X5. therapist-status is idempotent and local: asked again at the
    same instant it gives the same reply and changes nothing more; it
    never writes appointments or users, nor the ledger of another
    therapist. *)
Theorem therapistStatus_idempotent now id st :
  let first := therapistStatus now id st in
  therapistStatus now id (snd first) = first
  /\ appointments (snd first) = appointments st
  /\ users (snd first) = users st
  /\ (forall other, other <> id -> ledger other (snd first) = ledger other st).
Proof.
  intros first. subst first.
  destruct (Db.therapistById id st) as [t|] eqn:Ht.
  - pose proof (therapistById_id _ _ _ Ht) as Hid. subst id.
    pose proof (therapistStatus_cases now st t Ht) as Hs.
    assert (Hsame : forall r,
              therapistStatus now (TherapistAuth._id t) st = (r, st) ->
              therapistStatus now (TherapistAuth._id t) st = (r, st) ->
              therapistStatus now (TherapistAuth._id t)
                (snd (therapistStatus now (TherapistAuth._id t) st))
              = therapistStatus now (TherapistAuth._id t) st
              /\ appointments
                   (snd (therapistStatus now (TherapistAuth._id t) st))
                 = appointments st
              /\ users (snd (therapistStatus now (TherapistAuth._id t) st))
                 = users st
              /\ (forall other, other <> TherapistAuth._id t ->
                    ledger other
                      (snd (therapistStatus now (TherapistAuth._id t) st))
                    = ledger other st)).
    { intros r E _. rewrite E. simpl. rewrite E. now repeat split. }
    destruct (busyUntil now (TherapistAuth.currentSession t)) as [e|].
    + eapply Hsame; exact Hs.
    + destruct Hs as [Hs | Hs]; [eapply Hsame; exact Hs|].
      rewrite Hs. simpl snd.
      split.
      { pose proof (therapistStatus_cases now
                      (Db.withTherapist
                         (TherapistAuth.set_currentSession t idleSession) st)
                      (TherapistAuth.set_currentSession t idleSession)
                      (therapistById_withTherapist _ _ _ idleSession Ht))
          as Hs2.
        simpl in Hs2. destruct Hs2 as [Hs2 | Hs2]; rewrite Hs2.
        - reflexivity.
        - f_equal. unfold Db.withTherapist. simpl. f_equal.
          apply replace_idem. }
      split; [reflexivity|]. split; [reflexivity|].
      intros other Hne. unfold ledger, Db.therapistById, Db.withTherapist.
      simpl. rewrite find_replace_other; [reflexivity|].
      simpl. congruence.
  - assert (E : therapistStatus now id st
                = (failure 404 "Therapist not found", st)).
    { unfold therapistStatus, route, therapistStatusBody, bind,
        Db.findTherapist. now rewrite Ht. }
    rewrite E. simpl. rewrite E. now repeat split.
Qed.

End ReadPaths.

Section Compositions.

Variable tz : Z.

Lemma find_app_new {D} (f : D -> bool) (l : list D) (x : D) :
  find f l = None -> f x = true -> find f (l ++ [x]) = Some x.
Proof.
  intros Hl Hx. induction l as [|a l IH]; simpl in *.
  - now rewrite Hx.
  - destruct (f a); [discriminate | now apply IH].
Qed.

(** X6. Two bookings of one therapist.  After a successful booking made
    at [now1] for [d] minutes, a second validated request is refused as
    busy with [availableAt = now1 + 5 min + d] at every instant before
    it, and the store stays as the first booking left it; from that
    instant on a request by a stored user is booked and the ledger
    references the second appointment. *)
Theorem instantBook_then_instantBook env1 req1 env2 req2 st t p p2 u :
  passesValidation req1 st t p ->
  busyUntil (now env1) (TherapistAuth.currentSession t) = None ->
  Db.userById (user_id req1) st = Some u ->
  passesValidation req2 st t p2 ->
  let st1 := snd (instantBook tz env1 req1 st) in
  let free := now env1 + 300000 + requestedDuration req1 * 60000 in
  (now env2 < free ->
   instantBook tz env2 req2 st1 = (busyReply free, st1))
  /\ (free <= now env2 ->
      forall u2, Db.userById (user_id req2) st = Some u2 ->
      code (fst (instantBook tz env2 req2 st1)) = 200
      /\ ledger (TherapistAuth._id t) (snd (instantBook tz env2 req2 st1))
         = Some (occupiedSession env2 req2)).
Proof.
  intros Hv Hfree Hu Hv2 st1 free.
  destruct (instantBook_free tz env1 req1 st t p u Hv Hfree Hu)
    as (st' & E & _ & Husers & Hl).
  assert (Est : st1 = st') by (subst st1; now rewrite E).
  rewrite Est.
  assert (Hv2' : passesValidation req2 st'
                   (TherapistAuth.set_currentSession t
                      (occupiedSession env1 req1)) p2)
    by (eapply passesValidation_moved; eassumption).
  split.
  - intros Hlt.
    eapply (instantBook_busy tz env2 req2 st' _ p2
              (occupiedSession env1 req1) free Hv2');
      [reflexivity | reflexivity | reflexivity | exact Hlt].
  - intros Hge u2 Hu2.
    assert (Hfree2 : busyUntil (now env2)
                       (TherapistAuth.currentSession
                          (TherapistAuth.set_currentSession t
                             (occupiedSession env1 req1))) = None).
    { unfold busyUntil. simpl. fold free.
      assert (H : (now env2 <? free) = false) by (apply Z.ltb_ge; lia).
      now rewrite H. }
    assert (Hu2' : Db.userById (user_id req2) st' = Some u2)
      by (unfold Db.userById; rewrite Husers; exact Hu2).
    destruct (instantBook_free tz env2 req2 st' _ p2 u2 Hv2' Hfree2 Hu2')
      as (st2 & E2 & _ & _ & Hl2).
    rewrite E2. simpl fst. simpl snd. split; [reflexivity|].
    unfold ledger. simpl in Hl2. now rewrite Hl2.
Qed.

(** X7. Booking, then joining.  Once a booking made at [now0] under a
    fresh id has succeeded, join-session admits the booking user from
    [now0] itself to the end of the session, [now0 + 5 min + duration],
    both included: five minutes before the [canJoinAt] that the booking
    reply announced.  Before [now0] the join is refused with
    [canJoinAt = now0]. *)
Theorem instantBook_then_joinSession env req st t p u now' :
  passesValidation req st t p ->
  busyUntil (now env) (TherapistAuth.currentSession t) = None ->
  Db.userById (user_id req) st = Some u ->
  Db.appointmentById (newId env) st = None ->
  let booked := instantBook tz env req st in
  let join := joinSession now' (user_id req) (newId env) (snd booked) in
  data (fst booked)
  = Some (BookingData (createdAppointment tz env req t p) (now env + 300000))
  /\ (now env <= now' <= now env + 300000 + requestedDuration req * 60000 ->
      code (fst join) = 200 /\ success (fst join) = true)
  /\ (now' < now env ->
      code (fst join) = 400 /\ canJoinAt (fst join) = Some (now env)).
Proof.
  intros Hv Hfree Hu Hfresh booked join.
  destruct (instantBook_free tz env req st t p u Hv Hfree Hu)
    as (st' & E & Happ & Husers & Hl).
  assert (Hd : 0 <= requestedDuration req)
    by (destruct Hv as (_ & _ & [-> | ->] & _); lia).
  subst booked. subst join. rewrite E. simpl fst. simpl snd.
  split; [reflexivity|].
  assert (Ha : Db.appointmentById (newId env) st'
               = Some (createdAppointment tz env req t p)).
  { unfold Db.appointmentById. rewrite Happ. apply find_app_new.
    - exact Hfresh.
    - simpl. apply String.eqb_refl. }
  assert (Hu' : Db.userById (user_id req) st' = Some u)
    by (unfold Db.userById; rewrite Husers; exact Hu).
  assert (Hui : User._id u = user_id req)
    by (eapply (find_key User._id); exact Hu).
  unfold joinSession, route, joinSessionBody, bind,
    Db.findAppointment, Db.findTherapist, Db.findUser.
  rewrite Ha.
  change (Appointment.therapistId (createdAppointment tz env req t p))
    with (TherapistAuth._id t).
  change (Appointment.userId (createdAppointment tz env req t p))
    with (user_id req).
  rewrite Hl, Hu'. rewrite Hui, String.eqb_refl.
  change (Appointment.date (createdAppointment tz env req t p))
    with (now env + 300000).
  change (Appointment.duration (createdAppointment tz env req t p))
    with (requestedDuration req).
  cbn [negb andb].
  replace (now env + 300000 - 5 * 60000) with (now env) by lia.
  split.
  - intros [Hlo Hhi].
    assert (H1 : (now' <? now env) = false) by (apply Z.ltb_ge; lia).
    assert (H2 : (now env + 300000 + requestedDuration req * 60000 <? now')
                 = false) by (apply Z.ltb_ge; lia).
    rewrite H1, H2. simpl. split; reflexivity.
  - intros Hlt.
    assert (H1 : (now' <? now env) = true) by (apply Z.ltb_lt; lia).
    rewrite H1. simpl. split; reflexivity.
Qed.

End Compositions.

Section EndAndJoin.

Variable tz : Z.

(** X8. end-session spares a newer booking: when the therapist's ledger
    is absent or references another appointment, the call replies 200
    and completes its own appointment, and no therapist document is
    written, so the other appointment keeps the ledger. *)
Theorem endSession_spares_other_booking now caller id st a t :
  Db.appointmentById id st = Some a ->
  Db.therapistById (Appointment.therapistId a) st = Some t ->
  match TherapistAuth.currentSession t with
  | Some cs => exists i, appointmentId cs = Some i /\ i <> Appointment._id a
  | None => True
  end ->
  endSession now caller id st
  = (mkResponse 200 true (Some "Session ended successfully")
       None None None None,
     Db.withAppointment (Appointment.set_status a completed) st)
  /\ therapists (snd (endSession now caller id st)) = therapists st
  /\ statusOf id (snd (endSession now caller id st)) = Some completed.
Proof.
  intros Ha Ht Hcs.
  assert (E : endSession now caller id st
              = (mkResponse 200 true (Some "Session ended successfully")
                   None None None None,
                 Db.withAppointment (Appointment.set_status a completed) st)).
  { unfold endSession, route, endSessionBody, bind,
      Db.findAppointment, Db.findTherapist, Db.saveAppointment.
    rewrite Ha. simpl. rewrite Ht.
    destruct (TherapistAuth.currentSession t) as [cs|]; [|reflexivity].
    destruct Hcs as (i & Hi & Hne). rewrite Hi. simpl.
    apply String.eqb_neq in Hne. now rewrite Hne. }
  split; [exact E|]. split; [now rewrite E|].
  now apply (endSession_status now caller id st a).
Qed.

(** X9. How end-session fails.  An unknown appointment id is answered
    404 and nothing is written.  When the appointment exists, it is
    saved as [completed] before anything can fail: a therapist that no
    longer exists, or a ledger whose [appointmentId] is null (idle, or
    already in cooldown), makes the call reply 500 "Error ending
    session" with the appointment completed and every therapist
    document untouched. *)
Theorem endSession_failures now caller id st :
  (Db.appointmentById id st = None ->
   endSession now caller id st = (failure 404 "Appointment not found", st))
  /\ (forall a,
        Db.appointmentById id st = Some a ->
        Db.therapistById (Appointment.therapistId a) st = None
        \/ (exists t cs,
              Db.therapistById (Appointment.therapistId a) st = Some t
              /\ TherapistAuth.currentSession t = Some cs
              /\ appointmentId cs = None) ->
        code (fst (endSession now caller id st)) = 500
        /\ message (fst (endSession now caller id st))
           = Some "Error ending session"
        /\ snd (endSession now caller id st)
           = Db.withAppointment (Appointment.set_status a completed) st
        /\ statusOf id (snd (endSession now caller id st)) = Some completed).
Proof.
  split.
  - intros Ha. unfold endSession, route, endSessionBody, bind,
      Db.findAppointment. now rewrite Ha.
  - intros a Ha Hcase.
    assert (E : exists e,
               endSession now caller id st
               = (serverError "Error ending session" e,
                  Db.withAppointment (Appointment.set_status a completed) st)).
    { destruct Hcase as [Ht | (t & cs & Ht & Hcs & Hnull)].
      - unfold endSession, route, endSessionBody, bind,
          Db.findAppointment, Db.findTherapist, Db.saveAppointment.
        rewrite Ha. simpl. rewrite Ht. eexists. reflexivity.
      - eexists.
        apply (endSession_null_reference now caller id st a t cs);
          assumption. }
    destruct E as (e & E).
    pose proof (endSession_status now caller id st a Ha) as Hs.
    rewrite E in *. simpl. repeat split. exact Hs.
Qed.

(** X10. join-session only reads: whatever the request, the store is
    returned as it was.  An unknown appointment id is answered 404; a
    caller who is neither the user nor the therapist of the appointment
    is answered 403 at every instant, inside the join window or not; an
    appointment whose user or therapist document is gone is answered
    500. *)
Theorem joinSession_refusals now caller id st :
  snd (joinSession now caller id st) = st
  /\ (Db.appointmentById id st = None ->
      fst (joinSession now caller id st)
      = failure 404 "Appointment not found")
  /\ (forall a u t,
        Db.appointmentById id st = Some a ->
        Db.userById (Appointment.userId a) st = Some u ->
        Db.therapistById (Appointment.therapistId a) st = Some t ->
        caller <> Appointment.userId a ->
        caller <> Appointment.therapistId a ->
        fst (joinSession now caller id st)
        = failure 403 "You are not authorized to join this session")
  /\ (forall a,
        Db.appointmentById id st = Some a ->
        Db.userById (Appointment.userId a) st = None
        \/ Db.therapistById (Appointment.therapistId a) st = None ->
        code (fst (joinSession now caller id st)) = 500
        /\ message (fst (joinSession now caller id st))
           = Some "Error joining session").
Proof.
  split; [apply joinSession_readonly|].
  unfold joinSession, route, joinSessionBody, bind,
    Db.findAppointment, Db.findTherapist, Db.findUser.
  split; [|split].
  - intros Ha. now rewrite Ha.
  - intros a u t Ha Hu Ht Hnu Hnt. rewrite Ha. simpl. rewrite Ht, Hu. simpl.
    assert (Hui : User._id u = Appointment.userId a)
      by (eapply (find_key User._id); exact Hu).
    pose proof (therapistById_id _ _ _ Ht) as Hti.
    assert (H1 : String.eqb (User._id u) caller = false)
      by (apply String.eqb_neq; congruence).
    assert (H2 : String.eqb (TherapistAuth._id t) caller = false)
      by (apply String.eqb_neq; congruence).
    now rewrite H1, H2.
  - intros a Ha Hgone. rewrite Ha. simpl.
    destruct (Db.userById (Appointment.userId a) st) as [u|] eqn:Hu.
    + destruct Hgone as [Hgone | Hgone]; [discriminate|].
      rewrite Hgone. simpl. split; reflexivity.
    + destruct (Db.therapistById (Appointment.therapistId a) st);
        simpl; split; reflexivity.
Qed.

Lemma statusOf_same_appointments id st st' :
  appointments st' = appointments st -> statusOf id st' = statusOf id st.
Proof.
  intros E. unfold statusOf, Db.appointmentById. now rewrite E.
Qed.

(** Saving any document as [completed] keeps a completed status. *)
Lemma statusOf_completed_saved id y st :
  statusOf id st = Some completed ->
  statusOf id (Db.withAppointment (Appointment.set_status y completed) st)
  = Some completed.
Proof.
  intros H.
  destruct (String.eqb (Appointment._id y) id) eqn:E.
  - apply String.eqb_eq in E. subst id.
    unfold statusOf in *.
    destruct (Db.appointmentById (Appointment._id y) st) as [a|] eqn:Ha;
      [|discriminate].
    unfold Db.appointmentById, Db.withAppointment. simpl.
    change (Appointment._id y)
      with (Appointment._id (Appointment.set_status y completed)) at 1.
    erewrite find_replace_same; [reflexivity | exact Ha].
  - apply String.eqb_neq in E.
    unfold statusOf, Db.appointmentById, Db.withAppointment in *. simpl.
    rewrite find_replace_other; [exact H | exact E].
Qed.

Lemma autoEnd_appointments now y st :
  appointments (snd (autoEnd tz now y st)) = appointments st
  \/ appointments (snd (autoEnd tz now y st))
     = appointments
         (Db.withAppointment (Appointment.set_status y completed) st).
Proof.
  unfold autoEnd.
  destruct (hasEnded tz now y); [|now left]. right.
  unfold bind, Db.saveAppointment, Db.findTherapist, Db.saveTherapist.
  destruct (Db.therapistById _ _) as [t|]; [|reflexivity].
  destruct (TherapistAuth.currentSession t) as [cs|]; [|reflexivity].
  destruct (isActive cs); [|reflexivity].
  destruct (appointmentId cs) as [i|]; simpl; [|reflexivity].
  destruct (String.eqb i _); reflexivity.
Qed.

Lemma forOf_autoEnd_completed id now xs st :
  statusOf id st = Some completed ->
  statusOf id (snd (forOf xs (autoEnd tz now) st)) = Some completed.
Proof.
  revert st. induction xs as [|x xs IH]; intros st H; simpl; [exact H|].
  assert (Hx : statusOf id (snd (autoEnd tz now x st)) = Some completed).
  { destruct (autoEnd_appointments now x st) as [E | E];
      rewrite (statusOf_same_appointments id _ _ E);
      [exact H | now apply statusOf_completed_saved]. }
  unfold bind. destruct (autoEnd tz now x st) as [[[]|e] st1]; simpl in *.
  - now apply IH.
  - exact Hx.
Qed.

Lemma sweeperTick_completed id now st :
  statusOf id st = Some completed ->
  statusOf id (snd (sweeperTick tz now st)) = Some completed.
Proof.
  intros H.
  pose proof (forOf_autoEnd_completed id now
                (filter (isExpiredCandidate now) (appointments st)) st H)
    as H1.
  unfold sweeperTick, appointmentPass, ledgerPass, bind,
    Db.queryAppointments, Db.queryTherapists.
  destruct (forOf (filter (isExpiredCandidate now) (appointments st))
              (autoEnd tz now) st) as [[[]|e] st1]; simpl in *.
  - pose proof (forOf_clearExpired_appointments tz now
                  (filter hasActiveSession (therapists st1)) st1) as Hc.
    destruct (forOf _ (clearExpired tz now) st1) as [[[]|e] st2];
      simpl in *;
      now rewrite (statusOf_same_appointments id _ _ Hc).
  - exact H1.
Qed.

(** X11. [completed] is absorbing.  Once the appointment stored under an
    id is completed it stays completed along every sequence of
    bookings (creating their documents under other ids), status checks,
    joins, end-session calls and sweeper ticks. *)
Theorem completed_is_absorbing id ops st :
  statusOf id st = Some completed ->
  forallb (createsElsewhere id) ops = true ->
  statusOf id (run tz ops st) = Some completed.
Proof.
  revert st. induction ops as [|op ops IH]; intros st H Hops; simpl;
    [exact H|].
  simpl in Hops. apply andb_prop in Hops. destruct Hops as [Hop Hops].
  apply IH; [|exact Hops].
  destruct op as [env req|now tid|now caller i|now caller i|now]; simpl in *.
  - assert (Hne : newId env <> id)
      by (apply String.eqb_neq; now destruct (String.eqb (newId env) id)).
    destruct (keeps_instantBook tz id env req st Hne) as [E _].
    unfold statusOf in *. now rewrite E.
  - now rewrite (statusOf_same_appointments id _ _
                   (therapistStatus_appointments now tid st)).
  - now rewrite joinSession_readonly.
  - destruct (Db.appointmentById i st) as [a|] eqn:Ha.
    + rewrite (statusOf_same_appointments id
                 (Db.withAppointment (Appointment.set_status a completed) st)
                 (snd (endSession now caller i st))
                 (endSession_appointments now caller i st a Ha)).
      now apply statusOf_completed_saved.
    + assert (E : endSession now caller i st
                  = (failure 404 "Appointment not found", st)).
      { unfold endSession, route, endSessionBody, bind,
          Db.findAppointment. now rewrite Ha. }
      now rewrite E.
  - now apply sweeperTick_completed.
Qed.

End EndAndJoin.

Section SweeperOutcomes.

Variable tz : Z.


(** X13. For an appointment written by instant-book, the sweeper's end
    instant is [date + duration] with the seconds and milliseconds of
    [date] dropped: it finds the session ended exactly when [now] is
    past that instant, which lies less than a minute before
    [date + duration], the last instant at which join-session still
    admits a participant, and never after it. *)
Theorem sweeper_end_is_truncated now a :
  Appointment.startTime a = formatHM tz (Appointment.date a) ->
  let finish := Appointment.date a + Appointment.duration a * 60000 in
  let swept := finish - (Appointment.date a + tz) mod 60000 in
  sessionEndTime tz a = Some swept
  /\ (hasEnded tz now a = true <-> swept < now)
  /\ finish - 60000 < swept <= finish.
Proof.
  intros Hst finish swept.
  assert (E : sessionEndTime tz a = Some swept).
  { unfold sessionEndTime.
    rewrite Hst, parseHM_formatHM, setHours_own_time.
    f_equal. subst swept finish. lia. }
  split; [exact E|]. split.
  - unfold hasEnded. rewrite E. apply Z.ltb_lt.
  - pose proof (Z.mod_pos_bound (Appointment.date a + tz) 60000
                  ltac:(lia)).
    subst swept. lia.
Qed.

Lemma ledgersReferenced_same_therapists st st' :
  therapists st' = therapists st ->
  ledgersReferenced st -> ledgersReferenced st'.
Proof. intros E H. unfold ledgersReferenced. now rewrite E. Qed.

Lemma ledgersReferenced_cleared t st :
  ledgersReferenced st ->
  ledgersReferenced
    (Db.withTherapist (TherapistAuth.set_currentSession t idleSession) st).
Proof.
  intros H t' cs Hin Hcs Hact. simpl in Hin.
  apply In_replace in Hin. destruct Hin as [-> | Hin].
  - simpl in Hcs. injection Hcs as <-. discriminate.
  - now apply (H t' cs).
Qed.

(** With every active ledger referencing an appointment, the first
    loop's body cannot throw. *)
Lemma autoEnd_returns now x st :
  ledgersReferenced st ->
  exists st', autoEnd tz now x st = (Normal tt, st')
              /\ ledgersReferenced st'.
Proof.
  intros H. unfold autoEnd.
  destruct (hasEnded tz now x); [|now exists st].
  unfold bind, Db.saveAppointment, Db.findTherapist, Db.saveTherapist.
  rewrite therapistById_withAppointment.
  destruct (Db.therapistById
              (Appointment.therapistId
                 (Appointment.set_status x completed)) st)
    as [t|] eqn:Ht.
  2:{ eexists. split; [reflexivity|].
      now apply (ledgersReferenced_same_therapists st). }
  assert (Hin : In t (therapists st))
    by (unfold Db.therapistById in Ht; now apply find_some in Ht).
  destruct (TherapistAuth.currentSession t) as [cs|] eqn:Hcs.
  2:{ eexists. split; [reflexivity|].
      now apply (ledgersReferenced_same_therapists st). }
  destruct (isActive cs) eqn:Hact.
  2:{ eexists. split; [reflexivity|].
      now apply (ledgersReferenced_same_therapists st). }
  pose proof (H t cs Hin Hcs Hact) as Href.
  destruct (appointmentId cs) as [i|]; [|contradiction]. simpl.
  destruct (String.eqb i _).
  - eexists. split; [reflexivity|].
    apply (ledgersReferenced_cleared t
             (Db.withAppointment (Appointment.set_status x completed) st)).
    now apply (ledgersReferenced_same_therapists st).
  - eexists. split; [reflexivity|].
    now apply (ledgersReferenced_same_therapists st).
Qed.

Lemma autoEnd_appointments_ended now x st :
  hasEnded tz now x = true ->
  appointments (snd (autoEnd tz now x st))
  = appointments (Db.withAppointment (Appointment.set_status x completed) st).
Proof.
  intros He. unfold autoEnd. rewrite He.
  unfold bind, Db.saveAppointment, Db.findTherapist, Db.saveTherapist.
  destruct (Db.therapistById _ _) as [t|]; [|reflexivity].
  destruct (TherapistAuth.currentSession t) as [cs|]; [|reflexivity].
  destruct (isActive cs); [|reflexivity].
  destruct (appointmentId cs) as [i|]; simpl; [|reflexivity].
  destruct (String.eqb i _); reflexivity.
Qed.

(** Saving a document keeps every id of the collection in use. *)
Lemma stored_withAppointment id y st :
  Db.appointmentById id st <> None ->
  Db.appointmentById id (Db.withAppointment y st) <> None.
Proof.
  intros H. unfold Db.appointmentById, Db.withAppointment in *. simpl.
  destruct (String.eqb (Appointment._id y) id) eqn:E.
  - apply String.eqb_eq in E. subst id.
    destruct (find _ (appointments st)) as [a|] eqn:Ha; [|contradiction].
    erewrite find_replace_same; [discriminate | exact Ha].
  - apply String.eqb_neq in E. now rewrite find_replace_other.
Qed.

Lemma stored_autoEnd id now x st :
  Db.appointmentById id st <> None ->
  Db.appointmentById id (snd (autoEnd tz now x st)) <> None.
Proof.
  intros H.
  destruct (autoEnd_appointments tz now x st) as [E | E];
    unfold Db.appointmentById in *; rewrite E; [exact H|].
  now apply (stored_withAppointment id).
Qed.

Lemma forOf_autoEnd_returns now xs st :
  ledgersReferenced st ->
  (forall x, In x xs -> Db.appointmentById (Appointment._id x) st <> None) ->
  exists st',
    forOf xs (autoEnd tz now) st = (Normal tt, st')
    /\ (forall x, In x xs -> hasEnded tz now x = true ->
                  statusOf (Appointment._id x) st' = Some completed).
Proof.
  revert st. induction xs as [|x xs IH]; intros st Href Hstored; simpl.
  - exists st. split; [reflexivity | intros x []].
  - destruct (autoEnd_returns now x st Href) as (st1 & E1 & Href1).
    assert (Hstored1 : forall y, In y xs ->
              Db.appointmentById (Appointment._id y) st1 <> None).
    { intros y Hy.
      pose proof (stored_autoEnd (Appointment._id y) now x st
                    (Hstored y (or_intror Hy))) as H.
      now rewrite E1 in H. }
    destruct (IH st1 Href1 Hstored1) as (st' & E' & Hdone).
    exists st'. unfold bind. rewrite E1. split; [exact E'|].
    intros y [<- | Hy] He; [|now apply Hdone].
    assert (Hx : statusOf (Appointment._id x) st1 = Some completed).
    { pose proof (autoEnd_appointments_ended now x st He) as Ha.
      rewrite E1 in Ha. simpl in Ha.
      rewrite (statusOf_same_appointments (Appointment._id x)
                 (Db.withAppointment (Appointment.set_status x completed) st)
                 st1 Ha).
      unfold statusOf, Db.appointmentById, Db.withAppointment. simpl.
      pose proof (Hstored x (or_introl eq_refl)) as Hs.
      unfold Db.appointmentById in Hs.
      destruct (find _ (appointments st)) as [a|] eqn:Hf; [|contradiction].
      change (Appointment._id x)
        with (Appointment._id (Appointment.set_status x completed)) at 1.
      erewrite find_replace_same; [reflexivity | exact Hf]. }
    pose proof (forOf_autoEnd_completed tz (Appointment._id x) now xs st1 Hx)
      as Hkeep.
    now rewrite E' in Hkeep.
Qed.

Lemma forOf_clearExpired_returns now ts st :
  (forall t, In t ts -> TherapistAuth.currentSession t <> None) ->
  exists st', forOf ts (clearExpired tz now) st = (Normal tt, st').
Proof.
  revert st. induction ts as [|t ts IH]; intros st H; simpl.
  - now exists st.
  - assert (E : exists st1, clearExpired tz now t st = (Normal tt, st1)).
    { unfold clearExpired, Db.saveTherapist.
      pose proof (H t (or_introl eq_refl)) as Ht.
      destruct (TherapistAuth.currentSession t) as [cs|]; [|contradiction].
      destruct (_ <? now); eexists; reflexivity. }
    destruct E as (st1 & E). unfold bind. rewrite E.
    apply IH. intros t' Ht'. apply H. now right.
Qed.

(** X14. A tick that cannot fail.  When every active ledger of the store
    references an appointment, the tick logs no error, and afterwards
    every appointment that was stored as [scheduled] with [date <= now]
    and that the sweeper's computation finds ended has the status
    [completed]. *)
Theorem sweeperTick_without_error now st :
  ledgersReferenced st ->
  fst (sweeperTick tz now st) = None
  /\ (forall x,
        In x (appointments st) ->
        Appointment.status x = scheduled ->
        Appointment.date x <= now ->
        hasEnded tz now x = true ->
        statusOf (Appointment._id x) (snd (sweeperTick tz now st))
        = Some completed).
Proof.
  intros Href.
  assert (Hstored : forall x,
            In x (filter (isExpiredCandidate now) (appointments st)) ->
            Db.appointmentById (Appointment._id x) st <> None).
  { intros x Hx Hnone. apply filter_In in Hx. destruct Hx as [Hx _].
    unfold Db.appointmentById in Hnone.
    pose proof (find_none _ _ Hnone x Hx) as Hf. simpl in Hf.
    now rewrite String.eqb_refl in Hf. }
  destruct (forOf_autoEnd_returns now _ st Href Hstored)
    as (st1 & E1 & Hdone).
  destruct (forOf_clearExpired_returns now
              (filter hasActiveSession (therapists st1)) st1)
    as (st2 & E2).
  { intros t Ht Hnone. apply filter_In in Ht. destruct Ht as [_ Ht].
    unfold hasActiveSession in Ht. now rewrite Hnone in Ht. }
  assert (E : sweeperTick tz now st = (None, st2)).
  { unfold sweeperTick, appointmentPass, ledgerPass, bind,
      Db.queryAppointments, Db.queryTherapists.
    rewrite E1. now rewrite E2. }
  rewrite E. simpl. split; [reflexivity|].
  intros x Hin Hs Hdate He.
  pose proof (forOf_clearExpired_appointments tz now
                (filter hasActiveSession (therapists st1)) st1) as Ha.
  rewrite E2 in Ha. simpl in Ha.
  rewrite (statusOf_same_appointments _ _ _ Ha).
  apply Hdone; [|exact He].
  apply filter_In. split; [exact Hin|].
  unfold isExpiredCandidate. rewrite Hs. simpl. now apply Z.leb_le.
Qed.

End SweeperOutcomes.

(** *** The sweeper against end-session *)

Section SweeperPass.

Variable tz : Z.

(** What every iteration keeps, the whole loop keeps, also when it ends
    in a throw. *)
Lemma forOf_invariant {A} (P : Store -> Prop) (body : A -> Async unit) xs :
  (forall x st, P st -> P (snd (body x st))) ->
  forall st, P st -> P (snd (forOf xs body st)).
Proof.
  intros Hbody. induction xs as [|x xs IH]; intros st H; simpl; [exact H|].
  unfold bind. pose proof (Hbody x st H) as Hx.
  destruct (body x st) as [[[]|e] st1]; simpl in *; [now apply IH | exact Hx].
Qed.

(** Saving a therapist with the idle ledger leaves every stored ledger
    as it was or idle. *)
Lemma ledger_saved_idle id t0 st s :
  ledger id st = Some s ->
  ledger id (Db.withTherapist
               (TherapistAuth.set_currentSession t0 idleSession) st)
  = Some s
  \/ ledger id (Db.withTherapist
                  (TherapistAuth.set_currentSession t0 idleSession) st)
     = Some idleSession.
Proof.
  intros H. unfold ledger in *.
  destruct (Db.therapistById id st) as [t|] eqn:Ht; [|discriminate].
  destruct (String.eqb (TherapistAuth._id t0) id) eqn:E.
  - right. apply String.eqb_eq in E. subst id.
    unfold Db.therapistById, Db.withTherapist in *. simpl.
    change (TherapistAuth._id t0)
      with (TherapistAuth._id
              (TherapistAuth.set_currentSession t0 idleSession)) at 1.
    erewrite find_replace_same; [reflexivity | exact Ht].
  - left. apply String.eqb_neq in E.
    unfold Db.therapistById, Db.withTherapist in *. simpl.
    rewrite find_replace_other; [now rewrite Ht | exact E].
Qed.

(** The first loop's body leaves a ledger as it was or idle. *)
Lemma autoEnd_ledger id now x st s :
  ledger id st = Some s ->
  ledger id (snd (autoEnd tz now x st)) = Some s
  \/ ledger id (snd (autoEnd tz now x st)) = Some idleSession.
Proof.
  intros H. unfold autoEnd.
  destruct (hasEnded tz now x); [|now left].
  unfold bind, Db.saveAppointment, Db.findTherapist, Db.saveTherapist.
  destruct (Db.therapistById _ _) as [t|]; [|now left].
  destruct (TherapistAuth.currentSession t) as [cs|]; [|now left].
  destruct (isActive cs); [|now left].
  destruct (appointmentId cs) as [i|]; simpl; [|now left].
  destruct (String.eqb i _); simpl; [|now left].
  apply ledger_saved_idle. exact H.
Qed.

(** So does the body of the second loop. *)
Lemma clearExpired_ledger id now t st s :
  ledger id st = Some s ->
  ledger id (snd (clearExpired tz now t st)) = Some s
  \/ ledger id (snd (clearExpired tz now t st)) = Some idleSession.
Proof.
  intros H. unfold clearExpired, Db.saveTherapist.
  destruct (TherapistAuth.currentSession t) as [cs|]; [|now left].
  destruct (_ <? now); simpl; [|now left].
  apply ledger_saved_idle. exact H.
Qed.

(** The first loop, when it runs to its end over a list that holds an
    ended appointment [a], leaves idle the ledger that referenced [a]. *)
Lemma forOf_autoEnd_clears now a cs xs :
  hasEnded tz now a = true ->
  isActive cs = true ->
  appointmentId cs = Some (Appointment._id a) ->
  forall st st1,
    forOf xs (autoEnd tz now) st = (Normal tt, st1) ->
    (In a xs /\ ledger (Appointment.therapistId a) st = Some cs)
    \/ ledger (Appointment.therapistId a) st = Some idleSession ->
    ledger (Appointment.therapistId a) st1 = Some idleSession.
Proof.
  intros He Hact Href.
  induction xs as [|x xs IH]; intros st st1 Hrun Hl.
  - simpl in Hrun. injection Hrun as <-.
    destruct Hl as [[[] _] | Hl]. exact Hl.
  - simpl in Hrun. unfold bind in Hrun.
    destruct (autoEnd tz now x st) as [[[]|e] st'] eqn:E; [|discriminate].
    apply (IH st' st1 Hrun).
    destruct Hl as [[[-> | Hin] Hl] | Hl].
    + (* the iteration of [a] itself *)
      right. unfold ledger in Hl.
      destruct (Db.therapistById (Appointment.therapistId a) st)
        as [t|] eqn:Ht; [|discriminate].
      rewrite (autoEnd_referenced tz now st a t cs He Ht Hl Hact Href) in E.
      injection E as <-.
      pose proof (therapistById_id _ _ _ Ht) as Hid. rewrite <- Hid.
      apply ledger_withTherapist.
      rewrite therapistById_withAppointment, Hid. exact Ht.
    + destruct (autoEnd_ledger (Appointment.therapistId a) now x st cs Hl)
        as [H | H]; rewrite E in H; simpl in H; [left | right]; auto.
    + right.
      destruct (autoEnd_ledger (Appointment.therapistId a) now x st
                  idleSession Hl) as [H | H];
        rewrite E in H; exact H.
Qed.

(** The first loop, when it runs to its end over a list that holds an
    ended appointment [a], leaves [completed] under the id of [a]. *)
Lemma forOf_autoEnd_marks now a xs :
  hasEnded tz now a = true ->
  forall st st1,
    forOf xs (autoEnd tz now) st = (Normal tt, st1) ->
    In a xs ->
    Db.appointmentById (Appointment._id a) st <> None ->
    statusOf (Appointment._id a) st1 = Some completed.
Proof.
  intros He.
  induction xs as [|x xs IH]; intros st st1 Hrun Hin Hstored;
    [destruct Hin|].
  simpl in Hrun. unfold bind in Hrun.
  destruct (autoEnd tz now x st) as [[[]|e] st'] eqn:E; [|discriminate].
  destruct Hin as [-> | Hin].
  - assert (Hx : statusOf (Appointment._id a) st' = Some completed).
    { pose proof (autoEnd_appointments_ended tz now a st He) as Happ.
      rewrite E in Happ. cbn [snd] in Happ.
      rewrite (statusOf_same_appointments _ _ _ Happ).
      unfold statusOf, Db.appointmentById, Db.withAppointment in *. simpl.
      destruct (find _ (appointments st)) as [y|] eqn:Hf; [|contradiction].
      change (Appointment._id a)
        with (Appointment._id (Appointment.set_status a completed)) at 1.
      erewrite find_replace_same; [reflexivity | exact Hf]. }
    pose proof (forOf_autoEnd_completed tz (Appointment._id a) now xs st' Hx)
      as Hkeep.
    now rewrite Hrun in Hkeep.
  - apply (IH st' st1 Hrun Hin).
    pose proof (stored_autoEnd tz (Appointment._id a) now x st Hstored) as H.
    now rewrite E in H.
Qed.

(** C4 (amended). For a stored appointment with status [scheduled],
    written as instant-book writes it, whose [date + duration] is before
    [now], and a sweeper tick at [now] that runs without error: the
    tick's query selects the appointment and its own computation finds
    it ended, and after the tick the appointment is [completed], as
    after end-session; but a ledger that is active and references the
    appointment is idle after the tick, all fields cleared, where
    end-session leaves it in cooldown (active, no appointment, ending ten
    minutes after [now]). *)
Theorem sweeperTick_clears_ledger now caller st a :
  Db.appointmentById (Appointment._id a) st = Some a ->
  Appointment.status a = scheduled ->
  Appointment.startTime a = formatHM tz (Appointment.date a) ->
  0 <= Appointment.duration a ->
  Appointment.date a + Appointment.duration a * 60000 < now ->
  fst (sweeperTick tz now st) = None ->
  let swept := snd (sweeperTick tz now st) in
  let ended := snd (endSession now caller (Appointment._id a) st) in
  isExpiredCandidate now a = true
  /\ hasEnded tz now a = true
  /\ statusOf (Appointment._id a) swept = Some completed
  /\ statusOf (Appointment._id a) ended = Some completed
  /\ (forall t cs,
        Db.therapistById (Appointment.therapistId a) st = Some t ->
        TherapistAuth.currentSession t = Some cs ->
        isActive cs = true ->
        appointmentId cs = Some (Appointment._id a) ->
        ledger (Appointment.therapistId a) swept
        = Some (mkSession false None None None)
        /\ ledger (Appointment.therapistId a) ended
           = Some (mkSession true None None (Some (now + 600000)))
        /\ swept <> ended).
Proof.
  intros Ha Hs Hst Hdur Hlt Hok swept ended.
  assert (He : hasEnded tz now a = true) by now apply hasEnded_formatted.
  assert (Hsel : isExpiredCandidate now a = true).
  { unfold isExpiredCandidate. rewrite Hs. simpl. apply Z.leb_le. lia. }
  assert (Hin : In a (filter (isExpiredCandidate now) (appointments st))).
  { apply filter_In. split; [|exact Hsel].
    unfold Db.appointmentById in Ha. now apply find_some in Ha. }
  (* a tick without error ran both loops to their end *)
  assert (Hrun : exists st1 st2,
            forOf (filter (isExpiredCandidate now) (appointments st))
              (autoEnd tz now) st = (Normal tt, st1)
            /\ forOf (filter hasActiveSession (therapists st1))
                 (clearExpired tz now) st1 = (Normal tt, st2)
            /\ swept = st2).
  { subst swept. revert Hok.
    unfold sweeperTick, appointmentPass, ledgerPass, bind,
      Db.queryAppointments, Db.queryTherapists.
    destruct (forOf (filter (isExpiredCandidate now) (appointments st))
                (autoEnd tz now) st) as [[[]|e] st1]; [|discriminate].
    destruct (forOf (filter hasActiveSession (therapists st1))
                (clearExpired tz now) st1) as [[[]|e] st2] eqn:E2;
      [|discriminate].
    intros _. exists st1, st2. split; [reflexivity|].
    split; [exact E2 | reflexivity]. }
  destruct Hrun as (st1 & st2 & E1 & E2 & Eswept).
  assert (Hpass : forall st', appointments st' = appointments st1 ->
                              statusOf (Appointment._id a) st' = Some completed).
  { intros st' E. rewrite (statusOf_same_appointments _ _ _ E).
    apply (forOf_autoEnd_marks now a _ He st st1 E1 Hin).
    now rewrite Ha. }
  split; [exact Hsel|]. split; [exact He|].
  split.
  { rewrite Eswept. apply Hpass.
    pose proof (forOf_clearExpired_appointments tz now
                  (filter hasActiveSession (therapists st1)) st1) as Hc.
    now rewrite E2 in Hc. }
  split; [now apply (endSession_status now caller _ st a)|].
  intros t cs Ht Hcs Hact Href.
  assert (Hswept : ledger (Appointment.therapistId a) swept
                   = Some (mkSession false None None None)).
  { rewrite Eswept.
    assert (H1 : ledger (Appointment.therapistId a) st1 = Some idleSession).
    { apply (forOf_autoEnd_clears now a cs _ He Hact Href st st1 E1).
      left. split; [exact Hin|]. unfold ledger. now rewrite Ht. }
    pose proof (forOf_invariant
                  (fun s => ledger (Appointment.therapistId a) s
                            = Some idleSession)
                  (clearExpired tz now)
                  (filter hasActiveSession (therapists st1))) as Hinv.
    replace st2
      with (snd (forOf (filter hasActiveSession (therapists st1))
                   (clearExpired tz now) st1)) by now rewrite E2.
    apply Hinv; [|exact H1].
    intros x s Hl.
    now destruct (clearExpired_ledger (Appointment.therapistId a) now x s
                    idleSession Hl). }
  assert (Hended : ledger (Appointment.therapistId a) ended
                   = Some (mkSession true None None (Some (now + 600000)))).
  { subst ended.
    rewrite (endSession_referenced now caller _ st a t cs Ha Ht Hcs Href).
    simpl snd.
    pose proof (therapistById_id _ _ _ Ht) as Hid. rewrite <- Hid.
    apply (ledger_withTherapist _ t
             (mkSession true None None (Some (now + 600000)))).
    rewrite therapistById_withAppointment, Hid. exact Ht. }
  split; [exact Hswept|]. split; [exact Hended|].
  intros Heq. rewrite Heq, Hended in Hswept. discriminate.
Qed.

End SweeperPass.

(** The sweeper at [T0 + 40 min] completes the booked appointment and
    idles the ledger that end-session, called at the same instant, puts
    into cooldown until [T0 + 50 min]. *)
Lemma sweeperTick_clears_ledger_witness :
  fst (sweeperTick Example.tz (Example.T0 + Example.minutes 40)
         Example.bookedStore) = None
  /\ statusOf "a1"
       (snd (sweeperTick Example.tz (Example.T0 + Example.minutes 40)
               Example.bookedStore)) = Some completed
  /\ ledger "t1"
       (snd (sweeperTick Example.tz (Example.T0 + Example.minutes 40)
               Example.bookedStore))
     = Some (mkSession false None None None)
  /\ ledger "t1"
       (snd (endSession (Example.T0 + Example.minutes 40) "u1" "a1"
               Example.bookedStore))
     = Some (mkSession true None None
               (Some (Example.T0 + Example.minutes 50))).
Proof.
  assert (Hok : fst (sweeperTick Example.tz (Example.T0 + Example.minutes 40)
                       Example.bookedStore) = None)
    by (vm_compute; reflexivity).
  assert (Hover : Appointment.date Example.bookedAppointment
                  + Appointment.duration Example.bookedAppointment * 60000
                  < Example.T0 + Example.minutes 40)
    by (vm_compute; reflexivity).
  assert (Hdur : 0 <= Appointment.duration Example.bookedAppointment)
    by (vm_compute; discriminate).
  destruct (sweeperTick_clears_ledger Example.tz
              (Example.T0 + Example.minutes 40) "u1" Example.bookedStore
              Example.bookedAppointment eq_refl eq_refl eq_refl
              Hdur Hover Hok)
    as (_ & _ & H1 & _ & H2).
  destruct (H2 Example.bookedTherapist Example.bookedSession
              eq_refl eq_refl eq_refl eq_refl) as (H3 & H4 & _).
  split; [exact Hok|]. split; [exact H1|].
  split; [exact H3 | exact H4].
Defined.

Section PricesAndTimes.

Variable tz : Z.

Lemma Number_eqb_eq x y : Number_eqb x y = true -> x = y.
Proof.
  destruct x as [a|a| |s m e], y as [b|b| |s' m' e']; simpl;
    try discriminate; try reflexivity.
  - intros H. apply Bool.eqb_prop in H. now subst.
  - intros H. apply Bool.eqb_prop in H. now subst.
  - intros H. apply andb_prop in H. destruct H as [H He].
    apply andb_prop in H. destruct H as [Hs Hm].
    apply Bool.eqb_prop in Hs. apply Pos.eqb_eq in Hm.
    apply Z.eqb_eq in He. now subst.
Qed.

Lemma chargesWithinOne_all :
  forallb (fun p => chargesWithinOne 30 p && chargesWithinOne 60 p)
    (upto 10001) = true.
Proof. vm_compute. reflexivity. Qed.

(** X15. For every integral price from 1 to 10000 and both durations,
    the amount on a created appointment is the exact price of the
    session, [perSession * duration / 30], or one unit more: binary64
    rounding never undercharges and never adds more than one. *)
Theorem instantBook_amount_within_one env req st t p r st' a c :
  1 <= p <= 10000 ->
  passesValidation req st t (JsNumber.ofZ p) ->
  instantBook tz env req st = (r, st') ->
  data r = Some (BookingData a c) ->
  let exact := p * requestedDuration req / 30 in
  Appointment.amount (Appointment.payment a) = JsNumber.ofZ exact
  \/ Appointment.amount (Appointment.payment a) = JsNumber.ofZ (exact + 1).
Proof.
  intros Hp Hv E Hd exact.
  rewrite (instantBook_amount tz env req st t (JsNumber.ofZ p) r st' a c
             Hv E Hd).
  pose proof chargesWithinOne_all as Hall.
  rewrite forallb_forall in Hall.
  assert (Hn : Z.of_nat 10001 = 10001) by (vm_compute; reflexivity).
  specialize (Hall p (upto_In 10001 p ltac:(rewrite Hn; lia))).
  apply andb_prop in Hall. destruct Hall as [H30 H60].
  assert (Hc : chargesWithinOne (requestedDuration req) p = true)
    by (destruct Hv as (_ & _ & [-> | ->] & _); assumption).
  unfold chargesWithinOne in Hc. apply orb_prop in Hc.
  destruct Hc as [Hc | Hc]; apply Number_eqb_eq in Hc; [now left | now right].
Qed.

Lemma fiveChars_all :
  forallb (fun h => forallb (fiveChars h) (upto 60)) (upto 24) = true.
Proof. vm_compute. reflexivity. Qed.

(** X16. The HH:MM string that instant-book writes for an instant has
    five characters and is read back by the sweeper's
    [split(':').map(Number)] as the local hour and minute of that
    instant; setting the instant's date to them gives the instant with
    its seconds and milliseconds dropped. *)
Theorem formatHM_read_back t :
  String.length (formatHM tz t) = 5%nat
  /\ parseHM (formatHM tz t) = Some (getHours tz t, getMinutes tz t)
  /\ 0 <= getHours tz t < 24
  /\ 0 <= getMinutes tz t < 60
  /\ setHours tz t (getHours tz t) (getMinutes tz t) 0 0
     = t - (t + tz) mod 60000.
Proof.
  pose proof (getHours_range tz t) as Hh.
  pose proof (getMinutes_range tz t) as Hm.
  split.
  { pose proof fiveChars_all as Hall.
    rewrite forallb_forall in Hall.
    specialize (Hall (getHours tz t) (upto_In 24 _ Hh)).
    rewrite forallb_forall in Hall.
    specialize (Hall (getMinutes tz t) (upto_In 60 _ Hm)).
    unfold fiveChars in Hall. now apply Nat.eqb_eq in Hall. }
  split; [apply parseHM_formatHM|].
  split; [exact Hh|]. split; [exact Hm|].
  apply setHours_own_time.
Qed.

End PricesAndTimes.

Section EndThenJoin.

(** join-session inside the window, for a caller of the appointment. *)
Lemma joinSession_granted now caller id st a u t :
  Db.appointmentById id st = Some a ->
  Db.userById (Appointment.userId a) st = Some u ->
  Db.therapistById (Appointment.therapistId a) st = Some t ->
  caller = Appointment.userId a \/ caller = Appointment.therapistId a ->
  Appointment.date a - 300000 <= now
  <= Appointment.date a + Appointment.duration a * 60000 ->
  code (fst (joinSession now caller id st)) = 200
  /\ exists isTherapist name avatar,
       data (fst (joinSession now caller id st))
       = Some (JoinData (Appointment.meetingLink a) a isTherapist
                 name avatar).
Proof.
  intros Ha Hu Ht Hauth [Hlo Hhi].
  assert (Hallowed :
            negb (String.eqb (User._id u) caller)
            && negb (String.eqb (TherapistAuth._id t) caller) = false).
  { assert (Hui : User._id u = Appointment.userId a)
      by (eapply (find_key User._id); exact Hu).
    pose proof (therapistById_id _ _ _ Ht) as Hti.
    destruct Hauth as [-> | ->].
    - rewrite Hui, String.eqb_refl. reflexivity.
    - rewrite Hti, String.eqb_refl. apply andb_false_r. }
  unfold joinSession, route, joinSessionBody, bind,
    Db.findAppointment, Db.findTherapist, Db.findUser.
  rewrite Ha. simpl. rewrite Ht, Hu. simpl. rewrite Hallowed.
  change (5 * 60000) with 300000.
  assert (H1 : (now <? Appointment.date a - 300000) = false)
    by (apply Z.ltb_ge; lia).
  assert (H2 : (Appointment.date a + Appointment.duration a * 60000 <? now)
               = false) by (apply Z.ltb_ge; lia).
  rewrite H1, H2. simpl. split; [reflexivity|].
  destruct (String.eqb (TherapistAuth._id t) caller); eauto.
Qed.

(** end-session writes no user, and keeps a therapist stored under each
    id that had one. *)
Lemma endSession_keeps_people now caller id st :
  users (snd (endSession now caller id st)) = users st
  /\ (forall tid t,
        Db.therapistById tid st = Some t ->
        exists t', Db.therapistById tid (snd (endSession now caller id st))
                   = Some t').
Proof.
  unfold endSession, route, endSessionBody, bind,
    Db.findAppointment, Db.findTherapist, Db.saveAppointment,
    Db.saveTherapist.
  destruct (Db.appointmentById id st) as [a|]; simpl; [|eauto].
  destruct (Db.therapistById (Appointment.therapistId a) st) as [t0|] eqn:Ht0;
    simpl; [|eauto].
  destruct (TherapistAuth.currentSession t0) as [cs|]; simpl; [|eauto].
  destruct (appointmentId cs) as [i|]; simpl; [|eauto].
  destruct (String.eqb i (Appointment._id a)); simpl; [|eauto].
  split; [reflexivity|].
  intros tid t Ht.
  destruct (String.eqb (TherapistAuth._id t0) tid) eqn:E.
  - apply String.eqb_eq in E. subst tid.
    eexists. unfold Db.therapistById. simpl.
    change (TherapistAuth._id t0)
      with (TherapistAuth._id
              (TherapistAuth.set_currentSession t0 (cooldownSession now)))
      at 1.
    eapply find_replace_same. exact Ht.
  - apply String.eqb_neq in E. exists t.
    unfold Db.therapistById. simpl.
    rewrite find_replace_other; [exact Ht | exact E].
Qed.

(** X17. Ending, then joining.  join-session does not look at the
    status: after end-session has completed an appointment, its user
    and its therapist are still admitted (200, with the meeting link)
    at every instant of the join window, up to the scheduled end. *)
Theorem endSession_then_joinSession now1 c1 now2 caller id st a u t :
  Db.appointmentById id st = Some a ->
  Db.userById (Appointment.userId a) st = Some u ->
  Db.therapistById (Appointment.therapistId a) st = Some t ->
  caller = Appointment.userId a \/ caller = Appointment.therapistId a ->
  Appointment.date a - 300000 <= now2
  <= Appointment.date a + Appointment.duration a * 60000 ->
  let ended := snd (endSession now1 c1 id st) in
  statusOf id ended = Some completed
  /\ code (fst (joinSession now2 caller id ended)) = 200
  /\ exists isTherapist name avatar,
       data (fst (joinSession now2 caller id ended))
       = Some (JoinData (Appointment.meetingLink a)
                 (Appointment.set_status a completed) isTherapist
                 name avatar).
Proof.
  intros Ha Hu Ht Hauth Hwin ended.
  destruct (endSession_keeps_people now1 c1 id st) as [Husers Hther].
  destruct (Hther _ _ Ht) as (t' & Ht').
  assert (Ha' : Db.appointmentById id ended
                = Some (Appointment.set_status a completed)).
  { subst ended. unfold Db.appointmentById.
    rewrite (endSession_appointments now1 c1 id st a Ha).
    pose proof (appointmentById_id _ _ _ Ha) as Hid. subst id.
    change (Appointment._id a)
      with (Appointment._id (Appointment.set_status a completed)) at 1.
    eapply find_replace_same. exact Ha. }
  assert (Hu' : Db.userById (Appointment.userId a) ended = Some u)
    by (subst ended; unfold Db.userById; rewrite Husers; exact Hu).
  split; [now apply (endSession_status now1 c1 id st a)|].
  exact (joinSession_granted now2 caller id ended
           (Appointment.set_status a completed) u t' Ha' Hu' Ht' Hauth Hwin).
Qed.

End EndThenJoin.

(** ** The client against the server *)

Section ClientTimes.

Variable tz : Z.

(** Setting a date to the hours and minutes of another instant. *)
Lemma setHours_other_day t e :
  setHours tz t (getHours tz e) (getMinutes tz e) 0 0
  = e - (e + tz) mod 60000
    - ((e + tz) / 86400000 - (t + tz) / 86400000) * 86400000.
Proof.
  pose proof (setHours_own_time tz e) as H.
  unfold setHours, localTime, msPerDay, msPerHour, msPerMinute in *.
  lia.
Qed.

(** The end instant the pages compute, in the zone [tz], for a session
    whose [endTime] was formatted in that zone: the end of the session,
    its seconds dropped, moved back by as many days as the session
    crosses midnights. *)
Lemma atTimeOfDay_endTime a :
  Appointment.endTime a
  = formatHM tz (Appointment.date a + Appointment.duration a * 60000) ->
  let finish := Appointment.date a + Appointment.duration a * 60000 in
  atTimeOfDay tz (Appointment.date a) (Appointment.endTime a)
  = Some (finish - (finish + tz) mod 60000
          - ((finish + tz) / 86400000
             - (Appointment.date a + tz) / 86400000) * 86400000).
Proof.
  intros He finish. unfold atTimeOfDay.
  rewrite He, parseHM_formatHM. f_equal. apply setHours_other_day.
Qed.

(** The seconds the countdown shows, for a difference below 2^53 ms in
    magnitude. *)
Lemma timeRemaining_seconds sessionEnd now :
  - 2 ^ 53 < sessionEnd - now < 2 ^ 53 ->
  timeRemaining sessionEnd now
  = JsNumber.ofZ (Z.max 0 ((sessionEnd - now) / 1000)).
Proof.
  intros Hd. unfold timeRemaining.
  assert (H53 : 2 ^ 53 = 9007199254740992) by reflexivity.
  rewrite Math_floor_div by lia.
  apply Math_max_zero.
  pose proof (Z.div_mod (sessionEnd - now) 1000 ltac:(lia)) as Hdm.
  pose proof (Z.mod_pos_bound (sessionEnd - now) 1000 ltac:(lia)) as Hb.
  lia.
Qed.

End ClientTimes.

Section ClientFacts.

(** X18. A join request the appointments page sends is never refused as
    too early.  For a stored appointment whose [createdAt] is not more
    than five minutes before [date] (instant-book sets [date] five
    minutes after the booking) and a caller of the appointment: when
    [canJoinSession] holds on the page's [currentTime], whatever the
    browser's time zone, [handleJoinSession] sends the request, and the
    server, answering at a clock reading [serverNow] not more than five
    minutes behind [currentTime], grants the join (200, with the meeting
    link) if [serverNow] is not past [date + duration], and otherwise
    refuses it with "This session has ended", never with "Session can be
    joined in N minute(s)". *)
Theorem client_join_admitted tzBrowser currentTime serverNow caller st a u t
  createdAt :
  Db.appointmentById (Appointment._id a) st = Some a ->
  Db.userById (Appointment.userId a) st = Some u ->
  Db.therapistById (Appointment.therapistId a) st = Some t ->
  caller = Appointment.userId a \/ caller = Appointment.therapistId a ->
  0 <= Appointment.duration a ->
  Appointment.date a <= createdAt + 300000 ->
  canJoinSession tzBrowser currentTime (Client.view a createdAt) = true ->
  currentTime - 300000 <= serverNow ->
  exists r,
    handleJoinSession tzBrowser currentTime serverNow caller
      (Client.view a createdAt) st
    = Some (r, st)
    /\ (serverNow <= Appointment.date a + Appointment.duration a * 60000 ->
        exists isTherapist name avatar,
          r = mkResponse 200 true None None None None
                (Some (JoinData (Appointment.meetingLink a) a
                         isTherapist name avatar)))
    /\ (Appointment.date a + Appointment.duration a * 60000 < serverNow ->
        r = mkResponse 400 false (Some "This session has ended")
              None None None None).
Proof.
  intros Ha Hu Ht Hauth Hdur Hcreated Hcan Hclock.
  unfold handleJoinSession. rewrite Hcan.
  unfold canJoinSession in Hcan. cbn [Client.createdAt Client.view] in Hcan.
  apply andb_prop in Hcan. destruct Hcan as [Hcan _].
  apply andb_prop in Hcan. destruct Hcan as [Hlo _].
  apply Z.leb_le in Hlo. change (5 * 60000) with 300000 in Hlo.
  pose proof (joinSession_readonly serverNow caller (Appointment._id a) st)
    as Hro.
  exists (fst (joinSession serverNow caller (Appointment._id a) st)).
  split.
  { cbn [Client._id Client.view].
    now rewrite (surjective_pairing (joinSession _ _ _ _)), Hro. }
  rewrite (joinSession_authorized serverNow caller (Appointment._id a) st
             a u t Ha Hu Ht Hauth).
  assert (H1 : (serverNow <? Appointment.date a - 300000) = false)
    by (apply Z.ltb_ge; lia).
  rewrite H1. split.
  - intros Hopen.
    assert (H2 : (Appointment.date a + Appointment.duration a * 60000
                  <? serverNow) = false) by (apply Z.ltb_ge; lia).
    rewrite H2.
    destruct (String.eqb (TherapistAuth._id t) caller); eauto.
  - intros Hover.
    assert (H2 : (Appointment.date a + Appointment.duration a * 60000
                  <? serverNow) = true) by (apply Z.ltb_lt; lia).
    rewrite H2. reflexivity.
Qed.

(** X19. With the browser in the server's time zone, a session that
    crosses local midnight cannot be joined from the pages.  For an
    appointment written by instant-book (its [endTime] is the server's
    HH:MM of [date + duration]) whose [date + duration] falls on the
    local day after [date], as for a booking made late in the evening,
    both pages compute the end instant on the day of [date], before the
    session starts: [canJoinSession] is false at every [currentTime] in
    both components, the request is never sent, and the session shows as
    expired from its start on.  The server itself admits the same caller
    at every clock reading [serverNow] inside the join window. *)
Theorem client_blocks_session_over_midnight tzServer tzBrowser
  currentTime serverNow caller st a u t createdAt :
  tzBrowser = tzServer ->
  Db.appointmentById (Appointment._id a) st = Some a ->
  Db.userById (Appointment.userId a) st = Some u ->
  Db.therapistById (Appointment.therapistId a) st = Some t ->
  caller = Appointment.userId a \/ caller = Appointment.therapistId a ->
  Appointment.endTime a
  = formatHM tzServer (Appointment.date a + Appointment.duration a * 60000) ->
  0 <= Appointment.duration a * 60000 < 86400000 ->
  Appointment.date a <= createdAt + 300000 ->
  (Appointment.date a + tzServer) / 86400000
  < (Appointment.date a + Appointment.duration a * 60000 + tzServer)
    / 86400000 ->
  canJoinSession tzBrowser currentTime (Client.view a createdAt) = false
  /\ therapistCanJoinSession tzBrowser currentTime (Client.view a createdAt)
     = false
  /\ handleJoinSession tzBrowser currentTime serverNow caller
       (Client.view a createdAt) st = None
  /\ (Appointment.date a <= currentTime ->
      isSessionExpired tzBrowser currentTime (Client.view a createdAt) = true)
  /\ (Appointment.date a - 300000 <= serverNow
      <= Appointment.date a + Appointment.duration a * 60000 ->
      code (fst (joinSession serverNow caller (Appointment._id a) st)) = 200
      /\ success (fst (joinSession serverNow caller (Appointment._id a) st))
         = true).
Proof.
  intros -> Ha Hu Ht Hauth He Hdur Hcreated Hcross.
  pose proof (atTimeOfDay_endTime tzServer a He) as Hend.
  cbn zeta in Hend.
  set (finish := Appointment.date a + Appointment.duration a * 60000) in *.
  pose proof (Z.mod_pos_bound (finish + tzServer) 60000 ltac:(lia)) as Hm.
  set (e := finish - (finish + tzServer) mod 60000
            - ((finish + tzServer) / 86400000
               - (Appointment.date a + tzServer) / 86400000) * 86400000) in *.
  assert (Hbefore : e < Appointment.date a) by (subst e finish; nia).
  assert (Hth : therapistCanJoinSession tzServer currentTime
                  (Client.view a createdAt) = false).
  { unfold therapistCanJoinSession.
    cbn [Client.createdAt Client.date Client.endTime Client.view].
    rewrite Hend.
    destruct (createdAt + 5 * 60000 <=? currentTime) eqn:Hlo; [|reflexivity].
    apply Z.leb_le in Hlo. cbn [andb]. apply Z.leb_gt. lia. }
  assert (Hcan : canJoinSession tzServer currentTime (Client.view a createdAt)
                 = false).
  { unfold canJoinSession. unfold therapistCanJoinSession in Hth.
    now rewrite Hth. }
  split; [exact Hcan|]. split; [exact Hth|].
  split; [unfold handleJoinSession; now rewrite Hcan|].
  split.
  - intros Hstarted. unfold isSessionExpired.
    cbn [Client.date Client.endTime Client.view]. rewrite Hend.
    apply Z.ltb_lt. lia.
  - intros Hwin.
    rewrite (joinSession_authorized serverNow caller (Appointment._id a) st
               a u t Ha Hu Ht Hauth).
    fold finish.
    assert (H1 : (serverNow <? Appointment.date a - 300000) = false)
      by (apply Z.ltb_ge; lia).
    assert (H2 : (finish <? serverNow) = false) by (apply Z.ltb_ge; lia).
    rewrite H1, H2. split; reflexivity.
Qed.

(** X20. The countdown of the call, with the browser in the server's
    time zone.  For an appointment written by instant-book, the end
    instant handed to the call component is the one the sweeper
    computes, [date + duration] with the seconds of [date] dropped.  At
    a browser clock reading within 2^53 ms of it, the countdown shows
    the whole seconds left, none when the end has passed; it runs
    [endCall] exactly when less than a second is left, and until then
    the store is untouched.  When it fires with the appointment's id the
    server, at its own clock reading, completes the appointment, and a
    ledger that references it enters the cooldown ending ten minutes
    after that reading. *)
Theorem countdown_ends_session tzServer tzBrowser now serverNow caller st
  a t cs createdAt :
  tzBrowser = tzServer ->
  Db.appointmentById (Appointment._id a) st = Some a ->
  Appointment._id a <> "" ->
  Db.therapistById (Appointment.therapistId a) st = Some t ->
  TherapistAuth.currentSession t = Some cs ->
  appointmentId cs = Some (Appointment._id a) ->
  Appointment.startTime a = formatHM tzServer (Appointment.date a) ->
  let swept := Appointment.date a + Appointment.duration a * 60000
               - (Appointment.date a + tzServer) mod 60000 in
  - 2 ^ 53 < swept - now < 2 ^ 53 ->
  let tick :=
    updateTimer swept now serverNow caller (Some (Appointment._id a)) st in
  callEndTime tzBrowser (Client.view a createdAt) = Some swept
  /\ sessionEndTime tzServer a = Some swept
  /\ fst tick = JsNumber.ofZ (Z.max 0 ((swept - now) / 1000))
  /\ (now <= swept - 1000 -> snd tick = st)
  /\ (swept - 1000 < now ->
      statusOf (Appointment._id a) (snd tick) = Some completed
      /\ ledger (Appointment.therapistId a) (snd tick)
         = Some (mkSession true None None (Some (serverNow + 600000)))).
Proof.
  intros -> Ha Hid Ht Hcs Href Hst swept Hbound tick.
  assert (Hcall : callEndTime tzServer (Client.view a createdAt) = Some swept).
  { unfold callEndTime, atTimeOfDay.
    cbn [Client.date Client.startTime Client.duration Client.view].
    rewrite Hst, parseHM_formatHM, setHours_own_time.
    f_equal. subst swept. lia. }
  assert (Hsweep : sessionEndTime tzServer a = Some swept).
  { unfold sessionEndTime.
    rewrite Hst, parseHM_formatHM, setHours_own_time.
    f_equal. subst swept. lia. }
  pose proof (timeRemaining_seconds swept now Hbound) as Hrem.
  pose proof (Z.div_mod (swept - now) 1000 ltac:(lia)) as Hdm.
  pose proof (Z.mod_pos_bound (swept - now) 1000 ltac:(lia)) as Hb.
  assert (H53 : 2 ^ 53 = 9007199254740992) by reflexivity.
  assert (Hfire : JsNumber.strictEq (timeRemaining swept now) (JsNumber.ofZ 0)
                  = (Z.max 0 ((swept - now) / 1000) =? 0)).
  { rewrite Hrem. apply strictEq_zero. lia. }
  split; [exact Hcall|]. split; [exact Hsweep|].
  split; [subst tick; unfold updateTimer; cbn [fst]; exact Hrem|].
  split.
  { intros Hle. subst tick. unfold updateTimer. cbn [snd].
    rewrite Hfire.
    assert (H : (Z.max 0 ((swept - now) / 1000) =? 0) = false)
      by (apply Z.eqb_neq; lia).
    now rewrite H. }
  intros Hlt. subst tick. unfold updateTimer. cbn [snd].
  rewrite Hfire.
  assert (H : (Z.max 0 ((swept - now) / 1000) =? 0) = true)
    by (apply Z.eqb_eq; lia).
  rewrite H. unfold endCall.
  assert (Hne : String.eqb (Appointment._id a) "" = false)
    by (apply String.eqb_neq; exact Hid).
  rewrite Hne.
  rewrite (endSession_referenced serverNow caller (Appointment._id a) st a t cs
             Ha Ht Hcs Href).
  cbn [snd]. split.
  - unfold statusOf. rewrite appointmentById_withTherapist.
    now rewrite (appointmentById_withAppointment _ _ _ completed Ha).
  - pose proof (therapistById_id _ _ _ Ht) as Hti. rewrite <- Hti.
    apply (ledger_withTherapist _ t
             (mkSession true None None (Some (serverNow + 600000)))).
    rewrite therapistById_withAppointment, Hti. exact Ht.
Qed.

End ClientFacts.

(** *** The further properties on the running example *)

Lemma example_idle_validated :
  passesValidation (Example.book 30) Example.idleStore
    (Example.therapist "t1" 500 (Some idleSession)) (JsNumber.ofZ 500).
Proof.
  unfold passesValidation.
  repeat split; try reflexivity; [discriminate | now left].
Qed.

Lemma instantBook_books_witness :
  code (fst (instantBook Example.tz Example.env0 (Example.book 30)
               Example.idleStore)) = 200
  /\ ledger "t1" Example.bookedStore = Some Example.bookedSession.
Proof.
  destruct (instantBook_books Example.tz Example.env0 (Example.book 30)
              Example.idleStore
              (Example.therapist "t1" 500 (Some idleSession))
              (JsNumber.ofZ 500) Example.teen
              example_idle_validated eq_refl eq_refl)
    as (H1 & _ & _ & _ & _ & _ & _ & _ & _ & _ & H2).
  split; [exact H1 | exact H2].
Defined.

Lemma instantBook_creates_iff_success_witness :
  (exists a,
     appointments Example.bookedStore
     = (appointments Example.idleStore ++ [a])%list
     /\ Appointment.status a = scheduled)
  /\ appointments
       (snd (instantBook Example.tz Example.env1 (Example.book 30)
               Example.bookedStore))
     = appointments Example.bookedStore.
Proof.
  split.
  - destruct (instantBook_creates_iff_success Example.tz Example.env0
                (Example.book 30) Example.idleStore) as (_ & _ & H).
    destruct (H eq_refl) as (a & _ & Ha & _ & Hs).
    exists a. split; [exact Ha | exact Hs].
  - destruct (instantBook_creates_iff_success Example.tz Example.env1
                (Example.book 30) Example.bookedStore) as (_ & H & _).
    exact (H eq_refl).
Defined.

Lemma instantBook_validation_order_witness :
  instantBook Example.tz Example.env1 (Example.book 45) Example.bookedStore
  = (failure 400 "Duration must be 30 or 60 minutes", Example.bookedStore)
  /\ instantBook Example.tz Example.env1
       (mkBookRequest (Some "t7") (Some 30) "u1") Example.bookedStore
     = (failure 404 "Therapist not found", Example.bookedStore).
Proof.
  split.
  - destruct (instantBook_validation_order Example.tz Example.env1
                (Example.book 45) Example.bookedStore) as (_ & H & _).
    apply (H "t1" eq_refl); discriminate.
  - destruct (instantBook_validation_order Example.tz Example.env1
                (mkBookRequest (Some "t7") (Some 30) "u1")
                Example.bookedStore) as (_ & _ & H & _).
    apply (H "t7" eq_refl); [discriminate | now left | reflexivity].
Defined.

Lemma therapistStatus_agrees_with_booking_witness :
  fst (therapistStatus (Example.T0 + Example.minutes 1) "t1"
         Example.bookedStore)
  = statusReply false (Some (Example.T0 + Example.minutes 35))
      (Some Example.bookedSession)
  /\ fst (instantBook Example.tz Example.env1 (Example.book 30)
            Example.bookedStore)
     = busyReply (Example.T0 + Example.minutes 35).
Proof.
  destruct (therapistStatus_agrees_with_booking Example.tz Example.env1
              (Example.book 30) Example.bookedStore Example.bookedTherapist
              (JsNumber.ofZ 500) example_validated)
    as [(e & s & H1 & _ & H2) | (s & H1 & _)].
  - split; [reflexivity|]. rewrite H2. simpl.
    assert (He : e = Example.T0 + Example.minutes 35).
    { assert (H : availableAt
                    (fst (instantBook Example.tz Example.env1
                            (Example.book 30) Example.bookedStore))
                  = Some e) by now rewrite H2.
      vm_compute in H. injection H as <-. reflexivity. }
    now rewrite He.
  - vm_compute in H1. discriminate.
Defined.

Lemma therapistStatus_idempotent_witness :
  therapistStatus Example.T0 "t1"
    (snd (therapistStatus Example.T0 "t1" Example.corruptStore))
  = therapistStatus Example.T0 "t1" Example.corruptStore.
Proof.
  exact (proj1 (therapistStatus_idempotent Example.T0 "t1"
                  Example.corruptStore)).
Defined.

Lemma instantBook_then_instantBook_witness :
  instantBook Example.tz Example.env1 (Example.book 60) Example.bookedStore
  = (busyReply (Example.T0 + Example.minutes 35), Example.bookedStore)
  /\ code (fst (instantBook Example.tz
                  (mkEnv (Example.T0 + Example.minutes 35) "a2" "x" "y")
                  (Example.book 60) Example.bookedStore)) = 200.
Proof.
  assert (Hv : passesValidation (Example.book 60) Example.idleStore
                 (Example.therapist "t1" 500 (Some idleSession))
                 (JsNumber.ofZ 500)).
  { unfold passesValidation.
    repeat split; try reflexivity; [discriminate | now right]. }
  split.
  - destruct (instantBook_then_instantBook Example.tz Example.env0
                (Example.book 30) Example.env1 (Example.book 60)
                Example.idleStore
                (Example.therapist "t1" 500 (Some idleSession))
                (JsNumber.ofZ 500) (JsNumber.ofZ 500) Example.teen
                example_idle_validated eq_refl eq_refl Hv) as (H & _).
    exact (H eq_refl).
  - destruct (instantBook_then_instantBook Example.tz Example.env0
                (Example.book 30)
                (mkEnv (Example.T0 + Example.minutes 35) "a2" "x" "y")
                (Example.book 60) Example.idleStore
                (Example.therapist "t1" 500 (Some idleSession))
                (JsNumber.ofZ 500) (JsNumber.ofZ 500) Example.teen
                example_idle_validated eq_refl eq_refl Hv) as (_ & H).
    destruct (H ltac:(vm_compute; discriminate) Example.teen eq_refl)
      as (Hc & _).
    exact Hc.
Defined.

Lemma instantBook_then_joinSession_witness :
  code (fst (joinSession Example.T0 "u1" "a1" Example.bookedStore)) = 200
  /\ canJoinAt (fst (joinSession (Example.T0 - 1) "u1" "a1"
                       Example.bookedStore)) = Some Example.T0.
Proof.
  split.
  - destruct (instantBook_then_joinSession Example.tz Example.env0
                (Example.book 30) Example.idleStore
                (Example.therapist "t1" 500 (Some idleSession))
                (JsNumber.ofZ 500) Example.teen Example.T0
                example_idle_validated eq_refl eq_refl eq_refl)
      as (_ & H & _).
    destruct (H ltac:(split; vm_compute; discriminate)) as (Hc & _).
    exact Hc.
  - destruct (instantBook_then_joinSession Example.tz Example.env0
                (Example.book 30) Example.idleStore
                (Example.therapist "t1" 500 (Some idleSession))
                (JsNumber.ofZ 500) Example.teen (Example.T0 - 1)
                example_idle_validated eq_refl eq_refl eq_refl)
      as (_ & _ & H).
    destruct (H ltac:(vm_compute; reflexivity)) as (_ & Hc).
    exact Hc.
Defined.

Lemma endSession_spares_other_booking_witness :
  code (fst (endSession Example.T0 "u1" "a0" Overlap.store)) = 200
  /\ ledger "t1" (snd (endSession Example.T0 "u1" "a0" Overlap.store))
     = Some Example.bookedSession.
Proof.
  assert (Ha : Db.appointmentById "a0" Overlap.store
               = Some (Example.overdue "a0" "t1")) by reflexivity.
  assert (Ht : Db.therapistById
                 (Appointment.therapistId (Example.overdue "a0" "t1"))
                 Overlap.store = Some Example.bookedTherapist)
    by reflexivity.
  assert (Hother :
    match TherapistAuth.currentSession Example.bookedTherapist with
    | Some cs =>
        exists i, appointmentId cs = Some i
                  /\ i <> Appointment._id (Example.overdue "a0" "t1")
    | None => True
    end) by (exists "a1"; split; [reflexivity | discriminate]).
  destruct (endSession_spares_other_booking Example.T0 "u1" "a0"
              Overlap.store (Example.overdue "a0" "t1")
              Example.bookedTherapist Ha Ht Hother)
    as (H1 & _ & _).
  rewrite H1. split; reflexivity.
Defined.

Lemma endSession_failures_witness :
  endSession Example.T0 "u1" "a9" Example.sweepStore
  = (failure 404 "Appointment not found", Example.sweepStore)
  /\ code (fst (endSession Example.T0 "u1" "a1" Example.sweepStore)) = 500
  /\ statusOf "a1" (snd (endSession Example.T0 "u1" "a1" Example.sweepStore))
     = Some completed.
Proof.
  destruct (endSession_failures Example.T0 "u1" "a9" Example.sweepStore)
    as (H404 & _).
  destruct (endSession_failures Example.T0 "u1" "a1" Example.sweepStore)
    as (_ & H500).
  split; [exact (H404 eq_refl)|].
  destruct (H500 (Example.overdue "a1" "t1") eq_refl
              (or_intror
                 (ex_intro _ _
                    (ex_intro _ _ (conj eq_refl (conj eq_refl eq_refl))))))
    as (Hc & _ & _ & Hs).
  split; [exact Hc | exact Hs].
Defined.

Lemma joinSession_refusals_witness :
  fst (joinSession Example.T0 "u1" "a9" Example.bookedStore)
  = failure 404 "Appointment not found"
  /\ fst (joinSession (Example.T0 + Example.minutes 10) "u9" "a1"
            Example.bookedStore)
     = failure 403 "You are not authorized to join this session".
Proof.
  destruct (joinSession_refusals Example.T0 "u1" "a9" Example.bookedStore)
    as (_ & H404 & _).
  destruct (joinSession_refusals (Example.T0 + Example.minutes 10) "u9" "a1"
              Example.bookedStore) as (_ & _ & H403 & _).
  split; [exact (H404 eq_refl)|].
  apply (H403 Example.bookedAppointment Example.teen Example.bookedTherapist);
    try reflexivity; discriminate.
Defined.

Lemma completed_is_absorbing_witness :
  statusOf "a1"
    (run Example.tz
       [EndSession (Example.T0 + Example.minutes 36) "u9" "a1";
        SweeperTick (Example.T0 + Example.minutes 40);
        InstantBook (mkEnv (Example.T0 + Example.minutes 50) "a2" "x" "y")
          (Example.book 60);
        JoinSession (Example.T0 + Example.minutes 51) "u1" "a1";
        TherapistStatus (Example.T0 + Example.minutes 52) "t1"]
       (snd (endSession (Example.T0 + Example.minutes 35) "u1" "a1"
               Example.bookedStore)))
  = Some completed.
Proof.
  apply (completed_is_absorbing Example.tz "a1"); reflexivity.
Defined.

Lemma terminal_status_kept_witness :
  statusOf "a1"
    (run Example.tz
       [SweeperTick (Example.T0 + Example.minutes 40);
        InstantBook (mkEnv (Example.T0 + Example.minutes 50) "a2" "x" "y")
          (Example.book 60);
        JoinSession (Example.T0 + Example.minutes 51) "u1" "a1"]
       Example.cancelledStore)
  = Some cancelled.
Proof.
  assert (Hterm : terminalUnder "a1" Example.cancelledStore).
  { intros x [<- | []] _. discriminate. }
  destruct (terminal_status_kept Example.tz "a1"
              [SweeperTick (Example.T0 + Example.minutes 40);
               InstantBook
                 (mkEnv (Example.T0 + Example.minutes 50) "a2" "x" "y")
                 (Example.book 60);
               JoinSession (Example.T0 + Example.minutes 51) "u1" "a1"]
              Example.cancelledStore Hterm eq_refl) as (H & _).
  rewrite H. reflexivity.
Defined.


Lemma sweeper_end_is_truncated_witness :
  sessionEndTime Example.tz Example.bookedAppointment
  = Some (Example.T0 + Example.minutes 35 - 20000).
Proof.
  exact (proj1 (sweeper_end_is_truncated Example.tz Example.T0
                  Example.bookedAppointment eq_refl)).
Defined.

Lemma sweeperTick_without_error_witness :
  fst (sweeperTick Example.tz (Example.T0 + Example.minutes 40)
         Example.bookedStore) = None
  /\ statusOf "a1"
       (snd (sweeperTick Example.tz (Example.T0 + Example.minutes 40)
               Example.bookedStore)) = Some completed.
Proof.
  assert (Href : ledgersReferenced Example.bookedStore).
  { intros t cs [<- | []] Hcs _. injection Hcs as <-. discriminate. }
  destruct (sweeperTick_without_error Example.tz
              (Example.T0 + Example.minutes 40) Example.bookedStore Href)
    as (H1 & H2).
  split; [exact H1|].
  apply (H2 Example.bookedAppointment);
    [now left | reflexivity | vm_compute; discriminate | reflexivity].
Defined.

Lemma instantBook_amount_within_one_witness :
  Example.chargedAmount 500 30 = Some (JsNumber.ofZ 500)
  \/ Example.chargedAmount 500 30 = Some (JsNumber.ofZ 501).
Proof.
  set (doc := Example.therapist "t1" 500 (Some idleSession)).
  set (st := mkStore [doc] [] [Example.teen]).
  assert (Hv : passesValidation (Example.book 30) st doc (JsNumber.ofZ 500)).
  { unfold passesValidation.
    repeat split; try reflexivity; [discriminate | now left]. }
  destruct (instantBook_free Example.tz Example.env0 (Example.book 30)
              st doc (JsNumber.ofZ 500) Example.teen Hv eq_refl eq_refl)
    as (st' & E & _).
  assert (Hc : Example.chargedAmount 500 30
               = Some (Appointment.amount
                         (Appointment.payment
                            (createdAppointment Example.tz Example.env0
                               (Example.book 30) doc (JsNumber.ofZ 500))))).
  { unfold Example.chargedAmount. fold doc. fold st. now rewrite E. }
  rewrite Hc.
  destruct (instantBook_amount_within_one Example.tz Example.env0
              (Example.book 30) st doc 500
              (bookedReply
                 (createdAppointment Example.tz Example.env0
                    (Example.book 30) doc (JsNumber.ofZ 500)))
              st'
              (createdAppointment Example.tz Example.env0
                 (Example.book 30) doc (JsNumber.ofZ 500))
              (Example.T0 + 300000)
              ltac:(lia) Hv E eq_refl) as [H | H];
    rewrite H; [now left | now right].
Defined.

Lemma endSession_then_joinSession_witness :
  code (fst (joinSession (Example.T0 + Example.minutes 20) "u1" "a1"
               (snd (endSession (Example.T0 + Example.minutes 10) "u1" "a1"
                       Example.bookedStore)))) = 200.
Proof.
  destruct (endSession_then_joinSession (Example.T0 + Example.minutes 10)
              "u1" (Example.T0 + Example.minutes 20) "u1" "a1"
              Example.bookedStore Example.bookedAppointment Example.teen
              Example.bookedTherapist eq_refl eq_refl eq_refl
              (or_introl eq_refl)
              ltac:(split; vm_compute; discriminate))
    as (_ & H & _).
  exact H.
Defined.

Lemma client_join_admitted_witness :
  (exists r,
     handleJoinSession Example.tz (Example.T0 + Example.minutes 5)
       (Example.T0 + Example.minutes 5 + 2000) "u1"
       (Client.view Example.bookedAppointment Example.T0) Example.bookedStore
     = Some (r, Example.bookedStore)
     /\ code r = 200)
  /\ (exists r,
        handleJoinSession Example.tz (Example.T0 + Example.minutes 34)
          (Example.T0 + Example.minutes 35 + 2000) "u1"
          (Client.view Example.bookedAppointment Example.T0)
          Example.bookedStore
        = Some (r, Example.bookedStore)
        /\ r = mkResponse 400 false (Some "This session has ended")
                 None None None None).
Proof.
  assert (Hdur : 0 <= Appointment.duration Example.bookedAppointment)
    by (vm_compute; discriminate).
  assert (Hcreated : Appointment.date Example.bookedAppointment
                     <= Example.T0 + 300000)
    by (vm_compute; discriminate).
  split.
  - assert (Hclock : Example.T0 + Example.minutes 5 - 300000
                     <= Example.T0 + Example.minutes 5 + 2000)
      by (vm_compute; discriminate).
    destruct (client_join_admitted Example.tz
                (Example.T0 + Example.minutes 5)
                (Example.T0 + Example.minutes 5 + 2000) "u1"
                Example.bookedStore
                Example.bookedAppointment Example.teen Example.bookedTherapist
                Example.T0 eq_refl eq_refl eq_refl (or_introl eq_refl)
                Hdur Hcreated eq_refl Hclock)
      as (r & Hr & Hopen & _).
    exists r. split; [exact Hr|].
    destruct (Hopen ltac:(vm_compute; discriminate)) as (i & n & v & E).
    rewrite E. reflexivity.
  - assert (Hclock : Example.T0 + Example.minutes 34 - 300000
                     <= Example.T0 + Example.minutes 35 + 2000)
      by (vm_compute; discriminate).
    destruct (client_join_admitted Example.tz
                (Example.T0 + Example.minutes 34)
                (Example.T0 + Example.minutes 35 + 2000) "u1"
                Example.bookedStore
                Example.bookedAppointment Example.teen Example.bookedTherapist
                Example.T0 eq_refl eq_refl eq_refl (or_introl eq_refl)
                Hdur Hcreated eq_refl Hclock)
      as (r & Hr & _ & Hover).
    exists r. split; [exact Hr|].
    apply Hover. vm_compute. reflexivity.
Defined.

Lemma client_blocks_session_over_midnight_witness :
  Appointment.startTime Night.appointment = "23:48"
  /\ Appointment.endTime Night.appointment = "00:18"
  /\ canJoinSession Example.tz (Appointment.date Night.appointment)
       (Client.view Night.appointment (now Night.env)) = false
  /\ code (fst (joinSession (Appointment.date Night.appointment) "u1" "a7"
                  Night.store)) = 200.
Proof.
  assert (Hdur : 0 <= Appointment.duration Night.appointment * 60000
                 < 86400000)
    by (split; vm_compute; [discriminate | reflexivity]).
  assert (Hcreated : Appointment.date Night.appointment
                     <= now Night.env + 300000)
    by (vm_compute; discriminate).
  assert (Hcross :
            (Appointment.date Night.appointment + Example.tz) / 86400000
            < (Appointment.date Night.appointment
               + Appointment.duration Night.appointment * 60000 + Example.tz)
              / 86400000)
    by (vm_compute; reflexivity).
  destruct (client_blocks_session_over_midnight Example.tz Example.tz
              (Appointment.date Night.appointment)
              (Appointment.date Night.appointment) "u1" Night.store
              Night.appointment Example.teen
              (TherapistAuth.set_currentSession
                 (Example.therapist "t1" 500 (Some idleSession))
                 (occupiedSession Night.env (Example.book 30)))
              (now Night.env)
              eq_refl eq_refl eq_refl eq_refl (or_introl eq_refl) eq_refl
              Hdur Hcreated Hcross)
    as (H1 & _ & _ & _ & H2).
  split; [reflexivity|]. split; [reflexivity|]. split; [exact H1|].
  apply H2. split; vm_compute; discriminate.
Defined.

Lemma countdown_ends_session_witness :
  callEndTime Example.tz (Client.view Example.bookedAppointment Example.T0)
  = Some (Example.T0 + Example.minutes 35 - 20000)
  /\ statusOf "a1"
       (snd (updateTimer (Example.T0 + Example.minutes 35 - 20000)
               (Example.T0 + Example.minutes 35 - 20500)
               (Example.T0 + Example.minutes 35 - 20400) "u1" (Some "a1")
               Example.bookedStore)) = Some completed
  /\ ledger "t1"
       (snd (updateTimer (Example.T0 + Example.minutes 35 - 20000)
               (Example.T0 + Example.minutes 35 - 20500)
               (Example.T0 + Example.minutes 35 - 20400) "u1" (Some "a1")
               Example.bookedStore))
     = Some (mkSession true None None
               (Some (Example.T0 + Example.minutes 45 - 20400))).
Proof.
  assert (Hid : Appointment._id Example.bookedAppointment <> "")
    by discriminate.
  assert (Hbound :
            - 2 ^ 53
            < Appointment.date Example.bookedAppointment
              + Appointment.duration Example.bookedAppointment * 60000
              - (Appointment.date Example.bookedAppointment + Example.tz)
                mod 60000
              - (Example.T0 + Example.minutes 35 - 20500)
            < 2 ^ 53)
    by (split; vm_compute; reflexivity).
  destruct (countdown_ends_session Example.tz Example.tz
              (Example.T0 + Example.minutes 35 - 20500)
              (Example.T0 + Example.minutes 35 - 20400) "u1"
              Example.bookedStore Example.bookedAppointment
              Example.bookedTherapist Example.bookedSession Example.T0
              eq_refl eq_refl Hid eq_refl eq_refl eq_refl eq_refl Hbound)
    as (H1 & _ & _ & _ & H2).
  split; [exact H1|].
  destruct (H2 ltac:(vm_compute; reflexivity)) as (Hs & Hl).
  split; [exact Hs | exact Hl].
Defined.
